(** * ED CT Brain workflow backend: a shallow embedding and its properties

    The development follows the layout of [backend/src]: the Python
    primitives the code relies on ([Py]), the persisted entities
    ([models/]), the database session, then one module per source file
    ([agents/clinical_agent.py], [agents/resource_agent.py],
    [agents/patient_agent.py], [agents/orchestration_agent.py],
    [utils/auth.py], [api/middleware/auth_middleware.py],
    [api/routes/scans.py], [api/websocket.py]).  The properties come
    after all the definitions. *)

From Stdlib Require Import ZArith NArith String Ascii List Bool Lia DecimalString.
From stdpp Require Import gmap strings list fin_maps.

Open Scope string_scope.
Open Scope Z_scope.
Open Scope list_scope.

(* ===================================================================== *)
(** * Part I: definitions *)
(* ===================================================================== *)

(** ** Python primitives

    Text is a string of 8-bit characters read as the code points 0..255;
    [isspace] and [lower_char] are Python's [str.isspace] and [str.lower]
    on that range. *)

Module Py.

Definition isspace (c : ascii) : bool :=
  let n := N_of_ascii c in
  (((9 <=? n) && (n <=? 13)) || ((28 <=? n) && (n <=? 32))
   || (n =? 133) || (n =? 160))%N.

Definition lower_char (c : ascii) : ascii :=
  let n := N_of_ascii c in
  if (((65 <=? n) && (n <=? 90))
      || ((192 <=? n) && (n <=? 222) && negb (n =? 215)))%N
  then ascii_of_N (n + 32) else c.

(** [s.lower()] *)
Fixpoint lower (s : string) : string :=
  match s with
  | EmptyString => EmptyString
  | String c s' => String (lower_char c) (lower s')
  end.

(** [needle in hay] on strings *)
Fixpoint contains (needle hay : string) : bool :=
  String.prefix needle hay
  || match hay with
     | EmptyString => false
     | String _ hay' => contains needle hay'
     end.

Fixpoint split_go (cur s : string) : list string :=
  match s with
  | EmptyString =>
      match cur with EmptyString => [] | _ => [cur] end
  | String c s' =>
      if isspace c then
        match cur with
        | EmptyString => split_go EmptyString s'
        | _ => cur :: split_go EmptyString s'
        end
      else split_go (cur +:+ String c EmptyString) s'
  end.

(** [s.split()]: the maximal runs of non-whitespace characters *)
Definition split (s : string) : list string := split_go EmptyString s.

Fixpoint split_on_go (sep : ascii) (cur s : string) : list string :=
  match s with
  | EmptyString => [cur]
  | String c s' =>
      if Ascii.eqb c sep then cur :: split_on_go sep EmptyString s'
      else split_on_go sep (cur +:+ String c EmptyString) s'
  end.

(** [s.split(sep)] for a one-character separator *)
Definition split_on (sep : ascii) (s : string) : list string :=
  split_on_go sep EmptyString s.

Fixpoint lstrip (s : string) : string :=
  match s with
  | EmptyString => EmptyString
  | String c s' => if isspace c then lstrip s' else s
  end.

Fixpoint rstrip (s : string) : string :=
  match s with
  | EmptyString => EmptyString
  | String c s' =>
      match rstrip s' with
      | EmptyString => if isspace c then EmptyString else String c EmptyString
      | r => String c r
      end
  end.

(** [s.strip()] *)
Definition strip (s : string) : string := rstrip (lstrip s).

(** [set(l)] for a list of words *)
Definition set_of (l : list string) : gset string := list_to_set l.

(** [str(n)] for an integer *)
Definition str_of_int (n : Z) : string := NilZero.string_of_int (Z.to_int n).

Definition is_digit (c : ascii) : bool :=
  let n := N_of_ascii c in ((48 <=? n) && (n <=? 57))%N.

Definition digit_val (c : ascii) : Z := Z.of_N (N_of_ascii c) - 48.

(** The digits of an integer literal, with single underscores allowed
    between two digits; [prev] tells whether the previous character was a
    digit. *)
Fixpoint int_digits (acc : Z) (prev : bool) (s : string) : option Z :=
  match s with
  | EmptyString => if prev then Some acc else None
  | String c s' =>
      if is_digit c then int_digits (10 * acc + digit_val c) true s'
      else if Ascii.eqb c "_"%char then
        (if prev then int_digits acc false s' else None)
      else None
  end.

(** The characters that [int] skips around a literal: the ASCII white
    space, and the two other white-space characters of the range, which
    the conversion first turns into spaces.  The separators 28 to 31
    are not skipped, although [str.strip] removes them. *)
Definition int_space (c : ascii) : bool :=
  let n := N_of_ascii c in
  (((9 <=? n) && (n <=? 13)) || (n =? 32) || (n =? 133) || (n =? 160))%N.

Fixpoint int_lstrip (s : string) : string :=
  match s with
  | EmptyString => EmptyString
  | String c s' => if int_space c then int_lstrip s' else s
  end.

Fixpoint int_rstrip (s : string) : string :=
  match s with
  | EmptyString => EmptyString
  | String c s' =>
      match int_rstrip s' with
      | EmptyString => if int_space c then EmptyString else String c EmptyString
      | r => String c r
      end
  end.

(** The number of digits of a literal. *)
Fixpoint count_digits (s : string) : Z :=
  match s with
  | EmptyString => 0
  | String c s' => (if is_digit c then 1 else 0) + count_digits s'
  end.

(** The default limit on the digits of a string converted to an
    integer. *)
Definition int_max_str_digits : Z := 4300.

(** [int(s)] for a string; [None] stands for the ValueError. *)
Definition int_of_str (s : string) : option Z :=
  let literal := int_rstrip (int_lstrip s) in
  if int_max_str_digits <? count_digits literal then None
  else
    match literal with
    | String "-"%char r => Z.opp <$> int_digits 0 false r
    | String "+"%char r => int_digits 0 false r
    | r => int_digits 0 false r
    end.

(** A [float]: a zero, an infinity, a NaN, or the number
    [mantissa * 2 ^ exponent] with its sign. *)
Inductive float :=
  | FZero (negative : bool)
  | FInfinity (negative : bool)
  | FNaN
  | FFinite (negative : bool) (mantissa : positive) (exponent : Z).

(** The integer part of a finite [float], towards zero. *)
Definition float_trunc (negative : bool) (mantissa : positive) (exponent : Z)
    : Z :=
  let magnitude :=
    if 0 <=? exponent then Z.pos mantissa * 2 ^ exponent
    else Z.pos mantissa / 2 ^ (- exponent) in
  if negative then - magnitude else magnitude.

#[local] Set Warnings "-register-all".

(** Values found in a JSON-like mapping ([Dict[str, Any]]); a [VDict]
    lists the items of a mapping in their order. *)
Inductive value :=
  | VNone
  | VBool (b : bool)
  | VInt (n : Z)
  | VStr (s : string)
  | VFloat (f : float)
  | VList (items : list value)
  | VDict (items : list (string * value)).

(** Truth value of an object, as tested by [if v:]. *)
Definition truthy (v : value) : bool :=
  match v with
  | VNone => false
  | VBool b => b
  | VInt n => negb (n =? 0)
  | VStr s => negb (String.eqb s EmptyString)
  | VFloat (FZero _) => false
  | VFloat _ => true
  | VList [] => false
  | VList _ => true
  | VDict [] => false
  | VDict _ => true
  end.

(** The outcome of [int(v)]: the integer, a ValueError, or another
    exception (TypeError, OverflowError). *)
Inductive conversion :=
  | Converted (n : Z)
  | NotAnInteger
  | NotConvertible.

(** [int(v)] *)
Definition int_of (v : value) : conversion :=
  match v with
  | VNone => NotConvertible
  | VBool b => Converted (if b then 1 else 0)
  | VInt n => Converted n
  | VStr s =>
      match int_of_str s with
      | Some n => Converted n
      | None => NotAnInteger
      end
  | VFloat (FZero _) => Converted 0
  | VFloat (FInfinity _) => NotConvertible
  | VFloat FNaN => NotAnInteger
  | VFloat (FFinite negative mantissa exponent) =>
      Converted (float_trunc negative mantissa exponent)
  | VList _ => NotConvertible
  | VDict _ => NotConvertible
  end.

(** [v == s] for a string literal [s] *)
Definition eq_str (v : value) (s : string) : bool :=
  match v with
  | VStr t => String.eqb t s
  | _ => false
  end.

End Py.

(** [kw] occurs in [text]: some characters, then [kw], then the rest. *)
Definition occurs (kw text : string) : Prop :=
  exists a b : string, text = a +:+ kw +:+ b.

(** ** Notions of the specification

    The specification speaks of texts compared without regard to case,
    of the words of a text and of trimmed keywords.  These notions are
    defined here on their own; Part II relates the Python primitives to
    them. *)

Module Text.

(** The upper-case letters of the range: A to Z, and the accented
    capitals. *)
Definition is_upper (c : ascii) : bool :=
  let n := N_of_ascii c in
  (((65 <=? n) && (n <=? 90))
   || ((192 <=? n) && (n <=? 222) && negb (n =? 215)))%N.

(** The same character, or a letter and its upper-case form. *)
Definition same_letter (c d : ascii) : Prop :=
  c = d
  \/ (is_upper c = true /\ N_of_ascii d = (N_of_ascii c + 32)%N)
  \/ (is_upper d = true /\ N_of_ascii c = (N_of_ascii d + 32)%N).

(** Two texts that differ in case only. *)
Fixpoint same_ignoring_case (a b : string) : Prop :=
  match a, b with
  | EmptyString, EmptyString => True
  | String c a', String d b' => same_letter c d /\ same_ignoring_case a' b'
  | _, _ => False
  end.

(** [kw] occurs in [text] whatever the case of the letters of
    [text]. *)
Definition occurs_ignoring_case (kw text : string) : Prop :=
  exists a m b : string, text = a +:+ m +:+ b /\ same_ignoring_case m kw.

Fixpoint all_chars (p : ascii -> bool) (s : string) : bool :=
  match s with
  | EmptyString => true
  | String c s' => p c && all_chars p s'
  end.








End Text.


(** The number that an answer to a question of the anxiety questionnaire
    stands for.  An absent answer and an answer that counts as false
    (null, false, 0, an empty text, list or mapping) stand for 0; true
    stands for 1; a fractional number stands for its integer part; a text
    stands for the integer it spells.  A text that spells no integer, a
    NaN, an infinity, and a non-empty list or mapping stand for no
    number. *)
Definition answer_number (answer : option Py.value) : option Z :=
  match answer with
  | None => Some 0
  | Some Py.VNone => Some 0
  | Some (Py.VBool b) => Some (if b then 1 else 0)
  | Some (Py.VInt n) => Some n
  | Some (Py.VStr EmptyString) => Some 0
  | Some (Py.VStr text) => Py.int_of_str text
  | Some (Py.VFloat (Py.FZero _)) => Some 0
  | Some (Py.VFloat (Py.FFinite negative mantissa exponent)) =>
      Some (Py.float_trunc negative mantissa exponent)
  | Some (Py.VFloat Py.FNaN) | Some (Py.VFloat (Py.FInfinity _)) => None
  | Some (Py.VList []) | Some (Py.VDict []) => Some 0
  | Some (Py.VList (_ :: _)) | Some (Py.VDict (_ :: _)) => None
  end.


(** ** Exceptions and outcomes

    [ValueError msg] is a ValueError raised by a [raise] statement of the
    code, with its message.  [BuiltinError] stands for an exception raised
    inside a built-in or a library operation ([int], an enumeration call,
    [datetime] and [timedelta] arithmetic, the token library) or by the
    access to an attribute of a null value: a ValueError, TypeError,
    OverflowError or AttributeError whose class and message are not kept
    apart. *)

Inductive exn :=
  | ValueError (msg : string)
  | BuiltinError
  | NameError (name : string)
  | HTTPException (status_code : Z) (detail : string).

Inductive outcome (A : Type) :=
  | Return (a : A)
  | Raise (e : exn).
Arguments Return {A} a.
Arguments Raise {A} e.

(** A [datetime] is a count of microseconds. *)
Definition datetime := Z.

(** ** Persisted entities ([models/]) *)

(** A float column; the operations modelled here only carry such a value
    around, so it is kept as its 64-bit pattern. *)
Definition float64 := Z.

(** [models/ct_scan.py]: the enumerations, with their [.value]. *)
Inductive ScanStatus :=
  | ORDERED | VALIDATED | SCHEDULED | IN_PREP | IN_PROGRESS
  | COMPLETED | REPORTED | CANCELLED.

Definition ScanStatus_value (s : ScanStatus) : string :=
  match s with
  | ORDERED => "ordered"
  | VALIDATED => "validated"
  | SCHEDULED => "scheduled"
  | IN_PREP => "in_prep"
  | IN_PROGRESS => "in_progress"
  | COMPLETED => "completed"
  | REPORTED => "reported"
  | CANCELLED => "cancelled"
  end.

Inductive UrgencyLevel := IMMEDIATE | URGENT | ROUTINE.

Definition UrgencyLevel_value (u : UrgencyLevel) : string :=
  match u with
  | IMMEDIATE => "immediate"
  | URGENT => "urgent"
  | ROUTINE => "routine"
  end.

Inductive AppropriatenessScore := VERY_HIGH | HIGH | MODERATE | LOW | VERY_LOW.

Definition AppropriatenessScore_value (a : AppropriatenessScore) : string :=
  match a with
  | VERY_HIGH => "very_high"
  | HIGH => "high"
  | MODERATE => "moderate"
  | LOW => "low"
  | VERY_LOW => "very_low"
  end.

(** [E(v)]: the member whose value is [v], if any (Python raises
    ValueError otherwise). *)
Definition enum_of_value {E : Type} (members : list E) (value : E -> string)
    (v : string) : option E :=
  List.find (fun m => String.eqb (value m) v) members.

Definition UrgencyLevel_of_value : string -> option UrgencyLevel :=
  enum_of_value [IMMEDIATE; URGENT; ROUTINE] UrgencyLevel_value.

Definition AppropriatenessScore_of_value : string -> option AppropriatenessScore :=
  enum_of_value [VERY_HIGH; HIGH; MODERATE; LOW; VERY_LOW] AppropriatenessScore_value.

Definition ScanStatus_of_value : string -> option ScanStatus :=
  enum_of_value
    [ORDERED; VALIDATED; SCHEDULED; IN_PREP; IN_PROGRESS; COMPLETED; REPORTED; CANCELLED]
    ScanStatus_value.

Inductive CTContrast := CONTRAST_NONE | WITH_CONTRAST | WITHOUT_CONTRAST.

(** [models/scanner.py] *)
Inductive ScannerStatus := AVAILABLE | IN_USE | MAINTENANCE | OUT_OF_SERVICE.

Inductive ScannerType := STANDARD | ADVANCED | DUAL_SOURCE.

Definition ScannerType_value (t : ScannerType) : string :=
  match t with
  | STANDARD => "standard"
  | ADVANCED => "advanced"
  | DUAL_SOURCE => "dual_source"
  end.

Definition ScannerStatus_eqb (a b : ScannerStatus) : bool :=
  match a, b with
  | AVAILABLE, AVAILABLE | IN_USE, IN_USE
  | MAINTENANCE, MAINTENANCE | OUT_OF_SERVICE, OUT_OF_SERVICE => true
  | _, _ => false
  end.

Definition ScannerType_eqb (a b : ScannerType) : bool :=
  match a, b with
  | STANDARD, STANDARD | ADVANCED, ADVANCED | DUAL_SOURCE, DUAL_SOURCE => true
  | _, _ => false
  end.

(** [models/patient.py] *)
Inductive Gender := MALE | FEMALE | OTHER.

Inductive PatientStatus :=
  | P_REGISTERED | P_WAITING | P_IN_PREP | P_IN_SCAN | P_POST_SCAN
  | P_COMPLETED | P_CANCELLED.

Inductive AnxietyLevel := ANX_NONE | ANX_MILD | ANX_MODERATE | ANX_SEVERE.

Definition AnxietyLevel_value (a : AnxietyLevel) : string :=
  match a with
  | ANX_NONE => "none"
  | ANX_MILD => "mild"
  | ANX_MODERATE => "moderate"
  | ANX_SEVERE => "severe"
  end.

(** [models/ct_scan.py], class [CTScan]: one row of [ct_scans]. *)

Module CTScan.

Record t := mk {
  id : string;
  scan_number : string;
  patient_id : string;
  ordering_physician_id : option string;
  radiology_technician_id : option string;
  radiologist_id : option string;
  scanner_id : option string;
  ct_indication : string;
  clinical_history : option string;
  symptoms : option string;
  onset_time : option datetime;
  gcs_score : option Z;
  neurological_findings : option string;
  urgency_level : option UrgencyLevel;
  appropriateness_score : option AppropriatenessScore;
  appropriateness_reason : option string;
  contrast : option CTContrast;
  ai_preliminary_findings : option string;
  ai_motion_artifact : option bool;
  ai_quality_score : option float64;
  status : ScanStatus;
  scheduled_time : option datetime;
  started_time : option datetime;
  completed_time : option datetime;
  reported_time : option datetime;
  preliminary_report : option string;
  final_report : option string;
  critical_findings : option bool;
  critical_findings_notification : option bool;
  transport_requested : option bool;
  transport_eta : option datetime;
  transport_team : option string;
  ordered_at : option datetime;
  created_at : option datetime;
  updated_at : option datetime
}.

Definition set_urgency_level (v : option UrgencyLevel) (r : t) : t :=
  mk (id r) (scan_number r) (patient_id r) (ordering_physician_id r)
    (radiology_technician_id r) (radiologist_id r) (scanner_id r)
    (ct_indication r) (clinical_history r) (symptoms r) (onset_time r)
    (gcs_score r) (neurological_findings r) v (appropriateness_score r)
    (appropriateness_reason r) (contrast r) (ai_preliminary_findings r)
    (ai_motion_artifact r) (ai_quality_score r) (status r)
    (scheduled_time r) (started_time r) (completed_time r) (reported_time r)
    (preliminary_report r) (final_report r) (critical_findings r)
    (critical_findings_notification r) (transport_requested r)
    (transport_eta r) (transport_team r) (ordered_at r) (created_at r)
    (updated_at r).

Definition set_appropriateness_score (v : option AppropriatenessScore) (r : t) : t :=
  mk (id r) (scan_number r) (patient_id r) (ordering_physician_id r)
    (radiology_technician_id r) (radiologist_id r) (scanner_id r)
    (ct_indication r) (clinical_history r) (symptoms r) (onset_time r)
    (gcs_score r) (neurological_findings r) (urgency_level r) v
    (appropriateness_reason r) (contrast r) (ai_preliminary_findings r)
    (ai_motion_artifact r) (ai_quality_score r) (status r)
    (scheduled_time r) (started_time r) (completed_time r) (reported_time r)
    (preliminary_report r) (final_report r) (critical_findings r)
    (critical_findings_notification r) (transport_requested r)
    (transport_eta r) (transport_team r) (ordered_at r) (created_at r)
    (updated_at r).

Definition set_appropriateness_reason (v : option string) (r : t) : t :=
  mk (id r) (scan_number r) (patient_id r) (ordering_physician_id r)
    (radiology_technician_id r) (radiologist_id r) (scanner_id r)
    (ct_indication r) (clinical_history r) (symptoms r) (onset_time r)
    (gcs_score r) (neurological_findings r) (urgency_level r)
    (appropriateness_score r) v (contrast r) (ai_preliminary_findings r)
    (ai_motion_artifact r) (ai_quality_score r) (status r)
    (scheduled_time r) (started_time r) (completed_time r) (reported_time r)
    (preliminary_report r) (final_report r) (critical_findings r)
    (critical_findings_notification r) (transport_requested r)
    (transport_eta r) (transport_team r) (ordered_at r) (created_at r)
    (updated_at r).

Definition set_status (v : ScanStatus) (r : t) : t :=
  mk (id r) (scan_number r) (patient_id r) (ordering_physician_id r)
    (radiology_technician_id r) (radiologist_id r) (scanner_id r)
    (ct_indication r) (clinical_history r) (symptoms r) (onset_time r)
    (gcs_score r) (neurological_findings r) (urgency_level r)
    (appropriateness_score r) (appropriateness_reason r) (contrast r)
    (ai_preliminary_findings r) (ai_motion_artifact r) (ai_quality_score r)
    v (scheduled_time r) (started_time r) (completed_time r)
    (reported_time r) (preliminary_report r) (final_report r)
    (critical_findings r) (critical_findings_notification r)
    (transport_requested r) (transport_eta r) (transport_team r)
    (ordered_at r) (created_at r) (updated_at r).

Definition set_scanner_id (v : option string) (r : t) : t :=
  mk (id r) (scan_number r) (patient_id r) (ordering_physician_id r)
    (radiology_technician_id r) (radiologist_id r) v (ct_indication r)
    (clinical_history r) (symptoms r) (onset_time r) (gcs_score r)
    (neurological_findings r) (urgency_level r) (appropriateness_score r)
    (appropriateness_reason r) (contrast r) (ai_preliminary_findings r)
    (ai_motion_artifact r) (ai_quality_score r) (status r)
    (scheduled_time r) (started_time r) (completed_time r) (reported_time r)
    (preliminary_report r) (final_report r) (critical_findings r)
    (critical_findings_notification r) (transport_requested r)
    (transport_eta r) (transport_team r) (ordered_at r) (created_at r)
    (updated_at r).

Definition set_scheduled_time (v : option datetime) (r : t) : t :=
  mk (id r) (scan_number r) (patient_id r) (ordering_physician_id r)
    (radiology_technician_id r) (radiologist_id r) (scanner_id r)
    (ct_indication r) (clinical_history r) (symptoms r) (onset_time r)
    (gcs_score r) (neurological_findings r) (urgency_level r)
    (appropriateness_score r) (appropriateness_reason r) (contrast r)
    (ai_preliminary_findings r) (ai_motion_artifact r) (ai_quality_score r)
    (status r) v (started_time r) (completed_time r) (reported_time r)
    (preliminary_report r) (final_report r) (critical_findings r)
    (critical_findings_notification r) (transport_requested r)
    (transport_eta r) (transport_team r) (ordered_at r) (created_at r)
    (updated_at r).

Definition set_started_time (v : option datetime) (r : t) : t :=
  mk (id r) (scan_number r) (patient_id r) (ordering_physician_id r)
    (radiology_technician_id r) (radiologist_id r) (scanner_id r)
    (ct_indication r) (clinical_history r) (symptoms r) (onset_time r)
    (gcs_score r) (neurological_findings r) (urgency_level r)
    (appropriateness_score r) (appropriateness_reason r) (contrast r)
    (ai_preliminary_findings r) (ai_motion_artifact r) (ai_quality_score r)
    (status r) (scheduled_time r) v (completed_time r) (reported_time r)
    (preliminary_report r) (final_report r) (critical_findings r)
    (critical_findings_notification r) (transport_requested r)
    (transport_eta r) (transport_team r) (ordered_at r) (created_at r)
    (updated_at r).

Definition set_completed_time (v : option datetime) (r : t) : t :=
  mk (id r) (scan_number r) (patient_id r) (ordering_physician_id r)
    (radiology_technician_id r) (radiologist_id r) (scanner_id r)
    (ct_indication r) (clinical_history r) (symptoms r) (onset_time r)
    (gcs_score r) (neurological_findings r) (urgency_level r)
    (appropriateness_score r) (appropriateness_reason r) (contrast r)
    (ai_preliminary_findings r) (ai_motion_artifact r) (ai_quality_score r)
    (status r) (scheduled_time r) (started_time r) v (reported_time r)
    (preliminary_report r) (final_report r) (critical_findings r)
    (critical_findings_notification r) (transport_requested r)
    (transport_eta r) (transport_team r) (ordered_at r) (created_at r)
    (updated_at r).

Definition set_reported_time (v : option datetime) (r : t) : t :=
  mk (id r) (scan_number r) (patient_id r) (ordering_physician_id r)
    (radiology_technician_id r) (radiologist_id r) (scanner_id r)
    (ct_indication r) (clinical_history r) (symptoms r) (onset_time r)
    (gcs_score r) (neurological_findings r) (urgency_level r)
    (appropriateness_score r) (appropriateness_reason r) (contrast r)
    (ai_preliminary_findings r) (ai_motion_artifact r) (ai_quality_score r)
    (status r) (scheduled_time r) (started_time r) (completed_time r) v
    (preliminary_report r) (final_report r) (critical_findings r)
    (critical_findings_notification r) (transport_requested r)
    (transport_eta r) (transport_team r) (ordered_at r) (created_at r)
    (updated_at r).

Definition set_updated_at (v : option datetime) (r : t) : t :=
  mk (id r) (scan_number r) (patient_id r) (ordering_physician_id r)
    (radiology_technician_id r) (radiologist_id r) (scanner_id r)
    (ct_indication r) (clinical_history r) (symptoms r) (onset_time r)
    (gcs_score r) (neurological_findings r) (urgency_level r)
    (appropriateness_score r) (appropriateness_reason r) (contrast r)
    (ai_preliminary_findings r) (ai_motion_artifact r) (ai_quality_score r)
    (status r) (scheduled_time r) (started_time r) (completed_time r)
    (reported_time r) (preliminary_report r) (final_report r)
    (critical_findings r) (critical_findings_notification r)
    (transport_requested r) (transport_eta r) (transport_team r)
    (ordered_at r) (created_at r) v.

Definition set_ct_indication (v : string) (r : t) : t :=
  mk (id r) (scan_number r) (patient_id r) (ordering_physician_id r)
    (radiology_technician_id r) (radiologist_id r) (scanner_id r) v
    (clinical_history r) (symptoms r) (onset_time r) (gcs_score r)
    (neurological_findings r) (urgency_level r) (appropriateness_score r)
    (appropriateness_reason r) (contrast r) (ai_preliminary_findings r)
    (ai_motion_artifact r) (ai_quality_score r) (status r)
    (scheduled_time r) (started_time r) (completed_time r) (reported_time r)
    (preliminary_report r) (final_report r) (critical_findings r)
    (critical_findings_notification r) (transport_requested r)
    (transport_eta r) (transport_team r) (ordered_at r) (created_at r)
    (updated_at r).

Definition set_clinical_history (v : option string) (r : t) : t :=
  mk (id r) (scan_number r) (patient_id r) (ordering_physician_id r)
    (radiology_technician_id r) (radiologist_id r) (scanner_id r)
    (ct_indication r) v (symptoms r) (onset_time r) (gcs_score r)
    (neurological_findings r) (urgency_level r) (appropriateness_score r)
    (appropriateness_reason r) (contrast r) (ai_preliminary_findings r)
    (ai_motion_artifact r) (ai_quality_score r) (status r)
    (scheduled_time r) (started_time r) (completed_time r) (reported_time r)
    (preliminary_report r) (final_report r) (critical_findings r)
    (critical_findings_notification r) (transport_requested r)
    (transport_eta r) (transport_team r) (ordered_at r) (created_at r)
    (updated_at r).

Definition set_symptoms (v : option string) (r : t) : t :=
  mk (id r) (scan_number r) (patient_id r) (ordering_physician_id r)
    (radiology_technician_id r) (radiologist_id r) (scanner_id r)
    (ct_indication r) (clinical_history r) v (onset_time r) (gcs_score r)
    (neurological_findings r) (urgency_level r) (appropriateness_score r)
    (appropriateness_reason r) (contrast r) (ai_preliminary_findings r)
    (ai_motion_artifact r) (ai_quality_score r) (status r)
    (scheduled_time r) (started_time r) (completed_time r) (reported_time r)
    (preliminary_report r) (final_report r) (critical_findings r)
    (critical_findings_notification r) (transport_requested r)
    (transport_eta r) (transport_team r) (ordered_at r) (created_at r)
    (updated_at r).

Definition set_neurological_findings (v : option string) (r : t) : t :=
  mk (id r) (scan_number r) (patient_id r) (ordering_physician_id r)
    (radiology_technician_id r) (radiologist_id r) (scanner_id r)
    (ct_indication r) (clinical_history r) (symptoms r) (onset_time r)
    (gcs_score r) v (urgency_level r) (appropriateness_score r)
    (appropriateness_reason r) (contrast r) (ai_preliminary_findings r)
    (ai_motion_artifact r) (ai_quality_score r) (status r)
    (scheduled_time r) (started_time r) (completed_time r) (reported_time r)
    (preliminary_report r) (final_report r) (critical_findings r)
    (critical_findings_notification r) (transport_requested r)
    (transport_eta r) (transport_team r) (ordered_at r) (created_at r)
    (updated_at r).

Definition set_contrast (v : option CTContrast) (r : t) : t :=
  mk (id r) (scan_number r) (patient_id r) (ordering_physician_id r)
    (radiology_technician_id r) (radiologist_id r) (scanner_id r)
    (ct_indication r) (clinical_history r) (symptoms r) (onset_time r)
    (gcs_score r) (neurological_findings r) (urgency_level r)
    (appropriateness_score r) (appropriateness_reason r) v
    (ai_preliminary_findings r) (ai_motion_artifact r) (ai_quality_score r)
    (status r) (scheduled_time r) (started_time r) (completed_time r)
    (reported_time r) (preliminary_report r) (final_report r)
    (critical_findings r) (critical_findings_notification r)
    (transport_requested r) (transport_eta r) (transport_team r)
    (ordered_at r) (created_at r) (updated_at r).

Definition set_preliminary_report (v : option string) (r : t) : t :=
  mk (id r) (scan_number r) (patient_id r) (ordering_physician_id r)
    (radiology_technician_id r) (radiologist_id r) (scanner_id r)
    (ct_indication r) (clinical_history r) (symptoms r) (onset_time r)
    (gcs_score r) (neurological_findings r) (urgency_level r)
    (appropriateness_score r) (appropriateness_reason r) (contrast r)
    (ai_preliminary_findings r) (ai_motion_artifact r) (ai_quality_score r)
    (status r) (scheduled_time r) (started_time r) (completed_time r)
    (reported_time r) v (final_report r) (critical_findings r)
    (critical_findings_notification r) (transport_requested r)
    (transport_eta r) (transport_team r) (ordered_at r) (created_at r)
    (updated_at r).

Definition set_final_report (v : option string) (r : t) : t :=
  mk (id r) (scan_number r) (patient_id r) (ordering_physician_id r)
    (radiology_technician_id r) (radiologist_id r) (scanner_id r)
    (ct_indication r) (clinical_history r) (symptoms r) (onset_time r)
    (gcs_score r) (neurological_findings r) (urgency_level r)
    (appropriateness_score r) (appropriateness_reason r) (contrast r)
    (ai_preliminary_findings r) (ai_motion_artifact r) (ai_quality_score r)
    (status r) (scheduled_time r) (started_time r) (completed_time r)
    (reported_time r) (preliminary_report r) v (critical_findings r)
    (critical_findings_notification r) (transport_requested r)
    (transport_eta r) (transport_team r) (ordered_at r) (created_at r)
    (updated_at r).

Definition set_critical_findings (v : option bool) (r : t) : t :=
  mk (id r) (scan_number r) (patient_id r) (ordering_physician_id r)
    (radiology_technician_id r) (radiologist_id r) (scanner_id r)
    (ct_indication r) (clinical_history r) (symptoms r) (onset_time r)
    (gcs_score r) (neurological_findings r) (urgency_level r)
    (appropriateness_score r) (appropriateness_reason r) (contrast r)
    (ai_preliminary_findings r) (ai_motion_artifact r) (ai_quality_score r)
    (status r) (scheduled_time r) (started_time r) (completed_time r)
    (reported_time r) (preliminary_report r) (final_report r) v
    (critical_findings_notification r) (transport_requested r)
    (transport_eta r) (transport_team r) (ordered_at r) (created_at r)
    (updated_at r).

End CTScan.

(** [models/scanner.py], class [Scanner]: one row of [scanners]. *)

Module Scanner.

Record t := mk {
  id : string;
  scanner_code : string;
  name : string;
  location : option string;
  scanner_type : ScannerType;
  slice_count : option Z;
  manufacturer : option string;
  model : option string;
  serial_number : option string;
  status : ScannerStatus;
  is_active : bool;
  operational_hours_start : string;
  operational_hours_end : string;
  avg_scan_duration_minutes : Z;
  daily_capacity : Z;
  today_scans_completed : Z;
  today_scans_scheduled : Z;
  current_utilization : float64;
  last_maintenance : option datetime;
  next_maintenance : option datetime;
  maintenance_notes : option string;
  created_at : option datetime;
  updated_at : option datetime
}.

Definition set_today_scans_scheduled (v : Z) (r : t) : t :=
  mk (id r) (scanner_code r) (name r) (location r) (scanner_type r)
    (slice_count r) (manufacturer r) (model r) (serial_number r) (status r)
    (is_active r) (operational_hours_start r) (operational_hours_end r)
    (avg_scan_duration_minutes r) (daily_capacity r)
    (today_scans_completed r) v (current_utilization r) (last_maintenance r)
    (next_maintenance r) (maintenance_notes r) (created_at r) (updated_at r).

Definition set_status (v : ScannerStatus) (r : t) : t :=
  mk (id r) (scanner_code r) (name r) (location r) (scanner_type r)
    (slice_count r) (manufacturer r) (model r) (serial_number r) v
    (is_active r) (operational_hours_start r) (operational_hours_end r)
    (avg_scan_duration_minutes r) (daily_capacity r)
    (today_scans_completed r) (today_scans_scheduled r)
    (current_utilization r) (last_maintenance r) (next_maintenance r)
    (maintenance_notes r) (created_at r) (updated_at r).

End Scanner.

(** [models/patient.py], class [Patient]: one row of [patients]. *)

Module Patient.

Record t := mk {
  id : string;
  mrn : string;
  name : string;
  ic_number : option string;
  date_of_birth : datetime;
  gender : Gender;
  phone : option string;
  email : option string;
  address : option string;
  ed_visit_id : option string;
  ward : option string;
  bed_number : option string;
  chief_complaint : option string;
  clinical_notes : option string;
  allergies : option string;
  status : PatientStatus;
  anxiety_level : AnxietyLevel;
  consent_given : bool;
  consent_timestamp : option datetime;
  digital_consent_form : option string;
  registered_at : option datetime;
  updated_at : option datetime
}.

Definition set_anxiety_level (v : AnxietyLevel) (r : t) : t :=
  mk (id r) (mrn r) (name r) (ic_number r) (date_of_birth r) (gender r)
    (phone r) (email r) (address r) (ed_visit_id r) (ward r) (bed_number r)
    (chief_complaint r) (clinical_notes r) (allergies r) (status r) v
    (consent_given r) (consent_timestamp r) (digital_consent_form r)
    (registered_at r) (updated_at r).

Definition set_status (v : PatientStatus) (r : t) : t :=
  mk (id r) (mrn r) (name r) (ic_number r) (date_of_birth r) (gender r)
    (phone r) (email r) (address r) (ed_visit_id r) (ward r) (bed_number r)
    (chief_complaint r) (clinical_notes r) (allergies r) v (anxiety_level r)
    (consent_given r) (consent_timestamp r) (digital_consent_form r)
    (registered_at r) (updated_at r).

Definition set_consent_given (v : bool) (r : t) : t :=
  mk (id r) (mrn r) (name r) (ic_number r) (date_of_birth r) (gender r)
    (phone r) (email r) (address r) (ed_visit_id r) (ward r) (bed_number r)
    (chief_complaint r) (clinical_notes r) (allergies r) (status r)
    (anxiety_level r) v (consent_timestamp r) (digital_consent_form r)
    (registered_at r) (updated_at r).

Definition set_consent_timestamp (v : option datetime) (r : t) : t :=
  mk (id r) (mrn r) (name r) (ic_number r) (date_of_birth r) (gender r)
    (phone r) (email r) (address r) (ed_visit_id r) (ward r) (bed_number r)
    (chief_complaint r) (clinical_notes r) (allergies r) (status r)
    (anxiety_level r) (consent_given r) v (digital_consent_form r)
    (registered_at r) (updated_at r).

End Patient.

(** [models/faq.py], class [FAQ]: one row of [faqs]. *)

Module FAQ.

Record t := mk {
  id : string;
  question : string;
  answer : string;
  category : option string;
  keywords : option string;
  language : option string;
  embedding : option string;
  view_count : Z;
  helpful_count : Z;
  not_helpful_count : Z;
  is_active : bool;
  created_at : option datetime;
  updated_at : option datetime
}.

Definition set_view_count (v : Z) (r : t) : t :=
  mk (id r) (question r) (answer r) (category r) (keywords r) (language r)
    (embedding r) v (helpful_count r) (not_helpful_count r) (is_active r)
    (created_at r) (updated_at r).

End FAQ.

(** ** The database session

    A table is the list of its rows in storage order.  The session keeps
    the committed tables ([stored]) and the objects it has loaded and
    possibly modified ([live]); queries read [live], [commit] makes it the
    stored state. *)

Record Tables := mkTables {
  ct_scans : list CTScan.t;
  scanners : list Scanner.t;
  patients : list Patient.t;
  faqs : list FAQ.t
}.

Record Session := mkSession {
  stored : Tables;
  live : Tables
}.

(** Computations on a session that may raise. *)
Definition M (A : Type) : Type := Session -> outcome A * Session.

Definition ret {A} (a : A) : M A := fun s => (Return a, s).

Definition raise {A} (e : exn) : M A := fun s => (Raise e, s).

Definition bind {A B} (m : M A) (k : A -> M B) : M B :=
  fun s =>
    match m s with
    | (Return a, s') => k a s'
    | (Raise e, s') => (Raise e, s')
    end.

Notation "x <- m ; k" := (bind m (fun x => k))
  (at level 20, m at level 100, k at level 200, only parsing).
Notation "m >> k" := (bind m (fun _ => k))
  (at level 20, k at level 200, only parsing).

(** [await db.commit()].  The [updated_at] columns, which the mapping
    stamps on every UPDATE of a row, are not tracked: after a commit the
    [updated_at] of a modified row is left as the code assigned it, and no
    statement below speaks of the [updated_at] of a row that was modified
    without assigning it. *)
Definition commit : M unit :=
  fun s => (Return tt, mkSession (live s) (live s)).

(** [select(T).where(T.id == i)] followed by [scalar_one_or_none()];
    [id] is the primary key. *)
Definition by_id {R} (key : R -> string) (i : string) (rows : list R) : option R :=
  List.find (fun r => String.eqb (key r) i) rows.

(** Attribute assignments on the loaded object whose key is [i]. *)
Definition update_id {R} (key : R -> string) (i : string) (f : R -> R)
    (rows : list R) : list R :=
  List.map (fun r => if String.eqb (key r) i then f r else r) rows.

Definition select_scan (i : string) : M (option CTScan.t) :=
  fun s => (Return (by_id CTScan.id i (ct_scans (live s))), s).

Definition select_scanner (i : string) : M (option Scanner.t) :=
  fun s => (Return (by_id Scanner.id i (scanners (live s))), s).

Definition select_patient (i : string) : M (option Patient.t) :=
  fun s => (Return (by_id Patient.id i (patients (live s))), s).

Definition assign_scan (i : string) (f : CTScan.t -> CTScan.t) : M unit :=
  fun s =>
    let t := live s in
    (Return tt,
     mkSession (stored s)
       (mkTables (update_id CTScan.id i f (ct_scans t)) (scanners t)
          (patients t) (faqs t))).

Definition assign_scanner (i : string) (f : Scanner.t -> Scanner.t) : M unit :=
  fun s =>
    let t := live s in
    (Return tt,
     mkSession (stored s)
       (mkTables (ct_scans t) (update_id Scanner.id i f (scanners t))
          (patients t) (faqs t))).

Definition assign_patient (i : string) (f : Patient.t -> Patient.t) : M unit :=
  fun s =>
    let t := live s in
    (Return tt,
     mkSession (stored s)
       (mkTables (ct_scans t) (scanners t)
          (update_id Patient.id i f (patients t)) (faqs t))).

Definition assign_faq (i : string) (f : FAQ.t -> FAQ.t) : M unit :=
  fun s =>
    let t := live s in
    (Return tt,
     mkSession (stored s)
       (mkTables (ct_scans t) (scanners t) (patients t)
          (update_id FAQ.id i f (faqs t)))).

(** [await db.refresh(obj)] reloads the attributes of [obj] from its
    stored row; the code only calls it right after [commit], when the two
    agree. *)
Definition refresh : M unit := ret tt.

(** ** [agents/clinical_agent.py] *)

Module ClinicalAgent.

(** The criteria table, in the order the dictionary literal lists it (the
    order in which [.items()] yields it). *)
Definition APPROPRIATENESS_CRITERIA : list (string * Z) :=
  [ ("head trauma, mild with loss of consciousness", 8);
    ("head trauma, mild without loss of consciousness", 4);
    ("head trauma, moderate to severe", 9);
    ("acute stroke symptoms", 9);
    ("altered mental status", 7);
    ("headache with focal neurological findings", 8);
    ("headache without focal findings", 2);
    ("seizure with focal features", 8);
    ("seizure without focal features", 3);
    ("suspected brain tumor", 7);
    ("dizziness/vertigo", 3);
    ("syncope", 4);
    ("cognitive decline", 6) ].

Definition immediate_indicators : list string :=
  [ "stroke"; "hemorrhage"; "bleeding"; "seizure"; "unconscious"; "coma";
    "focal deficit"; "mass effect"; "herniation" ].

Definition urgent_indicators : list string :=
  [ "trauma"; "head injury"; "confusion"; "altered"; "persistent headache";
    "vomiting"; "papilledema" ].

(** [any(indicator in text for indicator in indicators)] *)
Definition any_in (indicators : list string) (text : string) : bool :=
  existsb (fun indicator => Py.contains indicator text) indicators.

Definition _determine_urgency (text : string) : UrgencyLevel :=
  if any_in immediate_indicators text then IMMEDIATE
  else if any_in urgent_indicators text then URGENT
  else ROUTINE.

(** [len(overlap) >= min(2, len(criteria_words))] *)
Definition criteria_matches (criteria text : string) : bool :=
  let criteria_words := Py.set_of (Py.split criteria) in
  let text_words := Py.set_of (Py.split text) in
  let overlap := criteria_words ∩ text_words in
  Z.min 2 (Z.of_nat (size criteria_words)) <=? Z.of_nat (size overlap).

(** One turn of the loop over the table; the state is
    [(best_match_score, best_match_reason)]. *)
Definition criteria_step (text : string) (best : Z * string)
    (item : string * Z) : Z * string :=
  let '(criteria, score) := item in
  if criteria_matches criteria text then
    if fst best <? score then (score, "Matched criteria: " +:+ criteria)
    else best
  else best.

Definition score_category (best_match_score : Z) : AppropriatenessScore :=
  if 7 <=? best_match_score then VERY_HIGH
  else if 6 <=? best_match_score then HIGH
  else if 4 <=? best_match_score then MODERATE
  else if 2 <=? best_match_score then LOW
  else VERY_LOW.

Definition _calculate_appropriateness (text : string)
    : AppropriatenessScore * string :=
  let '(best_match_score, best_match_reason) :=
    fold_left (criteria_step text) APPROPRIATENESS_CRITERIA
      (0, "No specific criteria matched") in
  (score_category best_match_score,
   "Score: " +:+ Py.str_of_int best_match_score +:+ "/9 - "
     +:+ best_match_reason).

Definition _get_urgency_reason (urgency_level : UrgencyLevel) : string :=
  match urgency_level with
  | IMMEDIATE =>
      "Clinical findings suggest potentially life-threatening condition "
      +:+ "requiring immediate imaging."
  | URGENT =>
      "Clinical findings suggest condition requiring imaging within 1 hour."
  | ROUTINE =>
      "Clinical findings suggest routine imaging is appropriate. "
      +:+ "Scan can be scheduled within 24 hours."
  end.

Definition _generate_recommendations (urgency_level : UrgencyLevel)
    (appropriateness : AppropriatenessScore) (text : string) : list string :=
  (match urgency_level with
   | IMMEDIATE =>
       [ "Order scan as STAT - immediate priority";
         "Notify radiology immediately";
         "Consider pre-notification for potential thrombolysis";
         "Ensure IV access for potential contrast" ]
   | URGENT =>
       [ "Order scan as urgent - within 1 hour";
         "Notify radiology of urgent priority";
         "Prepare patient for scan" ]
   | ROUTINE =>
       [ "Order scan as routine";
         "Schedule based on scanner availability" ]
   end)
  ++ (match appropriateness with
      | LOW | VERY_LOW =>
          [ "Consider clinical consultation before proceeding";
            "CT may have limited diagnostic value for this indication";
            "Alternative imaging (MRI) may be more appropriate" ]
      | _ => []
      end)
  ++ (if Py.contains "stroke" text then
        [ "NIH Stroke Scale assessment required";
          "Determine last known well time";
          "Check eligibility for thrombolysis" ]
      else [])
  ++ (if Py.contains "trauma" text then
        [ "Assess for other injuries";
          "Consider C-spine clearance";
          "Monitor Glasgow Coma Scale" ]
      else [])
  ++ (if Py.contains "seizure" text then
        [ "Check anticonvulsant levels if applicable";
          "Consider EEG if indicated";
          "Assess for status epilepticus" ]
      else []).

(** The mapping returned by [analyze_ct_indication], one field per key. *)
Record Analysis := mkAnalysis {
  urgency_level : string;
  urgency_reason : string;
  appropriateness_score : string;
  appropriateness_reason : string;
  recommendations : list string;
  requires_radiologist_review : bool
}.

(** [x.lower() if x else ""] for an optional text *)
Definition lower_or_empty (x : option string) : string :=
  match x with
  | Some s => Py.lower s
  | None => ""
  end.

Definition combined_text (ct_indication : string)
    (clinical_history symptoms : option string) : string :=
  Py.lower ct_indication +:+ " " +:+ lower_or_empty clinical_history
    +:+ " " +:+ lower_or_empty symptoms.

Definition analyze_ct_indication (ct_indication : string)
    (clinical_history symptoms : option string) : Analysis :=
  let text := combined_text ct_indication clinical_history symptoms in
  let urgency := _determine_urgency text in
  let '(appropriateness, reason) := _calculate_appropriateness text in
  mkAnalysis (UrgencyLevel_value urgency) (_get_urgency_reason urgency)
    (AppropriatenessScore_value appropriateness) reason
    (_generate_recommendations urgency appropriateness text)
    (match urgency with IMMEDIATE => true | _ => false end).

(** The mapping returned by [update_scan_with_analysis]. *)
Record Summary := mkSummary {
  s_scan_id : string;
  s_urgency_level : option string;
  s_appropriateness_score : option string;
  s_status : string
}.

(** Evaluation of a name that is bound neither locally nor at module
    level. *)
Definition unbound_name {A} (name : string) : M A := raise (NameError name).

(** [E(v)] for an enumeration [E]; a value of no member raises. *)
Definition enum_call {E} (of_value : string -> option E) (v : string) : M E :=
  match of_value v with
  | Some e => ret e
  | None => raise BuiltinError
  end.

(** The module binds no name [db] (the session is [self.db]), so the
    statement [await db.refresh(scan)] raises NameError; what follows it
    is the return statement of the source.  The string assigned to
    [scan.status] is stored as the member it names. *)
Definition update_scan_with_analysis (scan_id : string)
    (analysis_result : Analysis) : M Summary :=
  found <- select_scan scan_id;
  match found with
  | None => raise (ValueError "CT scan not found")
  | Some scan =>
      u <- enum_call UrgencyLevel_of_value (urgency_level analysis_result);
      assign_scan scan_id (CTScan.set_urgency_level (Some u)) >>
      a <- enum_call AppropriatenessScore_of_value
             (appropriateness_score analysis_result);
      assign_scan scan_id (CTScan.set_appropriateness_score (Some a)) >>
      assign_scan scan_id
        (CTScan.set_appropriateness_reason
           (Some (appropriateness_reason analysis_result))) >>
      (if String.eqb (ScanStatus_value (CTScan.status scan)) "ordered"
       then assign_scan scan_id (CTScan.set_status VALIDATED)
       else ret tt) >>
      commit >>
      @unbound_name unit "db" >>
      reloaded <- select_scan scan_id;
      let scan := default scan reloaded in
      ret (mkSummary (CTScan.id scan)
             (UrgencyLevel_value <$> CTScan.urgency_level scan)
             (AppropriatenessScore_value <$> CTScan.appropriateness_score scan)
             (ScanStatus_value (CTScan.status scan)))
  end.

(** The mapping returned by [calculate_gcs_score]. *)
Record GCS := mkGCS {
  total_score : Z;
  eye : Z;
  verbal : Z;
  motor : Z;
  severity : string;
  interpretation : string
}.

Definition interpretations : list (Z * string) :=
  [ (15, "Normal consciousness");
    (13, "Minor brain injury");
    (9, "Moderate brain injury");
    (8, "Severe brain injury (coma)") ].

Fixpoint insert_desc (k : Z) (l : list Z) : list Z :=
  match l with
  | [] => [k]
  | x :: l' => if x <=? k then k :: l else x :: insert_desc k l'
  end.

(** [sorted(keys, reverse=True)] *)
Definition sorted_reverse (keys : list Z) : list Z :=
  fold_right insert_desc [] keys.

(** [d[key]] on the table *)
Definition table_get (d : list (Z * string)) (key : Z) : option string :=
  snd <$> List.find (fun kv => fst kv =? key) d.

(** The loop of [_interpret_gcs]: the first key, in the given order, that
    the score reaches. *)
Fixpoint first_reached (score : Z) (keys : list Z) : option Z :=
  match keys with
  | [] => None
  | key :: keys' => if key <=? score then Some key else first_reached score keys'
  end.

Definition _interpret_gcs (score : Z) : string :=
  match first_reached score (sorted_reverse (map fst interpretations)) with
  | Some key =>
      default "Critical - immediate intervention required"
        (table_get interpretations key)
  | None => "Critical - immediate intervention required"
  end.

Definition calculate_gcs_score (eye_response verbal_response motor_response : Z)
    : GCS :=
  let total_score := eye_response + verbal_response + motor_response in
  let severity :=
    if 13 <=? total_score then "mild"
    else if 9 <=? total_score then "moderate"
    else "severe" in
  mkGCS total_score eye_response verbal_response motor_response severity
    (_interpret_gcs total_score).

Definition suggest_additional_clinical_info (ct_indication : string)
    : list string :=
  let indication_lower := Py.lower ct_indication in
  [ "Time of symptom onset or last known well" ]
  ++ (if Py.contains "stroke" indication_lower then
        [ "NIH Stroke Scale score";
          "Current anticoagulation status";
          "Recent surgery or bleeding history" ]
      else [])
  ++ (if Py.contains "trauma" indication_lower then
        [ "Mechanism of injury";
          "Loss of consciousness duration";
          "Glasgow Coma Scale score";
          "Signs of focal neurological deficit" ]
      else [])
  ++ (if Py.contains "headache" indication_lower then
        [ "Headache characteristics (thunderclap, progressive)";
          "Associated symptoms (vomiting, visual changes)";
          "History of similar headaches" ]
      else [])
  ++ (if Py.contains "seizure" indication_lower then
        [ "Type of seizure";
          "Post-ictal period duration";
          "Anticonvulsant medications" ]
      else []).

End ClinicalAgent.

(** ** [datetime] arithmetic *)

Definition us_per_second : Z := 1000000.
Definition us_per_minute : Z := 60 * us_per_second.
Definition us_per_day : Z := 24 * 60 * us_per_minute.

(** [timedelta(minutes=n)] *)
Definition minutes (n : Z) : Z := n * us_per_minute.

(** [t.replace(hour=h, minute=m, second=0)]: same date and microsecond;
    [None] stands for the ValueError on an hour or a minute out of
    range. *)
Definition replace_hms (t : datetime) (h m : Z) : option datetime :=
  if (0 <=? h) && (h <=? 23) && (0 <=? m) && (m <=? 59) then
    Some (t - t mod us_per_day + h * 60 * us_per_minute + m * us_per_minute
          + t mod us_per_second)
  else None.

(** The first and the last [datetime], counted from 1970: the years 1 to
    9999. *)
Definition datetime_min : datetime := - 62135596800 * us_per_second.
Definition datetime_max : datetime := 253402300800 * us_per_second - 1.

(** [timedelta(minutes=n)]; [None] stands for the OverflowError beyond
    999999999 days. *)
Definition timedelta_minutes (n : Z) : option Z :=
  let d := n * us_per_minute in
  if (- 999999999 * us_per_day <=? d) && (d <? 1000000000 * us_per_day)
  then Some d else None.

(** [t + d] for a [timedelta] [d]; [None] stands for the OverflowError
    on a date out of range. *)
Definition datetime_add (t : datetime) (d : Z) : option datetime :=
  if (datetime_min <=? t + d) && (t + d <=? datetime_max) then Some (t + d)
  else None.

(** ** [agents/resource_agent.py] *)

Module ResourceAgent.

(** The mapping built by [_scanner_to_dict]. *)
Record ScannerDict := mkScannerDict {
  d_id : string;
  d_scanner_code : string;
  d_name : string;
  d_location : option string;
  d_scanner_type : string;
  d_slice_count : option Z;
  d_avg_scan_duration_minutes : Z;
  d_daily_capacity : Z;
  d_today_scans_completed : Z;
  d_today_scans_scheduled : Z;
  d_current_utilization : float64
}.

Definition _scanner_to_dict (scanner : Scanner.t) : ScannerDict :=
  mkScannerDict (Scanner.id scanner) (Scanner.scanner_code scanner)
    (Scanner.name scanner) (Scanner.location scanner)
    (ScannerType_value (Scanner.scanner_type scanner))
    (Scanner.slice_count scanner)
    (Scanner.avg_scan_duration_minutes scanner)
    (Scanner.daily_capacity scanner)
    (Scanner.today_scans_completed scanner)
    (Scanner.today_scans_scheduled scanner)
    (Scanner.current_utilization scanner).

(** [h, m = map(int, text.split(":"))]; [None] stands for the ValueError
    of [int] or of the unpacking. *)
Definition parse_hour_minute (text : string) : option (Z * Z) :=
  match map Py.int_of_str (Py.split_on ":"%char text) with
  | [Some h; Some m] => Some (h, m)
  | _ => None
  end.

(** [now] is the value of [datetime.utcnow()] read by the call. *)
Definition _is_within_operational_hours (now : datetime) (scanner : Scanner.t)
    (duration_minutes : Z) : outcome bool :=
  match parse_hour_minute (Scanner.operational_hours_start scanner) with
  | None => Raise BuiltinError
  | Some (start_hour, start_min) =>
      match parse_hour_minute (Scanner.operational_hours_end scanner) with
      | None => Raise BuiltinError
      | Some (end_hour, end_min) =>
          match replace_hms now start_hour start_min with
          | None => Raise BuiltinError
          | Some start_time =>
              match replace_hms now end_hour end_min with
              | None => Raise BuiltinError
              | Some end_time =>
                  match timedelta_minutes duration_minutes with
                  | None => Raise BuiltinError
                  | Some d =>
                      match datetime_add now d with
                      | None => Raise BuiltinError
                      | Some scan_end =>
                          Return
                            ((start_time <=? now) && (scan_end <=? end_time))
                      end
                  end
              end
          end
      end
  end.

(** The query of [find_available_scanner]. *)
Definition available_scanners (preferred_type : option ScannerType)
    (rows : list Scanner.t) : list Scanner.t :=
  let rows :=
    List.filter
      (fun r => ScannerStatus_eqb (Scanner.status r) AVAILABLE
                && Scanner.is_active r) rows in
  match preferred_type with
  | Some ty =>
      List.filter (fun r => ScannerType_eqb (Scanner.scanner_type r) ty) rows
  | None => rows
  end.

(** The loop of [find_available_scanner]; [clock k] is the time read when
    the scanner at position [k] of the query result is examined. *)
Fixpoint first_fitting (clock : nat -> datetime) (k : nat)
    (scan_duration_minutes : Z) (scanners : list Scanner.t)
    : outcome (option ScannerDict) :=
  match scanners with
  | [] => Return None
  | scanner :: rest =>
      if Scanner.today_scans_scheduled scanner <? Scanner.daily_capacity scanner
      then
        match _is_within_operational_hours (clock k) scanner
                scan_duration_minutes with
        | Raise e => Raise e
        | Return true => Return (Some (_scanner_to_dict scanner))
        | Return false =>
            first_fitting clock (S k) scan_duration_minutes rest
        end
      else first_fitting clock (S k) scan_duration_minutes rest
  end.

Definition find_available_scanner (clock : nat -> datetime)
    (scan_duration_minutes : Z) (preferred_type : option ScannerType)
    : M (option ScannerDict) :=
  fun s =>
    (first_fitting clock 0 scan_duration_minutes
       (available_scanners preferred_type (scanners (live s))), s).

(** The mapping returned by [schedule_scan]; the two times are the
    [datetime] values whose [isoformat()] the mapping holds. *)
Record Scheduled := mkScheduled {
  r_scan_id : string;
  r_scanner_id : string;
  r_scanner_code : string;
  r_scheduled_time : datetime;
  r_estimated_duration_minutes : Z;
  r_estimated_completion : datetime
}.

Definition schedule_scan (now : datetime) (scan_id scanner_id : string)
    (scheduled_time : option datetime) : M Scheduled :=
  found <- select_scan scan_id;
  match found with
  | None => raise (ValueError "CT scan not found")
  | Some scan =>
      found_scanner <- select_scanner scanner_id;
      match found_scanner with
      | None => raise (ValueError "Scanner not found")
      | Some scanner =>
          if negb (ScannerStatus_eqb (Scanner.status scanner) AVAILABLE)
          then raise (ValueError "Scanner is not available")
          else
            let scheduled_time :=
              match scheduled_time with
              | None => now + minutes 15
              | Some t => t
              end in
            assign_scan scan_id (CTScan.set_scanner_id (Some scanner_id)) >>
            assign_scan scan_id (CTScan.set_scheduled_time (Some scheduled_time)) >>
            assign_scan scan_id (CTScan.set_status SCHEDULED) >>
            assign_scanner scanner_id
              (fun r =>
                 Scanner.set_today_scans_scheduled
                   (Scanner.today_scans_scheduled r + 1) r) >>
            commit >>
            refresh >>
            refresh >>
            reloaded <- select_scan scan_id;
            reloaded_scanner <- select_scanner scanner_id;
            let scan := default scan reloaded in
            let scanner := default scanner reloaded_scanner in
            ret (mkScheduled (CTScan.id scan) (Scanner.id scanner)
                   (Scanner.scanner_code scanner) scheduled_time
                   (Scanner.avg_scan_duration_minutes scanner)
                   (scheduled_time
                    + minutes (Scanner.avg_scan_duration_minutes scanner)))
      end
  end.




(** [status.in_([SCHEDULED, IN_PREP, IN_PROGRESS])] *)
Definition is_active_status (s : ScanStatus) : bool :=
  match s with
  | SCHEDULED | IN_PREP | IN_PROGRESS => true
  | _ => false
  end.

(** The query of [_calculate_next_slot]: the scans of the scanner that are
    scheduled between [today_start] and [today_end] and are scheduled, in
    preparation or in progress.  A null column satisfies no comparison. *)
Definition scans_of_today (today_start today_end : datetime)
    (scanner : Scanner.t) (rows : list CTScan.t) : list CTScan.t :=
  List.filter
    (fun r =>
       match CTScan.scanner_id r with
       | Some i => String.eqb i (Scanner.id scanner)
       | None => false
       end
       && match CTScan.scheduled_time r with
          | Some t => (today_start <=? t) && (t <=? today_end)
          | None => false
          end
       && is_active_status (CTScan.status r))
    rows.

(** [max(items, key=key)] for a non-empty list [first :: rest]: the first
    item of maximal key. *)
Definition max_by {A} (key : A -> Z) (first : A) (rest : list A) : A :=
  fold_left (fun best x => if key best <? key x then x else best) rest first.

(** [now] is the time read at the start of the call. *)
Definition _calculate_next_slot (now : datetime) (scanner : Scanner.t)
    : M datetime :=
  fun s =>
    let today_start := now - now mod us_per_day in
    let today_end := today_start + us_per_day - 1 in
    let scheduled_scans :=
      scans_of_today today_start today_end scanner (ct_scans (live s)) in
    match scheduled_scans with
    | [] => (Return (now + minutes 15), s)
    | first :: rest =>
        let last_scan :=
          max_by (fun r => default now (CTScan.scheduled_time r)) first rest in
        match CTScan.scheduled_time last_scan with
        | Some t =>
            (Return (t + minutes (Scanner.avg_scan_duration_minutes scanner)), s)
        | None => (Return (now + minutes 15), s)
        end
    end.


End ResourceAgent.

(** [models/consent.py]: the enumerations and one row of [consents]. *)

Module Consent.

Inductive ConsentType := CT_SCAN | CONTRAST | SEDATION | RESEARCH.

Inductive ConsentStatus := PENDING | SIGNED | DECLINED | WITHDRAWN.

Definition ConsentStatus_value (s : ConsentStatus) : string :=
  match s with
  | PENDING => "pending"
  | SIGNED => "signed"
  | DECLINED => "declined"
  | WITHDRAWN => "withdrawn"
  end.

Definition ConsentType_eqb (a b : ConsentType) : bool :=
  match a, b with
  | CT_SCAN, CT_SCAN | CONTRAST, CONTRAST | SEDATION, SEDATION
  | RESEARCH, RESEARCH => true
  | _, _ => false
  end.

Record t := mk {
  id : string;
  patient_id : string;
  consent_type : ConsentType;
  status : ConsentStatus;
  consent_text : string;
  explanation_provided : bool;
  signature_data : option string;
  signed_at : option datetime;
  signed_ip : option string;
  witness_name : option string;
  witness_id : option string;
  withdrawn_at : option datetime;
  withdrawal_reason : option string;
  version : string;
  language : string;
  created_at : datetime;
  updated_at : datetime
}.

End Consent.


(** ** [agents/patient_agent.py] *)

Module PatientAgent.

(** The mapping returned by [answer_faq]. *)
Record Answer := mkAnswer {
  answer : string;
  category : option string;
  faq_id : option string;
  confidence : string
}.

(** [[k.strip().lower() for k in text.split(",")]] *)
Definition keywords_of (text : string) : list string :=
  map (fun k => Py.lower (Py.strip k)) (Py.split_on ","%char text).

(** The test made on one FAQ by the loop of [answer_faq]: the keyword
    test when the FAQ has keywords, and when it does not succeed (or there
    are no keywords) the common-word test. *)
Definition is_relevant (question_lower : string) (faq : FAQ.t) : bool :=
  let by_keyword :=
    match FAQ.keywords faq with
    | Some text =>
        if String.eqb text "" then false
        else existsb (fun k => Py.contains k question_lower) (keywords_of text)
    | None => false
    end in
  if by_keyword then true
  else
    let question_words := Py.set_of (Py.split question_lower) in
    let faq_words := Py.set_of (Py.split (Py.lower (FAQ.question faq))) in
    negb (Nat.eqb (size (question_words ∩ faq_words)) 0).

(** The loop of [answer_faq], appending to [relevant_faqs]. *)
Fixpoint collect_relevant (question_lower : string) (faqs : list FAQ.t)
    (relevant_faqs : list FAQ.t) : list FAQ.t :=
  match faqs with
  | [] => relevant_faqs
  | faq :: rest =>
      if is_relevant question_lower faq
      then collect_relevant question_lower rest (relevant_faqs ++ [faq])
      else collect_relevant question_lower rest relevant_faqs
  end.

Definition _generate_faq_answer (question : string) : string :=
  "I understand you have a question about your CT brain scan. "
  +:+ "Please contact our staff or speak with your healthcare provider "
  +:+ "for more specific information about your procedure.".

(** [select(FAQ).where(FAQ.is_active == True)], in storage order *)
Definition select_active_faqs : M (list FAQ.t) :=
  fun s => (Return (List.filter FAQ.is_active (faqs (live s))), s).

Definition answer_faq (question : string) (patient_id : option string)
    : M Answer :=
  faqs <- select_active_faqs;
  let question_lower := Py.lower question in
  let relevant_faqs := collect_relevant question_lower faqs [] in
  match relevant_faqs with
  | best_faq :: _ =>
      assign_faq (FAQ.id best_faq)
        (fun r => FAQ.set_view_count (FAQ.view_count r + 1) r) >>
      commit >>
      ret (mkAnswer (FAQ.answer best_faq) (FAQ.category best_faq)
             (Some (FAQ.id best_faq))
             (if Nat.eqb (length relevant_faqs) 1 then "high" else "medium"))
  | [] =>
      ret (mkAnswer (_generate_faq_answer question) (Some "general") None "low")
  end.

(** The mapping returned by [assess_anxiety]. *)
Record Assessment := mkAssessment {
  a_patient_id : string;
  a_anxiety_level : string;
  a_score : Z;
  a_recommendations : list string
}.

(** [int(v)] inside a computation; a value that does not convert
    raises. *)
Definition int_call (v : Py.value) : M Z :=
  match Py.int_of v with
  | Py.Converted n => ret n
  | Py.NotAnInteger | Py.NotConvertible => raise BuiltinError
  end.

(** [if responses.get(key): score += int(responses[key])] *)
Definition add_response (responses : gmap string Py.value) (key : string)
    (score : Z) : M Z :=
  match responses !! key with
  | Some v => if Py.truthy v then (n <- int_call v; ret (score + n)) else ret score
  | None => ret score
  end.

(** The test on ["previous_ct_experience"]. *)
Definition add_previous_experience (responses : gmap string Py.value)
    (score : Z) : Z :=
  match responses !! "previous_ct_experience" with
  | Some v =>
      if Py.truthy v then
        (if Py.eq_str v "negative" then score + 2 else score)
      else score
  | None => score
  end.

Definition anxiety_level_of (score : Z) : AnxietyLevel :=
  if score <=? 2 then ANX_NONE
  else if score <=? 5 then ANX_MILD
  else if score <=? 8 then ANX_MODERATE
  else ANX_SEVERE.

Definition _get_anxiety_recommendations (anxiety_level : AnxietyLevel)
    : list string :=
  match anxiety_level with
  | ANX_NONE =>
      [ "Your CT scan is routine. Our staff will guide you through the process." ]
  | ANX_MILD =>
      [ "Consider listening to calming music during the scan.";
        "Let our staff know if you'd like any additional support." ]
  | ANX_MODERATE =>
      [ "We recommend our VR relaxation program before the scan.";
        "A staff member will stay with you throughout the procedure.";
        "Deep breathing exercises can help you relax." ]
  | ANX_SEVERE =>
      [ "Please speak with our care team about your concerns.";
        "We can arrange a pre-visit to familiarize you with the equipment.";
        "VR relaxation is strongly recommended before your scan.";
        "Sedation options may be available - please discuss with your doctor." ]
  end.

Definition assess_anxiety (patient_id : string)
    (responses : gmap string Py.value) : M Assessment :=
  found <- select_patient patient_id;
  match found with
  | None => raise (ValueError "Patient not found")
  | Some patient =>
      score <- add_response responses "nervous" 0;
      score <- add_response responses "worrying" score;
      score <- add_response responses "relaxation_difficulty" score;
      let score := add_previous_experience responses score in
      let anxiety_level := anxiety_level_of score in
      assign_patient patient_id (Patient.set_anxiety_level anxiety_level) >>
      commit >>
      ret (mkAssessment patient_id (AnxietyLevel_value anxiety_level) score
             (_get_anxiety_recommendations anxiety_level))
  end.

(** One entry of the VR content library. *)
Record VRContent := mkVRContent {
  vr_id : string;
  vr_title : string;
  vr_description : string;
  vr_duration_minutes : Z;
  vr_category : string;
  vr_suitable_for : list string
}.

(** The list [vr_content] of [get_vr_content]. *)
Definition vr_content : list VRContent :=
  [ mkVRContent "vr-1" "Peaceful Forest"
      "A serene forest setting with gentle breeze and ambient sounds"
      10 "nature" ["none"; "mild"; "moderate"];
    mkVRContent "vr-2" "Ocean Waves"
      "Relaxing beach scene with rhythmic waves"
      15 "nature" ["none"; "mild"; "moderate"; "severe"];
    mkVRContent "vr-3" "Guided Meditation"
      "Voice-guided breathing and relaxation exercises"
      8 "meditation" ["mild"; "moderate"; "severe"];
    mkVRContent "vr-4" "Underwater World"
      "Calming underwater exploration with fish and gentle currents"
      12 "nature" ["none"; "mild"; "moderate"];
    mkVRContent "vr-5" "Mountain Sunrise"
      "Witness a beautiful sunrise from a peaceful mountain top"
      10 "nature" ["none"; "mild"; "moderate"] ].

Definition get_vr_content (anxiety_level : AnxietyLevel) : list VRContent :=
  let anxiety_str := AnxietyLevel_value anxiety_level in
  List.filter (fun c => existsb (String.eqb anxiety_str) (vr_suitable_for c))
    vr_content.

(** The line feed of the consent texts. *)
Definition nl : string := String (ascii_of_nat 10) EmptyString.

Definition _get_consent_text (consent_type : Consent.ConsentType) : string :=
  match consent_type with
  | Consent.CT_SCAN =>
      String.concat nl
        [ EmptyString;
          "CT BRAIN SCAN CONSENT FORM";
          EmptyString;
          "Procedure: CT Brain Scan";
          "Purpose: To obtain detailed images of your brain";
          EmptyString;
          "I understand that:";
          "1. A CT scan uses X-rays to create cross-sectional images of the brain";
          "2. The procedure is painless and typically takes 15-30 minutes";
          "3. I will need to lie still on a scanning table";
          "4. Contrast dye may be used to enhance images (separate consent required)";
          EmptyString;
          "Risks:";
          "- Small amount of radiation exposure";
          "- Rare allergic reaction to contrast dye";
          "- Possible discomfort from lying still";
          EmptyString;
          "I have had the opportunity to ask questions and have them answered to my satisfaction.";
          "            " ]
  | Consent.CONTRAST =>
      String.concat nl
        [ EmptyString;
          "CONTRAST AGENT CONSENT FORM";
          EmptyString;
          "I consent to the administration of contrast dye for my CT scan.";
          EmptyString;
          "I understand that:";
          "1. Contrast dye helps highlight blood vessels and tissues";
          "2. It will be injected through an IV";
          "3. I may feel a warm sensation or metallic taste";
          "4. Rarely, allergic reactions can occur";
          EmptyString;
          "I have informed the staff of any previous reactions to contrast agents.";
          "            " ]
  | _ => "Consent form text not available."
  end.

(** The mapping returned by [process_digital_consent]; [c_signed_at] is
    the [datetime] whose [isoformat()] the mapping holds. *)
Record ConsentResult := mkConsentResult {
  c_consent_id : string;
  c_status : string;
  c_signed_at : option datetime
}.

(** [consents] is the [consents] table, to which the commit appends the
    row added to the session.  [new_id] is the key generated for the row;
    [signed_now] and [consent_now] are the times read for [signed_at] and
    for the patient's [consent_timestamp], [created_now] and [updated_now]
    the times read for the row's [created_at] and [updated_at]. *)
Definition process_digital_consent
    (new_id : string) (signed_now consent_now created_now updated_now : datetime)
    (patient_id : string) (consent_type : Consent.ConsentType)
    (consent_given : bool) (signature_data : option string)
    (consents : list Consent.t) : M (ConsentResult * list Consent.t) :=
  found <- select_patient patient_id;
  match found with
  | None => raise (ValueError "Patient not found")
  | Some patient =>
      let consent :=
        Consent.mk new_id patient_id consent_type
          (if consent_given then Consent.SIGNED else Consent.DECLINED)
          (_get_consent_text consent_type) false signature_data
          (if consent_given then Some signed_now else None)
          None None None None None "1.0" "en" created_now updated_now in
      (if consent_given && Consent.ConsentType_eqb consent_type Consent.CT_SCAN
       then
         assign_patient patient_id (Patient.set_consent_given true) >>
         assign_patient patient_id
           (Patient.set_consent_timestamp (Some consent_now))
       else ret tt) >>
      commit >>
      refresh >>
      ret (mkConsentResult (Consent.id consent)
             (Consent.ConsentStatus_value (Consent.status consent))
             (Consent.signed_at consent),
           consents ++ [consent])
  end.

(** One call of [process_digital_consent]: the generated key, the four
    times, then the arguments. *)
Record ConsentRequest := mkConsentRequest {
  q_new_id : string;
  q_signed_now : datetime;
  q_consent_now : datetime;
  q_created_now : datetime;
  q_updated_now : datetime;
  q_consent_type : Consent.ConsentType;
  q_consent_given : bool;
  q_signature_data : option string
}.

(** A run of [process_digital_consent] calls for one patient; the run
    stops at the first call that raises. *)
Fixpoint consent_each (patient_id : string) (requests : list ConsentRequest)
    (consents : list Consent.t) : M (list ConsentResult * list Consent.t) :=
  match requests with
  | [] => ret ([], consents)
  | q :: rest =>
      r <- process_digital_consent (q_new_id q) (q_signed_now q)
             (q_consent_now q) (q_created_now q) (q_updated_now q) patient_id
             (q_consent_type q) (q_consent_given q) (q_signature_data q)
             consents;
      rs <- consent_each patient_id rest (snd r);
      ret (fst r :: fst rs, snd rs)
  end.



End PatientAgent.


(** ** [agents/orchestration_agent.py] *)

Module OrchestrationAgent.

Definition ScanStatus_eqb (a b : ScanStatus) : bool :=
  match a, b with
  | ORDERED, ORDERED | VALIDATED, VALIDATED | SCHEDULED, SCHEDULED
  | IN_PREP, IN_PREP | IN_PROGRESS, IN_PROGRESS | COMPLETED, COMPLETED
  | REPORTED, REPORTED | CANCELLED, CANCELLED => true
  | _, _ => false
  end.

(** [status in statuses] *)
Definition status_in (status : ScanStatus) (statuses : list ScanStatus) : bool :=
  existsb (ScanStatus_eqb status) statuses.

(** One entry of the timeline; [timestamp] is the [datetime] whose
    [isoformat()] the entry holds. *)
Record TimelineStep := mkTimelineStep {
  step : string;
  timestamp : option datetime;
  completed : bool
}.

(** The list [timeline] of [get_workflow_status]. *)
Definition timeline_of (scan : CTScan.t) : list TimelineStep :=
  [ mkTimelineStep "Order Placed" (CTScan.ordered_at scan) true;
    mkTimelineStep "Clinical Validation" None
      (status_in (CTScan.status scan)
         [VALIDATED; SCHEDULED; IN_PREP; IN_PROGRESS; COMPLETED; REPORTED]);
    mkTimelineStep "Scheduled" (CTScan.scheduled_time scan)
      (status_in (CTScan.status scan)
         [SCHEDULED; IN_PREP; IN_PROGRESS; COMPLETED; REPORTED]);
    mkTimelineStep "In Preparation" None
      (status_in (CTScan.status scan)
         [IN_PREP; IN_PROGRESS; COMPLETED; REPORTED]);
    mkTimelineStep "Scanning" (CTScan.started_time scan)
      (status_in (CTScan.status scan) [IN_PROGRESS; COMPLETED; REPORTED]);
    mkTimelineStep "Completed" (CTScan.completed_time scan)
      (status_in (CTScan.status scan) [COMPLETED; REPORTED]);
    mkTimelineStep "Reported" (CTScan.reported_time scan)
      (ScanStatus_eqb (CTScan.status scan) REPORTED) ].

(** The mapping returned by [get_workflow_status]. *)
Record WorkflowStatus := mkWorkflowStatus {
  w_scan_id : string;
  w_scan_number : string;
  w_patient_id : string;
  w_patient_name : option string;
  w_current_status : string;
  w_urgency_level : string;
  w_timeline : list TimelineStep;
  w_turnaround_time_minutes : option float64
}.

Section Turnaround.

(** The floating-point part of the turnaround time: for a [timedelta] of
    [d] microseconds, [round(d.total_seconds() / 60, 1)].  The quotient is
    zero, hence false, exactly when [d] is zero. *)
Variable round_minutes : Z -> float64.

Definition get_workflow_status (scan_id : string) : M WorkflowStatus :=
  found <- select_scan scan_id;
  match found with
  | None => raise (ValueError "CT scan not found")
  | Some scan =>
      patient <- select_patient (CTScan.patient_id scan);
      let timeline := timeline_of scan in
      let turnaround_time :=
        match CTScan.completed_time scan, CTScan.ordered_at scan with
        | Some completed_time, Some ordered_at =>
            Some (completed_time - ordered_at)
        | _, _ => None
        end in
      match CTScan.urgency_level scan with
      | None => raise BuiltinError
      | Some urgency_level =>
          ret (mkWorkflowStatus (CTScan.id scan) (CTScan.scan_number scan)
                 (CTScan.patient_id scan) (Patient.name <$> patient)
                 (ScanStatus_value (CTScan.status scan))
                 (UrgencyLevel_value urgency_level) timeline
                 (match turnaround_time with
                  | Some d => if d =? 0 then None else Some (round_minutes d)
                  | None => None
                  end))
      end
  end.

End Turnaround.

(** One entry of [pending_scans]. *)
Record PendingAction := mkPendingAction {
  p_scan_id : string;
  p_scan_number : string;
  p_urgency : string;
  p_action_needed : string
}.

(** The mapping appended for one scan; [scan.urgency_level.value] raises
    when the urgency is null. *)
Definition pending_entry (action_needed : string) (scan : CTScan.t)
    : outcome PendingAction :=
  match CTScan.urgency_level scan with
  | Some urgency =>
      Return
        (mkPendingAction (CTScan.id scan) (CTScan.scan_number scan)
           (UrgencyLevel_value urgency) action_needed)
  | None => Raise BuiltinError
  end.

(** One of the three loops of [get_pending_actions]: an entry is appended
    for each scan that passes the test [due]; the loop ends at the first
    entry that raises. *)
Fixpoint append_entries (action_needed : string) (due : CTScan.t -> bool)
    (scans : list CTScan.t) (pending_scans : list PendingAction)
    : outcome (list PendingAction) :=
  match scans with
  | [] => Return pending_scans
  | scan :: rest =>
      if due scan then
        match pending_entry action_needed scan with
        | Return entry =>
            append_entries action_needed due rest (pending_scans ++ [entry])
        | Raise e => Raise e
        end
      else append_entries action_needed due rest pending_scans
  end.

(** [select(CTScan).where(CTScan.status == status)], in storage order *)
Definition scans_with_status (status : ScanStatus) (rows : list CTScan.t)
    : list CTScan.t :=
  List.filter (fun r => ScanStatus_eqb (CTScan.status r) status) rows.

(** The mapping returned by [get_pending_actions]. *)
Record Pending := mkPending {
  pending_actions : list PendingAction;
  total_pending : Z;
  urgent_count : Z
}.

(** [now] is the time read before the second loop. *)
Definition get_pending_actions (now : datetime) (user_role : option string)
    : M Pending :=
  fun s =>
    let rows := ct_scans (live s) in
    let validated_scans := scans_with_status VALIDATED rows in
    let scheduled_scans := scans_with_status SCHEDULED rows in
    let completed_scans := scans_with_status COMPLETED rows in
    let result :=
      match append_entries "Schedule scan" (fun _ => true) validated_scans []
      with
      | Raise e => Raise e
      | Return pending_scans =>
          match
            append_entries "Start scan"
              (fun scan =>
                 match CTScan.scheduled_time scan with
                 | Some t => t <=? now
                 | None => false
                 end)
              scheduled_scans pending_scans
          with
          | Raise e => Raise e
          | Return pending_scans =>
              match
                append_entries "Generate report" (fun _ => true)
                  completed_scans pending_scans
              with
              | Raise e => Raise e
              | Return pending_scans =>
                  Return
                    (mkPending pending_scans
                       (Z.of_nat (length pending_scans))
                       (Z.of_nat
                          (length
                             (List.filter
                                (fun entry =>
                                   String.eqb (p_urgency entry) "immediate")
                                pending_scans))))
              end
          end
      end in
    (result, s).

End OrchestrationAgent.


(** ** [config.py] *)

Record Settings := mkSettings {
  JWT_SECRET : string;
  JWT_ALGORITHM : string;
  JWT_EXPIRATION_MINUTES : Z
}.

(** The defaults of [class Settings]. *)
Definition default_settings : Settings :=
  mkSettings "ct_workflow_jwt_secret_key_2026_hospital_shah_alam" "HS256" 1440.

(** ** The token library

    [jose.jwt] is a third-party library.  Its tokens are modelled
    symbolically: a signed token is its claims together with the algorithm
    and the key that signed it, and any other string is malformed; the
    configured algorithm is taken to be one that the library supports, as
    the default is.  Encoding turns the [exp] time into whole seconds.
    Decoding checks the algorithm and the signature, then validates the
    registered claims; it fails with JWTError when a check refuses the
    token, and with the exception of [int] when a time claim cannot be
    read at all. *)

Module Jose.

Inductive token :=
  | Signed (algorithm : string) (key : string) (claims : gmap string Py.value)
  | Malformed (text : string).

(** Seconds of a [datetime], as [calendar.timegm] gives them. *)
Definition timestamp (t : datetime) : Z := t / us_per_second.

(** [jwt.encode(claims, key, algorithm=algorithm)], where [exp] is the
    [datetime] stored under ["exp"] *)
Definition encode (claims : gmap string Py.value) (exp : datetime)
    (key algorithm : string) : token :=
  Signed algorithm key (<["exp" := Py.VInt (timestamp exp)]> claims).

(** The outcome of one validation step: the claim passes, the step
    raises a JWTError, or it raises another exception. *)
Inductive check := Pass | Refused | Crashed.

(** A time claim is read with [int], whose ValueError is turned into a
    JWTError and whose other exceptions escape; [test] is the comparison
    made on the integer. *)
Definition validate_time (claims : gmap string Py.value) (name : string)
    (test : Z -> bool) : check :=
  match claims !! name with
  | None => Pass
  | Some v =>
      match Py.int_of v with
      | Py.Converted n => if test n then Pass else Refused
      | Py.NotAnInteger => Refused
      | Py.NotConvertible => Crashed
      end
  end.

(** A claim that must be a string when present. *)
Definition validate_string (claims : gmap string Py.value) (name : string)
    : check :=
  match claims !! name with
  | None | Some (Py.VStr _) => Pass
  | Some _ => Refused
  end.

(** A claim that is compared with an argument of [decode] which the code
    does not pass ([audience], [access_token]): present, it is refused. *)
Definition validate_absent (claims : gmap string Py.value) (name : string)
    : check :=
  match claims !! name with
  | None => Pass
  | Some _ => Refused
  end.

(** The first step that does not pass decides. *)
Fixpoint first_failure (checks : list check) : check :=
  match checks with
  | [] => Pass
  | Pass :: rest => first_failure rest
  | failure :: _ => failure
  end.

(** The validation of the registered claims, in the order of the
    library: iat, nbf, exp, aud, sub, jti, at_hash (iss is checked only
    against an [issuer] argument, which the code does not pass). *)
Definition validate_claims (now : datetime) (claims : gmap string Py.value)
    : check :=
  first_failure
    [ validate_time claims "iat" (fun _ => true);
      validate_time claims "nbf" (fun nbf => nbf <=? timestamp now);
      validate_time claims "exp" (fun exp => timestamp now <=? exp);
      validate_absent claims "aud";
      validate_string claims "sub";
      validate_string claims "jti";
      validate_absent claims "at_hash" ].

(** The outcome of [jwt.decode]: the claims, a JWTError, or another
    exception. *)
Inductive decoded :=
  | Claims (claims : gmap string Py.value)
  | JWTError
  | OtherError.

(** [jwt.decode(token, key, algorithms=[algorithm])] at time [now] *)
Definition decode (now : datetime) (tok : token) (key algorithm : string)
    : decoded :=
  match tok with
  | Malformed _ => JWTError
  | Signed alg k claims =>
      if String.eqb alg algorithm && String.eqb k key then
        match validate_claims now claims with
        | Pass => Claims claims
        | Refused => JWTError
        | Crashed => OtherError
        end
      else JWTError
  end.

End Jose.

(** ** [utils/auth.py] *)

Module Auth.

(** [expires_delta] is a [timedelta] in microseconds; a zero
    [timedelta] is false, like [None]. *)
Definition create_access_token (settings : Settings) (now : datetime)
    (data : gmap string Py.value) (expires_delta : option Z) : Jose.token :=
  let to_encode := data in
  let expire :=
    match expires_delta with
    | Some d =>
        if d =? 0 then now + minutes (JWT_EXPIRATION_MINUTES settings)
        else now + d
    | None => now + minutes (JWT_EXPIRATION_MINUTES settings)
    end in
  Jose.encode to_encode expire (JWT_SECRET settings) (JWT_ALGORITHM settings).

(** Only the JWTError is caught: another exception of the decoding
    escapes. *)
Definition decode_access_token (settings : Settings) (now : datetime)
    (token : Jose.token) : outcome (option (gmap string Py.value)) :=
  match Jose.decode now token (JWT_SECRET settings) (JWT_ALGORITHM settings) with
  | Jose.Claims payload => Return (Some payload)
  | Jose.JWTError => Return None
  | Jose.OtherError => Raise BuiltinError
  end.

Definition create_token_payload (user_id email role : string)
    : gmap string Py.value :=
  <["sub" := Py.VStr user_id]>
    (<["email" := Py.VStr email]>
       (<["role" := Py.VStr role]>
          (<["type" := Py.VStr "access"]> ∅))).

End Auth.

(** [models/user.py]: the roles, with their [.value]. *)
Inductive UserRole :=
  | ED_PHYSICIAN | RADIOLOGIST | NURSE | TECHNICIAN | ADMIN | TRANSPORT.

Definition UserRole_value (r : UserRole) : string :=
  match r with
  | ED_PHYSICIAN => "ed_physician"
  | RADIOLOGIST => "radiologist"
  | NURSE => "nurse"
  | TECHNICIAN => "technician"
  | ADMIN => "admin"
  | TRANSPORT => "transport"
  end.


(** ** [api/middleware/auth_middleware.py] *)

Module AuthMiddleware.

Definition HTTP_401_UNAUTHORIZED : Z := 401.

Definition get_current_user_id (settings : Settings) (now : datetime)
    (credentials : option Jose.token) : outcome Py.value :=
  match credentials with
  | None => Raise (HTTPException HTTP_401_UNAUTHORIZED "Not authenticated")
  | Some token =>
      match Auth.decode_access_token settings now token with
      | Raise e => Raise e
      | Return None =>
          Raise (HTTPException HTTP_401_UNAUTHORIZED "Invalid or expired token")
      | Return (Some payload) =>
          if Nat.eqb (size payload) 0 then
            Raise (HTTPException HTTP_401_UNAUTHORIZED "Invalid or expired token")
          else
            match payload !! "sub" with
            | Some user_id =>
                if Py.truthy user_id then Return user_id
                else Raise (HTTPException HTTP_401_UNAUTHORIZED
                              "Invalid token payload")
            | None =>
                Raise (HTTPException HTTP_401_UNAUTHORIZED "Invalid token payload")
            end
      end
  end.

Definition HTTP_403_FORBIDDEN : Z := 403.

Definition get_current_user_role (settings : Settings) (now : datetime)
    (credentials : option Jose.token) : outcome Py.value :=
  match credentials with
  | None => Raise (HTTPException HTTP_401_UNAUTHORIZED "Not authenticated")
  | Some token =>
      match Auth.decode_access_token settings now token with
      | Raise e => Raise e
      | Return None =>
          Raise (HTTPException HTTP_401_UNAUTHORIZED "Invalid or expired token")
      | Return (Some payload) =>
          if Nat.eqb (size payload) 0 then
            Raise (HTTPException HTTP_401_UNAUTHORIZED "Invalid or expired token")
          else
            match payload !! "role" with
            | Some role =>
                if Py.truthy role then Return role
                else Raise (HTTPException HTTP_401_UNAUTHORIZED
                              "Invalid token payload")
            | None =>
                Raise (HTTPException HTTP_401_UNAUTHORIZED "Invalid token payload")
            end
      end
  end.

(** [require_role(allowed_roles)] is the checker [role_checker]; the
    role is looked up among the values of the allowed roles. *)
Definition require_role (allowed_roles : list UserRole) (settings : Settings)
    (now : datetime) (credentials : option Jose.token) : outcome Py.value :=
  match get_current_user_role settings now credentials with
  | Raise e => Raise e
  | Return role =>
      if negb (existsb (fun v => Py.eq_str role v)
                 (map UserRole_value allowed_roles))
      then Raise (HTTPException HTTP_403_FORBIDDEN "Insufficient permissions")
      else Return role
  end.


End AuthMiddleware.

(** ** [api/routes/scans.py] *)

Module ScansRoutes.

Definition HTTP_404_NOT_FOUND : Z := 404.

Definition CTContrast_value (c : CTContrast) : string :=
  match c with
  | CONTRAST_NONE => "none"
  | WITH_CONTRAST => "with_contrast"
  | WITHOUT_CONTRAST => "without_contrast"
  end.

Record CTScanResponse := mkResponse {
  id : string;
  scan_number : string;
  patient_id : string;
  ordering_physician_id : option string;
  radiology_technician_id : option string;
  radiologist_id : option string;
  scanner_id : option string;
  ct_indication : string;
  clinical_history : option string;
  symptoms : option string;
  onset_time : option datetime;
  gcs_score : option Z;
  neurological_findings : option string;
  urgency_level : string;
  appropriateness_score : option string;
  contrast : string;
  status : string;
  scheduled_time : option datetime;
  started_time : option datetime;
  completed_time : option datetime;
  preliminary_report : option string;
  final_report : option string;
  critical_findings : bool;
  ordered_at : datetime;
  created_at : datetime
}.

(** The response cannot be built (attribute or validation error) when a
    column it requires is null. *)
Definition scan_to_response (scan : CTScan.t) : outcome CTScanResponse :=
  match CTScan.urgency_level scan, CTScan.contrast scan,
        CTScan.critical_findings scan, CTScan.ordered_at scan,
        CTScan.created_at scan with
  | Some urgency, Some contrast, Some critical, Some ordered, Some created =>
      Return
        (mkResponse (CTScan.id scan) (CTScan.scan_number scan)
           (CTScan.patient_id scan) (CTScan.ordering_physician_id scan)
           (CTScan.radiology_technician_id scan) (CTScan.radiologist_id scan)
           (CTScan.scanner_id scan) (CTScan.ct_indication scan)
           (CTScan.clinical_history scan) (CTScan.symptoms scan)
           (CTScan.onset_time scan) (CTScan.gcs_score scan)
           (CTScan.neurological_findings scan) (UrgencyLevel_value urgency)
           (AppropriatenessScore_value <$> CTScan.appropriateness_score scan)
           (CTContrast_value contrast) (ScanStatus_value (CTScan.status scan))
           (CTScan.scheduled_time scan) (CTScan.started_time scan)
           (CTScan.completed_time scan) (CTScan.preliminary_report scan)
           (CTScan.final_report scan) critical ordered created)
  | _, _, _, _, _ => Raise BuiltinError
  end.

(** An outcome computed outside the session, inside a computation. *)
Definition lift {A} (o : outcome A) : M A := fun s => (o, s).

(** [PATCH /{scan_id}/status].  [now] is the time at which the token is
    checked, [stamp] the time read for the status timestamp and
    [updated] the time read for [updated_at]. *)
Definition update_scan_status (settings : Settings) (now stamp updated : datetime)
    (scan_id : string) (new_status : ScanStatus)
    (credentials : option Jose.token) : M CTScanResponse :=
  lift (AuthMiddleware.get_current_user_id settings now credentials) >>
  found <- select_scan scan_id;
  match found with
  | None => raise (HTTPException HTTP_404_NOT_FOUND "CT scan not found")
  | Some scan =>
      assign_scan scan_id (CTScan.set_status new_status) >>
      (match new_status with
       | IN_PROGRESS => assign_scan scan_id (CTScan.set_started_time (Some stamp))
       | COMPLETED => assign_scan scan_id (CTScan.set_completed_time (Some stamp))
       | REPORTED => assign_scan scan_id (CTScan.set_reported_time (Some stamp))
       | _ => ret tt
       end) >>
      assign_scan scan_id (CTScan.set_updated_at (Some updated)) >>
      commit >>
      refresh >>
      reloaded <- select_scan scan_id;
      lift (scan_to_response (default scan reloaded))
  end.

(** [GET /{scan_id}] *)
Definition get_scan (settings : Settings) (now : datetime) (scan_id : string)
    (credentials : option Jose.token) : M CTScanResponse :=
  lift (AuthMiddleware.get_current_user_id settings now credentials) >>
  found <- select_scan scan_id;
  match found with
  | None => raise (HTTPException HTTP_404_NOT_FOUND "CT scan not found")
  | Some scan => lift (scan_to_response scan)
  end.

(** [await db.delete(scan)]: the row of the loaded scan, that of key [i],
    leaves the table. *)
Definition delete_scan_row (i : string) : M unit :=
  fun s =>
    let t := live s in
    (Return tt,
     mkSession (stored s)
       (mkTables
          (List.filter (fun r => negb (String.eqb (CTScan.id r) i)) (ct_scans t))
          (scanners t) (patients t) (faqs t))).

(** [DELETE /{scan_id}] *)
Definition delete_scan (settings : Settings) (now : datetime) (scan_id : string)
    (credentials : option Jose.token) : M unit :=
  lift (AuthMiddleware.get_current_user_id settings now credentials) >>
  found <- select_scan scan_id;
  match found with
  | None => raise (HTTPException HTTP_404_NOT_FOUND "CT scan not found")
  | Some scan =>
      delete_scan_row (CTScan.id scan) >>
      commit >>
      ret tt
  end.


End ScansRoutes.

(** ** [api/websocket.py] *)

Module SocketManager.

(** A connection object, compared by identity. *)
Definition WebSocket := nat.

Record t := mk {
  active_connections : gmap string (list WebSocket);
  user_connections : gmap string WebSocket
}.

(** [SocketManager()] *)
Definition init : t := mk ∅ ∅.

(** [websocket in connections] *)
Definition mem (websocket : WebSocket) (connections : list WebSocket) : bool :=
  existsb (Nat.eqb websocket) connections.

(** [connections.remove(websocket)]: the first occurrence goes. *)
Fixpoint remove_first (websocket : WebSocket) (connections : list WebSocket)
    : list WebSocket :=
  match connections with
  | [] => []
  | c :: rest =>
      if Nat.eqb websocket c then rest else c :: remove_first websocket rest
  end.

(** [accepted] tells whether [await websocket.accept()] returns; when it
    raises, nothing is registered. *)
Definition connect (accepted : bool) (websocket : WebSocket) (room : string)
    (m : t) : t :=
  if accepted then
    let rooms :=
      match active_connections m !! room with
      | None => <[room := []]> (active_connections m)
      | Some _ => active_connections m
      end in
    mk (<[room := default [] (rooms !! room) ++ [websocket]]> rooms)
       (user_connections m)
  else m.

Definition disconnect (websocket : WebSocket) (room : string) (m : t) : t :=
  match active_connections m !! room with
  | Some connections =>
      let connections :=
        if mem websocket connections then remove_first websocket connections
        else connections in
      match connections with
      | [] => mk (delete room (active_connections m)) (user_connections m)
      | _ => mk (<[room := connections]> (active_connections m))
               (user_connections m)
      end
  | None => m
  end.

(** The first loop of [broadcast]: [fails k] tells whether sending to the
    connection at position [k] raises. *)
Fixpoint failed_sends (fails : nat -> bool) (k : nat)
    (connections : list WebSocket) : list WebSocket :=
  match connections with
  | [] => []
  | connection :: rest =>
      if fails k then connection :: failed_sends fails (S k) rest
      else failed_sends fails (S k) rest
  end.

Definition broadcast (fails : nat -> bool) (room : string) (m : t) : t :=
  match active_connections m !! room with
  | Some connections =>
      let disconnected := failed_sends fails 0 connections in
      fold_left (fun m connection => disconnect connection room m)
        disconnected m
  | None => m
  end.

(** [send_personal_message]: the exception of a failed send is swallowed,
    and the registry is not touched either way. *)
Definition send_personal_message (websocket : WebSocket) (m : t) : t := m.

(** [broadcast_notification]; [fails] as in [broadcast]. *)
Definition broadcast_notification (fails : nat -> bool)
    (user_id : option string) (m : t) : t :=
  match user_id with
  | Some u =>
      if negb (String.eqb u EmptyString) then
        match user_connections m !! u with
        | Some websocket => send_personal_message websocket m
        | None => broadcast fails "dashboard" m
        end
      else broadcast fails "dashboard" m
  | None => broadcast fails "dashboard" m
  end.

(** [broadcast_scan_update]: the room "scans", then the dashboard. *)
Definition broadcast_scan_update (fails_scans fails_dashboard : nat -> bool)
    (m : t) : t :=
  broadcast fails_dashboard "dashboard" (broadcast fails_scans "scans" m).


(** The operations a client of the manager can perform. *)
Inductive op :=
  | Connect (accepted : bool) (websocket : WebSocket) (room : string)
  | Disconnect (websocket : WebSocket) (room : string)
  | Broadcast (fails : nat -> bool) (room : string).

Definition step (m : t) (o : op) : t :=
  match o with
  | Connect accepted websocket room => connect accepted websocket room m
  | Disconnect websocket room => disconnect websocket room m
  | Broadcast fails room => broadcast fails room m
  end.

Definition run (ops : list op) : t := fold_left step ops init.

(** No room of the registry has an empty connection list. *)
Definition no_empty_room (m : t) : Prop :=
  forall room connections,
    active_connections m !! room = Some connections -> connections <> [].

(** The entry of a room that holds [connections], as [disconnect] leaves
    it: none when the list is empty. *)
Definition room_entry (connections : list WebSocket)
    : option (list WebSocket) :=
  match connections with [] => None | _ => Some connections end.


End SocketManager.


(** ** Sample rows, used to run the operations on concrete inputs *)

Module Sample.

Definition scan : CTScan.t :=
  CTScan.mk "scan-1" "CT-20260101080000-AB12" "pat-1" (Some "user-1") None
    None None "acute stroke symptoms, sudden weakness" None None None None
    None (Some ROUTINE) None None (Some WITHOUT_CONTRAST) None (Some false)
    None ORDERED None None None None None None (Some false) (Some false)
    (Some false) None None (Some 0) (Some 0) (Some 0).

(** A scanner whose daily capacity is used up. *)
Definition scanner : Scanner.t :=
  Scanner.mk "scanner-1" "CT-01" "Main CT" (Some "Room 205") STANDARD
    (Some 64) None None None AVAILABLE true "08:00" "22:00" 30 1 0 1 0 None
    None None (Some 0) (Some 0).

Definition patient : Patient.t :=
  Patient.mk "pat-1" "M-100" "A. Patient" None 0 OTHER None None None None
    None None None None None P_REGISTERED ANX_NONE false None None (Some 0)
    (Some 0).

Definition faq_prepare : FAQ.t :=
  FAQ.mk "faq-1" "How should I prepare?" "Remove metal objects."
    (Some "preparation") (Some "prepare, Preparation") (Some "en") None 0 0 0
    true (Some 0) (Some 0).

Definition faq_duration : FAQ.t :=
  FAQ.mk "faq-2" "How long does the scan take?" "About ten minutes."
    (Some "procedure") None (Some "en") None 3 0 0 true (Some 0) (Some 0).

Definition tables : Tables :=
  mkTables [scan] [scanner] [patient] [faq_prepare; faq_duration].

Definition session : Session := mkSession tables tables.

(** Ten o'clock on the first day. *)
Definition ten_am : datetime := 10 * 60 * us_per_minute.

(** A second scanner, with free capacity, and a session that holds both
    scanners and a second scan. *)
Definition free_scanner : Scanner.t :=
  Scanner.mk "scanner-2" "CT-02" "Second CT" (Some "Room 206") ADVANCED
    (Some 128) None None None AVAILABLE true "08:00" "22:00" 30 40 0 0 0 None
    None None (Some 0) (Some 0).

Definition scan2 : CTScan.t :=
  CTScan.mk "scan-2" "CT-20260101083000-CD34" "pat-1" (Some "user-1") None
    None (Some "scanner-2") "headache" None None None None
    None (Some ROUTINE) None None (Some WITHOUT_CONTRAST) None (Some false)
    None SCHEDULED (Some (11 * 60 * us_per_minute)) None None None None None
    (Some false) (Some false) (Some false) None None (Some 0) (Some 0)
    (Some 0).

Definition tables2 : Tables :=
  mkTables [scan; scan2] [scanner; free_scanner] [patient]
    [faq_prepare; faq_duration].

Definition session2 : Session := mkSession tables2 tables2.

(** An FAQ whose keyword list ends with a comma, and a session that holds
    it after the FAQ on the duration. *)
Definition faq_comma : FAQ.t :=
  FAQ.mk "faq-3" "Will I get contrast dye?" "Your doctor decides."
    (Some "contrast") (Some "contrast,") (Some "en") None 0 0 0 true (Some 0)
    (Some 0).

Definition tables3 : Tables :=
  mkTables [scan] [scanner] [patient] [faq_duration; faq_comma].

Definition session3 : Session := mkSession tables3 tables3.

(** Three consent requests: the CT consent signed, then declined, then the
    contrast consent signed. *)
Definition consent_requests : list PatientAgent.ConsentRequest :=
  [ PatientAgent.mkConsentRequest "consent-1" 1 2 3 4 Consent.CT_SCAN true
      (Some "sig");
    PatientAgent.mkConsentRequest "consent-2" 5 6 7 8 Consent.CT_SCAN false
      None;
    PatientAgent.mkConsentRequest "consent-3" 9 10 11 12 Consent.CONTRAST true
      (Some "sig") ].


End Sample.

(* ===================================================================== *)
(** * Part II: properties *)
(* ===================================================================== *)

(** ** Strings *)

Lemma prefix_true_iff (p s : string) :
  String.prefix p s = true <-> exists r, s = p +:+ r.
Proof.
  revert s. induction p as [|c p IH]; intros s.
  - destruct s; simpl; (split; [intros _; eexists; reflexivity | reflexivity]).
  - destruct s as [|d s]; simpl.
    + split; [discriminate | intros [r Hr]; discriminate].
    + destruct (ascii_dec c d) as [->|Hne].
      * rewrite IH. split; intros [r Hr]; exists r.
        -- subst s. reflexivity.
        -- injection Hr as Hr. exact Hr.
      * split; [discriminate | intros [r Hr]; simpl in Hr; inversion Hr; congruence].
Qed.

Lemma contains_occurs (kw text : string) :
  Py.contains kw text = true <-> occurs kw text.
Proof.
  unfold occurs. induction text as [|c text IH]; cbn [Py.contains].
  - rewrite orb_false_r, prefix_true_iff. split.
    + intros [r Hr]. exists "", r. exact Hr.
    + intros [a [b Hab]]. destruct a; simpl in Hab; [now exists b | discriminate].
  - rewrite orb_true_iff, prefix_true_iff, IH. split.
    + intros [[r Hr] | [a [b Hab]]].
      * exists "", r. exact Hr.
      * exists (String c a), b. subst text. reflexivity.
    + intros [a [b Hab]]. destruct a as [|d a]; simpl in Hab.
      * left. now exists b.
      * right. inversion Hab; subst. now exists a, b.
Qed.

Lemma append_assoc (a b c : string) : (a +:+ b) +:+ c = a +:+ (b +:+ c).
Proof.
  induction a as [|x a IH]; [reflexivity|].
  change (String x ((a +:+ b) +:+ c) = String x (a +:+ (b +:+ c))).
  now rewrite IH.
Qed.

Lemma append_empty_r (a : string) : a +:+ "" = a.
Proof.
  induction a as [|x a IH]; [reflexivity|].
  change (String x (a +:+ "") = String x a). now rewrite IH.
Qed.

(** ** Texts without regard to case *)

Lemma lower_append (a b : string) :
  Py.lower (a +:+ b) = Py.lower a +:+ Py.lower b.
Proof.
  induction a as [|c a IH]; [reflexivity|].
  change (String (Py.lower_char c) (Py.lower (a +:+ b))
          = String (Py.lower_char c) (Py.lower a +:+ Py.lower b)).
  now rewrite IH.
Qed.

Lemma lower_char_upper (c : ascii) :
  Py.lower_char c
  = if Text.is_upper c then ascii_of_N (N_of_ascii c + 32) else c.
Proof. reflexivity. Qed.

Lemma is_upper_bound (c : ascii) :
  Text.is_upper c = true -> (N_of_ascii c + 32 < 256)%N.
Proof.
  unfold Text.is_upper. cbv zeta.
  rewrite orb_true_iff, !andb_true_iff, !N.leb_le. lia.
Qed.

Lemma lower_char_same (c k : ascii) :
  Text.is_upper k = false ->
  Py.lower_char c = k <-> Text.same_letter c k.
Proof.
  intros Hk. rewrite lower_char_upper. unfold Text.same_letter.
  destruct (Text.is_upper c) eqn:Hc.
  - pose proof (is_upper_bound c Hc) as Hb. split.
    + intros <-. right. left. split; [reflexivity|].
      now rewrite N_ascii_embedding.
    + intros [-> | [[_ Hn] | [Hu _]]].
      * rewrite Hk in Hc. discriminate Hc.
      * rewrite <- Hn. apply ascii_N_embedding.
      * rewrite Hk in Hu. discriminate Hu.
  - split.
    + intros ->. now left.
    + intros [-> | [[Hu _] | [Hu _]]]; [reflexivity | |].
      * discriminate Hu.
      * rewrite Hk in Hu. discriminate Hu.
Qed.

Lemma lower_same (m kw : string) :
  Text.all_chars (fun c => negb (Text.is_upper c)) kw = true ->
  Py.lower m = kw <-> Text.same_ignoring_case m kw.
Proof.
  revert m. induction kw as [|k kw IH]; intros m Hkw.
  - destruct m; cbn; split; intros H; first [reflexivity | discriminate H | destruct H].
  - cbn [Text.all_chars] in Hkw. apply andb_true_iff in Hkw as [Hk Hkw].
    apply negb_true_iff in Hk.
    destruct m as [|c m]; cbn [Py.lower Text.same_ignoring_case].
    + split; [intros H; discriminate H | intros []].
    + rewrite <- (IH m Hkw), <- (lower_char_same c k Hk). split.
      * intros H. injection H as H1 H2. now split.
      * intros [-> ->]. reflexivity.
Qed.

Lemma lower_split (s x y : string) :
  Py.lower s = x +:+ y ->
  exists s1 s2, s = s1 +:+ s2 /\ Py.lower s1 = x /\ Py.lower s2 = y.
Proof.
  revert s. induction x as [|c x IH]; intros s H.
  - exists "", s. repeat split. exact H.
  - destruct s as [|d s]; [discriminate H|].
    cbn [Py.lower] in H.
    change (String (Py.lower_char d) (Py.lower s) = String c (x +:+ y)) in H.
    injection H as Hc Hs.
    destruct (IH s Hs) as (s1 & s2 & -> & H1 & H2).
    exists (String d s1), s2. split; [reflexivity|].
    split; [cbn [Py.lower]; now rewrite Hc, H1 | exact H2].
Qed.

(** A lower-case keyword occurs in the lower-cased text exactly when it
    occurs in the text whatever the case. *)
Lemma occurs_lower (kw text : string) :
  Text.all_chars (fun c => negb (Text.is_upper c)) kw = true ->
  occurs kw (Py.lower text) <-> Text.occurs_ignoring_case kw text.
Proof.
  intros Hkw. unfold occurs, Text.occurs_ignoring_case. split.
  - intros (a & b & H).
    apply lower_split in H as (s1 & s23 & -> & <- & H).
    apply lower_split in H as (s2 & s3 & -> & Hm & <-).
    exists s1, s2, s3. split; [reflexivity|]. now apply lower_same.
  - intros (a & m & b & -> & Hm). apply lower_same in Hm; [|exact Hkw].
    exists (Py.lower a), (Py.lower b). now rewrite !lower_append, Hm.
Qed.

(** ** Clinical agent: urgency *)

Lemma any_in_occurs (indicators : list string) (text : string) :
  ClinicalAgent.any_in indicators text = true
  <-> exists kw, In kw indicators /\ occurs kw text.
Proof.
  unfold ClinicalAgent.any_in. rewrite existsb_exists.
  split; intros [kw [Hin Hkw]]; exists kw; split; trivial;
    now apply contains_occurs.
Qed.

Lemma any_in_false (indicators : list string) (text : string) :
  ClinicalAgent.any_in indicators text = false
  <-> forall kw, In kw indicators -> ~ occurs kw text.
Proof.
  rewrite <- not_true_iff_false, any_in_occurs. split.
  - intros Hno kw Hin Hocc. apply Hno. now exists kw.
  - intros Hall [kw [Hin Hocc]]. now apply (Hall kw).
Qed.

Lemma analyze_urgency_level (ct_indication : string)
    (clinical_history symptoms : option string) :
  ClinicalAgent.urgency_level
    (ClinicalAgent.analyze_ct_indication ct_indication clinical_history symptoms)
  = UrgencyLevel_value
      (ClinicalAgent._determine_urgency
         (ClinicalAgent.combined_text ct_indication clinical_history symptoms)).
Proof.
  unfold ClinicalAgent.analyze_ct_indication.
  now destruct (ClinicalAgent._calculate_appropriateness _).
Qed.

Lemma any_in_ignoring_case (indicators : list string) (text : string) :
  forallb (Text.all_chars (fun c => negb (Text.is_upper c))) indicators = true ->
  ClinicalAgent.any_in indicators (Py.lower text) = true
  <-> exists kw, In kw indicators /\ Text.occurs_ignoring_case kw text.
Proof.
  intros Hlow. rewrite forallb_forall in Hlow. rewrite any_in_occurs.
  split; intros (kw & Hin & Hocc); exists kw; (split; [exact Hin|]);
    now apply (occurs_lower kw text (Hlow kw Hin)).
Qed.

Lemma combined_text_lower (ct_indication : string)
    (clinical_history symptoms : option string) :
  ClinicalAgent.combined_text ct_indication clinical_history symptoms
  = Py.lower
      (ct_indication +:+ " " +:+ default EmptyString clinical_history +:+ " "
       +:+ default EmptyString symptoms).
Proof.
  unfold ClinicalAgent.combined_text. rewrite !lower_append.
  now destruct clinical_history, symptoms.
Qed.

(** C3. The urgency reported for an order is decided by a scan, without
    regard to case, of the indication, the history and the symptoms
    joined by spaces (an absent history or absent symptoms count as
    empty): it is "immediate" exactly when some immediate-tier keyword
    occurs in that text (whatever else occurs), "urgent" exactly when no
    immediate-tier keyword but some urgent-tier keyword occurs, and
    "routine" exactly when no keyword of either tier occurs. *)
Theorem urgency_is_tier_ordered (ct_indication : string)
    (clinical_history symptoms : option string) :
  let text :=
    ct_indication +:+ " " +:+ default EmptyString clinical_history +:+ " "
      +:+ default EmptyString symptoms in
  let urgency :=
    ClinicalAgent.urgency_level
      (ClinicalAgent.analyze_ct_indication ct_indication clinical_history symptoms) in
  let immediate :=
    exists kw,
      In kw ["stroke"; "hemorrhage"; "bleeding"; "seizure"; "unconscious";
             "coma"; "focal deficit"; "mass effect"; "herniation"]
      /\ Text.occurs_ignoring_case kw text in
  let urgent :=
    exists kw,
      In kw ["trauma"; "head injury"; "confusion"; "altered";
             "persistent headache"; "vomiting"; "papilledema"]
      /\ Text.occurs_ignoring_case kw text in
  (urgency = "immediate" <-> immediate)
  /\ (urgency = "urgent" <-> ~ immediate /\ urgent)
  /\ (urgency = "routine" <-> ~ immediate /\ ~ urgent).
Proof.
  intros text urgency immediate urgent.
  assert (Hi : ClinicalAgent.any_in ClinicalAgent.immediate_indicators
                 (Py.lower text) = true <-> immediate)
    by (apply any_in_ignoring_case; reflexivity).
  assert (Hu : ClinicalAgent.any_in ClinicalAgent.urgent_indicators
                 (Py.lower text) = true <-> urgent)
    by (apply any_in_ignoring_case; reflexivity).
  subst urgency. rewrite analyze_urgency_level, combined_text_lower.
  fold text. unfold ClinicalAgent._determine_urgency.
  destruct (ClinicalAgent.any_in ClinicalAgent.immediate_indicators
              (Py.lower text)) eqn:Ei.
  - assert (Himm : immediate) by (apply Hi; reflexivity).
    cbn [UrgencyLevel_value]. intuition discriminate.
  - assert (Hnimm : ~ immediate) by (intros Hc; apply Hi in Hc; discriminate).
    destruct (ClinicalAgent.any_in ClinicalAgent.urgent_indicators
                (Py.lower text)) eqn:Eu.
    + assert (Hurg : urgent) by (apply Hu; reflexivity).
      cbn [UrgencyLevel_value]. intuition discriminate.
    + assert (Hnurg : ~ urgent) by (intros Hc; apply Hu in Hc; discriminate).
      cbn [UrgencyLevel_value]. intuition discriminate.
Qed.

(** A keyword of the listed ones does not occur in a text, whatever the
    case, when it does not occur in the lower-cased text. *)
Ltac no_keyword_occurs :=
  let kw := fresh "kw" in
  let Hin := fresh "Hin" in
  let Hocc := fresh "Hocc" in
  intros (kw & Hin & Hocc); cbn [In] in Hin;
  repeat (destruct Hin as [Hin|Hin];
          [subst kw; apply occurs_lower in Hocc; [|reflexivity];
           apply contains_occurs in Hocc; vm_compute in Hocc;
           discriminate Hocc|]);
  destruct Hin.

(** The three cases on orders whose keywords stand, in capitals, in the
    history or in the symptoms: "STROKE" beside "TRAUMA" is immediate,
    "CONFUSION" alone is urgent, and no keyword is routine. *)
Lemma urgency_witness :
  ClinicalAgent.urgency_level
    (ClinicalAgent.analyze_ct_indication "Dizziness"
       (Some "Sudden STROKE after head TRAUMA") None)
  = "immediate"
  /\ ClinicalAgent.urgency_level
       (ClinicalAgent.analyze_ct_indication "Follow-up" None
          (Some "New CONFUSION"))
     = "urgent"
  /\ ClinicalAgent.urgency_level
       (ClinicalAgent.analyze_ct_indication "Follow-up" (Some "none")
          (Some "Mild cough"))
     = "routine".
Proof.
  split; [|split].
  - apply (proj1 (urgency_is_tier_ordered "Dizziness"
                    (Some "Sudden STROKE after head TRAUMA") None)).
    exists "stroke". split; [now left|].
    exists "Dizziness Sudden ", "STROKE", " after head TRAUMA ".
    split; [reflexivity|].
    cbn; repeat split;
      first [now left | right; left; split; reflexivity].
  - apply (proj1 (proj2 (urgency_is_tier_ordered "Follow-up" None
                           (Some "New CONFUSION")))).
    split.
    + no_keyword_occurs.
    + exists "confusion". split; [cbn; tauto|].
      exists "Follow-up  New ", "CONFUSION", "".
      split; [reflexivity|].
      cbn; repeat split;
        first [now left | right; left; split; reflexivity].
  - apply (proj2 (proj2 (urgency_is_tier_ordered "Follow-up" (Some "none")
                           (Some "Mild cough")))).
    split; no_keyword_occurs.
Defined.

(** The examples of the specification: "stroke" together with "trauma"
    is immediate, "confusion" alone is urgent, and a text with no keyword
    is routine; capitals do not matter. *)
Example urgency_examples :
  ClinicalAgent.urgency_level
    (ClinicalAgent.analyze_ct_indication "Head TRAUMA, possible Stroke" None None)
  = "immediate"
  /\ ClinicalAgent.urgency_level
       (ClinicalAgent.analyze_ct_indication "Confusion" (Some "none") None)
     = "urgent"
  /\ ClinicalAgent.urgency_level
       (ClinicalAgent.analyze_ct_indication "follow-up" None (Some "mild cough"))
     = "routine".
Proof. repeat split; vm_compute; reflexivity. Qed.

(** ** Clinical agent: Glasgow Coma Scale *)

Lemma sorted_interpretation_keys :
  ClinicalAgent.sorted_reverse (map fst ClinicalAgent.interpretations)
  = [15; 13; 9; 8].
Proof. reflexivity. Qed.

(** C5. The GCS total is the sum of the three responses; the severity is
    "mild" from 13, "moderate" from 9 to 12 and "severe" below; the
    interpretation is the entry of the highest threshold among 15, 13, 9
    and 8 that the total reaches, and the critical message when the total
    is below 8. *)
Theorem gcs_score_spec (eye_response verbal_response motor_response : Z) :
  let g :=
    ClinicalAgent.calculate_gcs_score eye_response verbal_response motor_response in
  let total := eye_response + verbal_response + motor_response in
  ClinicalAgent.total_score g = total
  /\ (13 <= total -> ClinicalAgent.severity g = "mild")
  /\ (9 <= total < 13 -> ClinicalAgent.severity g = "moderate")
  /\ (total < 9 -> ClinicalAgent.severity g = "severe")
  /\ (forall threshold text,
        In (threshold, text)
           [ (15, "Normal consciousness"); (13, "Minor brain injury");
             (9, "Moderate brain injury"); (8, "Severe brain injury (coma)") ] ->
        threshold <= total ->
        (forall t, In t [15; 13; 9; 8] -> t <= total -> t <= threshold) ->
        ClinicalAgent.interpretation g = text)
  /\ (total < 8 ->
      ClinicalAgent.interpretation g
      = "Critical - immediate intervention required").
Proof.
  intros g total. subst g. unfold ClinicalAgent.calculate_gcs_score.
  fold total. cbn [ClinicalAgent.total_score ClinicalAgent.severity
                   ClinicalAgent.interpretation].
  split; [reflexivity|].
  split; [intros H; destruct (Z.leb_spec 13 total); [reflexivity | lia]|].
  split; [intros H; destruct (Z.leb_spec 13 total); [lia|];
          destruct (Z.leb_spec 9 total); [reflexivity | lia]|].
  split; [intros H; destruct (Z.leb_spec 13 total); [lia|];
          destruct (Z.leb_spec 9 total); [lia | reflexivity]|].
  unfold ClinicalAgent._interpret_gcs. rewrite sorted_interpretation_keys.
  cbn [ClinicalAgent.first_reached].
  split.
  - intros threshold text Hin Hle Hmax.
    assert (H15 := Hmax 15). assert (H13 := Hmax 13).
    assert (H9 := Hmax 9). assert (H8 := Hmax 8).
    cbn [In] in Hin, H15, H13, H9, H8.
    destruct (Z.leb_spec 15 total); [|destruct (Z.leb_spec 13 total);
      [|destruct (Z.leb_spec 9 total); [|destruct (Z.leb_spec 8 total)]]];
      destruct Hin as [Hin|[Hin|[Hin|[Hin|[]]]]];
      injection Hin as <- <-; try reflexivity; exfalso; lia.
  - intros Hlt.
    destruct (Z.leb_spec 15 total); [lia|].
    destruct (Z.leb_spec 13 total); [lia|].
    destruct (Z.leb_spec 9 total); [lia|].
    destruct (Z.leb_spec 8 total); [lia|]. reflexivity.
Qed.

(** The two scores of the specification. *)
Example gcs_examples :
  ClinicalAgent.calculate_gcs_score 4 5 6
  = ClinicalAgent.mkGCS 15 4 5 6 "mild" "Normal consciousness"
  /\ ClinicalAgent.calculate_gcs_score 1 2 4
     = ClinicalAgent.mkGCS 7 1 2 4 "severe"
         "Critical - immediate intervention required".
Proof. split; reflexivity. Qed.

(** ** The words of a text *)













(** ** Clinical agent: appropriateness *)

Lemma criteria_matches_overlap (criteria text : string) :
  ClinicalAgent.criteria_matches criteria text = true
  <-> Z.min 2 (Z.of_nat (size (Py.set_of (Py.split criteria))))
      <= Z.of_nat (size (Py.set_of (Py.split criteria)
                         ∩ Py.set_of (Py.split text))).
Proof. unfold ClinicalAgent.criteria_matches. apply Z.leb_le. Qed.

Lemma criteria_step_eq (text : string) (b : Z) (r c : string) (n : Z) :
  ClinicalAgent.criteria_step text (b, r) (c, n)
  = if ClinicalAgent.criteria_matches c text
    then if b <? n then (n, "Matched criteria: " +:+ c) else (b, r)
    else (b, r).
Proof. reflexivity. Qed.

(** Goals left by the case analysis of the loop: membership in the
    extended table, an order between scores, or the bound on every matched
    entry, split into the head entry and the entries of the tail. *)
Ltac solve_best_match :=
  first
    [ now left
    | now right
    | lia
    | let c := fresh "c" in
      let n := fresh "n" in
      let Heq := fresh "Heq" in
      intros c n [Heq|?] ?;
      [injection Heq as <- <-; first [lia | congruence] | eauto] ].

(** The loop over a table, started from [(b, r)]: either nothing replaces
    the start value, and then no matched entry scores above [b]; or the
    result is a matched entry that scores above [b] and at least as much
    as every matched entry. *)
Lemma best_match_fold (text : string) (table : list (string * Z)) :
  forall (b : Z) (r : string),
    let res := fold_left (ClinicalAgent.criteria_step text) table (b, r) in
    (res = (b, r)
     /\ forall c n, In (c, n) table ->
          ClinicalAgent.criteria_matches c text = true -> n <= b)
    \/ (exists c n,
          In (c, n) table
          /\ ClinicalAgent.criteria_matches c text = true
          /\ b < n
          /\ res = (n, "Matched criteria: " +:+ c)
          /\ forall c' n', In (c', n') table ->
               ClinicalAgent.criteria_matches c' text = true -> n' <= n).
Proof.
  induction table as [|[c0 n0] table IH]; intros b r; cbn zeta.
  - left. split; [reflexivity | intros c n []].
  - cbn [fold_left]. rewrite criteria_step_eq.
    destruct (ClinicalAgent.criteria_matches c0 text) eqn:Hm;
      [destruct (Z.ltb_spec b n0) as [Hlt|Hge]|].
    + right.
      destruct (IH n0 ("Matched criteria: " +:+ c0))
        as [[Hres Hall] | (c & n & Hin & Hc & Hn & Hres & Hall)].
      * exists c0, n0. repeat split; auto; solve_best_match.
      * exists c, n. repeat split; auto; solve_best_match.
    + destruct (IH b r)
        as [[Hres Hall] | (c & n & Hin & Hc & Hn & Hres & Hall)].
      * left. split; auto; solve_best_match.
      * right. exists c, n. repeat split; auto; solve_best_match.
    + destruct (IH b r)
        as [[Hres Hall] | (c & n & Hin & Hc & Hn & Hres & Hall)].
      * left. split; auto; solve_best_match.
      * right. exists c, n. repeat split; auto; solve_best_match.
Qed.




(** The example of the specification, and a one-word criterion. *)
Example appropriateness_examples :
  ClinicalAgent._calculate_appropriateness "acute stroke symptoms with trauma"
  = (VERY_HIGH, "Score: 9/9 - Matched criteria: acute stroke symptoms")
  /\ ClinicalAgent._calculate_appropriateness "recurrent syncope"
     = (MODERATE, "Score: 4/9 - Matched criteria: syncope")
  /\ ClinicalAgent._calculate_appropriateness "ankle pain"
     = (VERY_LOW, "Score: 0/9 - No specific criteria matched").
Proof. repeat split; vm_compute; reflexivity. Qed.

(** ** Tables *)

Lemma by_id_update_id {R} (key : R -> string) (f : R -> R) (i : string)
    (rows : list R) :
  (forall r, key (f r) = key r) ->
  by_id key i (update_id key i f rows) = f <$> by_id key i rows.
Proof.
  intros Hkey. unfold by_id, update_id.
  induction rows as [|r rows IH]; [reflexivity|].
  cbn [List.map List.find].
  destruct (String.eqb (key r) i) eqn:E.
  - rewrite Hkey, E. reflexivity.
  - rewrite E. exact IH.
Qed.

Lemma by_id_update_id_ne {R} (key : R -> string) (f : R -> R) (i j : string)
    (rows : list R) :
  (forall r, key (f r) = key r) -> i <> j ->
  by_id key j (update_id key i f rows) = by_id key j rows.
Proof.
  intros Hkey Hne. unfold by_id, update_id.
  induction rows as [|r rows IH]; [reflexivity|].
  cbn [List.map List.find].
  destruct (String.eqb (key r) i) eqn:E.
  - rewrite Hkey. apply String.eqb_eq in E. rewrite E.
    destruct (String.eqb i j) eqn:E'; [apply String.eqb_eq in E'; contradiction|].
    exact IH.
  - destruct (String.eqb (key r) j); [reflexivity | exact IH].
Qed.

Lemma by_id_key {R} (key : R -> string) (i : string) (rows : list R) (r : R) :
  by_id key i rows = Some r -> key r = i.
Proof.
  unfold by_id. intros H. apply find_some in H as [_ H].
  now apply String.eqb_eq.
Qed.

(** ** Clinical agent: applying an analysis to a scan *)

(** C1. When no scan has the given id the operation raises "CT scan not
    found" and changes nothing.  When the scan exists (and the analysis
    names an urgency level and an appropriateness score), the urgency,
    appropriateness and reason are written onto it, its status becomes
    "validated" if and only if it was "ordered", and the change is
    committed; but the operation then raises NameError instead of
    returning the summary. *)
Theorem update_scan_with_analysis_outcome (scan_id : string)
    (analysis_result : ClinicalAgent.Analysis) (s : Session) :
  match by_id CTScan.id scan_id (ct_scans (live s)) with
  | None =>
      ClinicalAgent.update_scan_with_analysis scan_id analysis_result s
      = (Raise (ValueError "CT scan not found"), s)
  | Some scan =>
      forall u a,
        UrgencyLevel_of_value (ClinicalAgent.urgency_level analysis_result)
        = Some u ->
        AppropriatenessScore_of_value
          (ClinicalAgent.appropriateness_score analysis_result)
        = Some a ->
        exists s' scan',
          ClinicalAgent.update_scan_with_analysis scan_id analysis_result s
          = (Raise (NameError "db"), s')
          /\ stored s' = live s'
          /\ by_id CTScan.id scan_id (ct_scans (stored s')) = Some scan'
          /\ CTScan.urgency_level scan' = Some u
          /\ CTScan.appropriateness_score scan' = Some a
          /\ CTScan.appropriateness_reason scan'
             = Some (ClinicalAgent.appropriateness_reason analysis_result)
          /\ (CTScan.status scan = ORDERED -> CTScan.status scan' = VALIDATED)
          /\ (CTScan.status scan <> ORDERED ->
              CTScan.status scan' = CTScan.status scan)
  end.
Proof.
  destruct (by_id CTScan.id scan_id (ct_scans (live s))) as [scan|] eqn:Hfind.
  - intros u a Hu Ha.
    unfold ClinicalAgent.update_scan_with_analysis, ClinicalAgent.enum_call,
      ClinicalAgent.unbound_name, bind, select_scan, assign_scan, commit,
      raise, ret.
    rewrite Hfind, Hu, Ha.
    destruct (String.eqb (ScanStatus_value (CTScan.status scan)) "ordered")
      eqn:Eord; cbn [live stored ct_scans].
    + eexists _, _. split; [reflexivity|]. split; [reflexivity|].
      cbn [stored ct_scans].
      rewrite !by_id_update_id by reflexivity. rewrite Hfind.
      split; [reflexivity|]. cbn.
      repeat split; try reflexivity.
      intros Hn. destruct (CTScan.status scan); try discriminate; congruence.
    + eexists _, _. split; [reflexivity|]. split; [reflexivity|].
      cbn [stored ct_scans].
      rewrite !by_id_update_id by reflexivity. rewrite Hfind.
      split; [reflexivity|]. cbn.
      repeat split; try reflexivity.
      intros Ho. rewrite Ho in Eord. discriminate.
  - unfold ClinicalAgent.update_scan_with_analysis, bind, select_scan, raise.
    rewrite Hfind. reflexivity.
Qed.

(** ** Resource agent: capacity *)




(** The scanner of the specification, with capacity 1 and one scan already
    scheduled: finding does not return it, and scheduling on it succeeds
    and brings its scheduled count to 2. *)
Example exhausted_scanner_example :
  fst (ResourceAgent.find_available_scanner (fun _ => Sample.ten_am) 30 None
         Sample.session)
  = Return None
  /\ exists result s',
       ResourceAgent.schedule_scan Sample.ten_am "scan-1" "scanner-1" None
         Sample.session
       = (Return result, s')
       /\ (Scanner.today_scans_scheduled <$>
             by_id Scanner.id "scanner-1" (scanners (stored s'))) = Some 2
       /\ (Scanner.daily_capacity <$>
             by_id Scanner.id "scanner-1" (scanners (stored s'))) = Some 1
       /\ (CTScan.status <$> by_id CTScan.id "scan-1" (ct_scans (stored s')))
          = Some SCHEDULED.
Proof.
  split; [vm_compute; reflexivity|].
  eexists _, _. split; [vm_compute; reflexivity|].
  repeat split; vm_compute; reflexivity.
Qed.

(** ** Broadcast channel: the room registry *)

Lemma connect_no_empty_room (accepted : bool) (websocket : SocketManager.WebSocket)
    (room : string) (m : SocketManager.t) :
  SocketManager.no_empty_room m ->
  SocketManager.no_empty_room (SocketManager.connect accepted websocket room m).
Proof.
  intros Hinv. unfold SocketManager.connect.
  destruct accepted; [|exact Hinv].
  intros room' connections. cbn [SocketManager.active_connections].
  destruct (decide (room = room')) as [<-|Hne].
  - rewrite lookup_insert_eq. intros H. injection H as <-.
    intros Hnil. apply app_eq_nil in Hnil as [_ Hnil]. discriminate.
  - rewrite lookup_insert_ne by exact Hne.
    destruct (SocketManager.active_connections m !! room).
    + apply Hinv.
    + rewrite lookup_insert_ne by exact Hne. apply Hinv.
Qed.

Lemma disconnect_no_empty_room (websocket : SocketManager.WebSocket)
    (room : string) (m : SocketManager.t) :
  SocketManager.no_empty_room m ->
  SocketManager.no_empty_room (SocketManager.disconnect websocket room m).
Proof.
  intros Hinv. unfold SocketManager.disconnect.
  destruct (SocketManager.active_connections m !! room) as [connections|];
    [|exact Hinv].
  destruct (if SocketManager.mem websocket connections
            then SocketManager.remove_first websocket connections
            else connections) as [|c rest] eqn:Hleft;
    intros room' l; cbn [SocketManager.active_connections].
  - destruct (decide (room = room')) as [<-|Hne].
    + rewrite lookup_delete_eq. discriminate.
    + rewrite lookup_delete_ne by exact Hne. apply Hinv.
  - destruct (decide (room = room')) as [<-|Hne].
    + rewrite lookup_insert_eq. intros H. injection H as <-. discriminate.
    + rewrite lookup_insert_ne by exact Hne. apply Hinv.
Qed.

Lemma disconnect_all_no_empty_room (room : string)
    (disconnected : list SocketManager.WebSocket) :
  forall m,
    SocketManager.no_empty_room m ->
    SocketManager.no_empty_room
      (fold_left (fun m connection => SocketManager.disconnect connection room m)
         disconnected m).
Proof.
  induction disconnected as [|c rest IH]; intros m Hinv; cbn [fold_left].
  - exact Hinv.
  - apply IH. now apply disconnect_no_empty_room.
Qed.

Lemma broadcast_no_empty_room (fails : nat -> bool) (room : string)
    (m : SocketManager.t) :
  SocketManager.no_empty_room m ->
  SocketManager.no_empty_room (SocketManager.broadcast fails room m).
Proof.
  intros Hinv. unfold SocketManager.broadcast.
  destruct (SocketManager.active_connections m !! room); [|exact Hinv].
  now apply disconnect_all_no_empty_room.
Qed.

Lemma step_no_empty_room (m : SocketManager.t) (o : SocketManager.op) :
  SocketManager.no_empty_room m ->
  SocketManager.no_empty_room (SocketManager.step m o).
Proof.
  destruct o; cbn [SocketManager.step];
    auto using connect_no_empty_room, disconnect_no_empty_room,
      broadcast_no_empty_room.
Qed.

(** C10. Starting from an empty manager, after any sequence of connect,
    disconnect and broadcast operations no room of the registry maps to an
    empty connection list. *)
Theorem registry_has_no_empty_room (ops : list SocketManager.op) :
  forall room connections,
    SocketManager.active_connections (SocketManager.run ops) !! room
    = Some connections ->
    connections <> [].
Proof.
  change (SocketManager.no_empty_room (SocketManager.run ops)).
  unfold SocketManager.run.
  assert (Hinit : SocketManager.no_empty_room SocketManager.init).
  { intros room connections. cbn. rewrite lookup_empty. discriminate. }
  revert Hinit. generalize SocketManager.init.
  induction ops as [|o ops IH]; intros m Hinv; cbn [fold_left].
  - exact Hinv.
  - apply IH. now apply step_no_empty_room.
Qed.

(** Two clients in a room, a broadcast whose first send fails: the room
    keeps the other client, a non-empty list. *)
Lemma registry_witness :
  SocketManager.active_connections
    (SocketManager.run
       [SocketManager.Connect true 1%nat "scans";
        SocketManager.Connect true 2%nat "scans";
        SocketManager.Broadcast (fun k => Nat.eqb k 0) "scans"]) !! "scans"
  = Some [2%nat]
  /\ [2%nat] <> [].
Proof.
  assert (H : SocketManager.active_connections
                (SocketManager.run
                   [SocketManager.Connect true 1%nat "scans";
                    SocketManager.Connect true 2%nat "scans";
                    SocketManager.Broadcast (fun k => Nat.eqb k 0) "scans"])
              !! "scans" = Some [2%nat]) by (vm_compute; reflexivity).
  split; [exact H|].
  exact (registry_has_no_empty_room _ _ _ H).
Defined.

(** Disconnecting the last connection of a room removes its entry, also
    when it happens through the cleanup of a broadcast. *)
Example last_connection_leaves :
  SocketManager.active_connections
    (SocketManager.run
       [SocketManager.Connect true 1%nat "scans";
        SocketManager.Disconnect 1%nat "scans"]) !! "scans" = None
  /\ SocketManager.active_connections
       (SocketManager.run
          [SocketManager.Connect true 1%nat "scans";
           SocketManager.Connect true 2%nat "scans";
           SocketManager.Broadcast (fun _ => true) "scans"]) !! "scans" = None
  /\ SocketManager.active_connections
       (SocketManager.run
          [SocketManager.Connect true 1%nat "scans";
           SocketManager.Connect true 2%nat "scans";
           SocketManager.Broadcast (fun k => Nat.eqb k 0) "scans"]) !! "scans"
     = Some [2%nat].
Proof. repeat split; vm_compute; reflexivity. Qed.

(** ** Patient agent: anxiety assessment *)

(** One answer: its number is added, and an answer that stands for no
    number makes the call raise. *)
Lemma add_response_outcome (responses : gmap string Py.value) (key : string)
    (score : Z) (s : Session) :
  PatientAgent.add_response responses key score s
  = match answer_number (responses !! key) with
    | Some n => (Return (score + n), s)
    | None => (Raise BuiltinError, s)
    end.
Proof.
  unfold PatientAgent.add_response, PatientAgent.int_call, bind, ret, raise.
  destruct (responses !! key) as [v|]; cbn [answer_number];
    [|now rewrite Z.add_0_r].
  destruct v as [| [|] | n | [|c t] | [sg | sg | | sg m e] | [|x l] | [|x l]];
    cbn [Py.truthy Py.int_of answer_number negb String.eqb];
    rewrite ?Z.add_0_r; try reflexivity.
  - destruct (Z.eqb_spec n 0) as [->|Hn]; cbn [negb];
      [now rewrite Z.add_0_r | reflexivity].
  - destruct (Py.int_of_str (String c t)); reflexivity.
Qed.

Lemma add_response_numeric (responses : gmap string Py.value) (key : string)
    (score : Z) (s : Session) :
  match responses !! key with
  | None | Some (Py.VInt _) => True
  | _ => False
  end ->
  PatientAgent.add_response responses key score s
  = (Return (score + match responses !! key with
                     | Some (Py.VInt n) => n
                     | _ => 0
                     end), s).
Proof.
  rewrite add_response_outcome.
  destruct (responses !! key) as [[]|]; try contradiction; reflexivity.
Qed.


Lemma add_previous_experience_bonus (responses : gmap string Py.value)
    (score : Z) :
  PatientAgent.add_previous_experience responses score
  = score
    + match responses !! "previous_ct_experience" with
      | Some (Py.VStr t) => if String.eqb t "negative" then 2 else 0
      | _ => 0
      end.
Proof.
  unfold PatientAgent.add_previous_experience.
  destruct (responses !! "previous_ct_experience") as [v|];
    [|now rewrite Z.add_0_r].
  destruct v as [| b | n | t | f | l | d]; cbn [Py.eq_str];
    try (destruct (Py.truthy _); now rewrite Z.add_0_r).
  destruct (String.eqb_spec t "negative") as [->|Hne].
  - reflexivity.
  - destruct (Py.truthy _); now rewrite Z.add_0_r.
Qed.

Lemma anxiety_level_thresholds (score : Z) :
  (score <= 2 -> PatientAgent.anxiety_level_of score = ANX_NONE)
  /\ (2 < score <= 5 -> PatientAgent.anxiety_level_of score = ANX_MILD)
  /\ (5 < score <= 8 -> PatientAgent.anxiety_level_of score = ANX_MODERATE)
  /\ (8 < score -> PatientAgent.anxiety_level_of score = ANX_SEVERE).
Proof.
  unfold PatientAgent.anxiety_level_of.
  destruct (Z.leb_spec score 2); [repeat split; intros; (reflexivity || lia)|].
  destruct (Z.leb_spec score 5); [repeat split; intros; (reflexivity || lia)|].
  destruct (Z.leb_spec score 8); repeat split; intros; (reflexivity || lia).
Qed.

(** The run of an assessment on a patient that is found. *)
Lemma assess_anxiety_outcome (patient_id : string)
    (responses : gmap string Py.value) (s : Session) (patient : Patient.t) :
  by_id Patient.id patient_id (patients (live s)) = Some patient ->
  PatientAgent.assess_anxiety patient_id responses s
  = match answer_number (responses !! "nervous"),
          answer_number (responses !! "worrying"),
          answer_number (responses !! "relaxation_difficulty") with
    | Some a, Some b, Some c =>
        let score :=
          PatientAgent.add_previous_experience responses (0 + a + b + c) in
        let level := PatientAgent.anxiety_level_of score in
        let t' := mkTables (ct_scans (live s)) (scanners (live s))
                    (update_id Patient.id patient_id
                       (Patient.set_anxiety_level level) (patients (live s)))
                    (faqs (live s)) in
        (Return
           (PatientAgent.mkAssessment patient_id (AnxietyLevel_value level)
              score (PatientAgent._get_anxiety_recommendations level)),
         mkSession t' t')
    | _, _, _ => (Raise BuiltinError, s)
    end.
Proof.
  intros Hsome.
  unfold PatientAgent.assess_anxiety, bind at 1, select_patient.
  rewrite Hsome. unfold bind.
  rewrite add_response_outcome.
  destruct (answer_number (responses !! "nervous")) as [a|]; [|reflexivity].
  rewrite add_response_outcome.
  destruct (answer_number (responses !! "worrying")) as [b|]; [|reflexivity].
  rewrite add_response_outcome.
  destruct (answer_number (responses !! "relaxation_difficulty")) as [c|];
    reflexivity.
Qed.

(** C8. The assessment raises "Patient not found" when the patient is
    absent.  Otherwise each of the answers "nervous", "worrying" and
    "relaxation_difficulty" is read as a number ([answer_number]: 0 when
    absent or false, the integer part of a fractional number, the integer
    that a text spells).  When one of the three stands for no number the
    call raises and stores nothing.  When all three do, the score is
    their sum plus 2 when "previous_ct_experience" is "negative"; the
    level is none up to 2, mild up to 5, moderate up to 8 and severe
    above; the level is stored on the patient and committed, no other
    patient changes, and the level is returned with the score and the
    recommendations of that level. *)
Theorem assess_anxiety_spec (patient_id : string)
    (responses : gmap string Py.value) (s : Session) :
  let run := PatientAgent.assess_anxiety patient_id responses s in
  let number key := answer_number (responses !! key) in
  let bonus :=
    match responses !! "previous_ct_experience" with
    | Some (Py.VStr t) => if String.eqb t "negative" then 2 else 0
    | _ => 0
    end in
  (by_id Patient.id patient_id (patients (live s)) = None ->
   run = (Raise (ValueError "Patient not found"), s))
  /\ (forall patient,
        by_id Patient.id patient_id (patients (live s)) = Some patient ->
        ((number "nervous" = None \/ number "worrying" = None
          \/ number "relaxation_difficulty" = None) ->
         run = (Raise BuiltinError, s))
        /\ (forall a b c,
              number "nervous" = Some a -> number "worrying" = Some b ->
              number "relaxation_difficulty" = Some c ->
              exists level recommendations s' patient',
                run = (Return
                         (PatientAgent.mkAssessment patient_id
                            (AnxietyLevel_value level) (a + b + c + bonus)
                            recommendations), s')
                /\ (a + b + c + bonus <= 2 ->
                    level = ANX_NONE /\ AnxietyLevel_value level = "none"
                    /\ recommendations
                       = [ "Your CT scan is routine. Our staff will guide you through the process." ])
                /\ (2 < a + b + c + bonus <= 5 ->
                    level = ANX_MILD /\ AnxietyLevel_value level = "mild"
                    /\ recommendations
                       = [ "Consider listening to calming music during the scan.";
                           "Let our staff know if you'd like any additional support." ])
                /\ (5 < a + b + c + bonus <= 8 ->
                    level = ANX_MODERATE
                    /\ AnxietyLevel_value level = "moderate"
                    /\ recommendations
                       = [ "We recommend our VR relaxation program before the scan.";
                           "A staff member will stay with you throughout the procedure.";
                           "Deep breathing exercises can help you relax." ])
                /\ (8 < a + b + c + bonus ->
                    level = ANX_SEVERE /\ AnxietyLevel_value level = "severe"
                    /\ recommendations
                       = [ "Please speak with our care team about your concerns.";
                           "We can arrange a pre-visit to familiarize you with the equipment.";
                           "VR relaxation is strongly recommended before your scan.";
                           "Sedation options may be available - please discuss with your doctor." ])
                /\ stored s' = live s'
                /\ by_id Patient.id patient_id (patients (stored s'))
                   = Some patient'
                /\ Patient.anxiety_level patient' = level
                /\ Patient.id patient' = Patient.id patient
                /\ Patient.name patient' = Patient.name patient
                /\ Patient.status patient' = Patient.status patient
                /\ Patient.consent_given patient' = Patient.consent_given patient
                /\ (forall other, other <> patient_id ->
                      by_id Patient.id other (patients (stored s'))
                      = by_id Patient.id other (patients (live s))))).
Proof.
  intros run number bonus. subst run. split.
  - intros Hnone.
    unfold PatientAgent.assess_anxiety, bind, select_patient, raise.
    now rewrite Hnone.
  - intros patient Hsome.
    rewrite (assess_anxiety_outcome _ _ _ _ Hsome).
    fold (number "nervous") (number "worrying")
      (number "relaxation_difficulty").
    destruct (number "nervous") as [a|] eqn:Ha.
    2: { split; [reflexivity|]. intros a b c H. discriminate H. }
    destruct (number "worrying") as [b|] eqn:Hb.
    2: { split; [reflexivity|]. intros a' b c _ H. discriminate H. }
    destruct (number "relaxation_difficulty") as [c|] eqn:Hc.
    2: { split; [reflexivity|]. intros a' b' c _ _ H. discriminate H. }
    split.
    { intros [H|[H|H]]; discriminate H. }
    intros a' b' c' Ha' Hb' Hc'.
    injection Ha' as <-. injection Hb' as <-. injection Hc' as <-.
    rewrite add_previous_experience_bonus. fold bonus.
    replace (0 + a + b + c + bonus) with (a + b + c + bonus) by lia.
    set (score := a + b + c + bonus).
    cbn [live stored patients].
    exists (PatientAgent.anxiety_level_of score),
      (PatientAgent._get_anxiety_recommendations
         (PatientAgent.anxiety_level_of score)).
    eexists _, _. split; [reflexivity|].
    destruct (anxiety_level_thresholds score) as (H1 & H2 & H3 & H4).
    split; [intros H; rewrite (H1 H); repeat split|].
    split; [intros H; rewrite (H2 H); repeat split|].
    split; [intros H; rewrite (H3 H); repeat split|].
    split; [intros H; rewrite (H4 H); repeat split|].
    split; [reflexivity|]. cbn [stored patients].
    rewrite by_id_update_id by reflexivity. rewrite Hsome.
    split; [reflexivity|]. do 5 (split; [reflexivity|]).
    intros other Hne. apply by_id_update_id_ne; [reflexivity | congruence].
Qed.

(** The sample patient answers "3" in a text, 2 and true, after a
    negative experience: 3 + 2 + 1 + 2 is 8, "moderate". *)
Lemma assess_anxiety_witness :
  exists s' patient',
    PatientAgent.assess_anxiety "pat-1"
      (<["nervous" := Py.VStr " 3 "]>
         (<["worrying" := Py.VInt 2]>
            (<["relaxation_difficulty" := Py.VBool true]>
               (<["previous_ct_experience" := Py.VStr "negative"]> ∅))))
      Sample.session
    = (Return
         (PatientAgent.mkAssessment "pat-1" "moderate" 8
            [ "We recommend our VR relaxation program before the scan.";
              "A staff member will stay with you throughout the procedure.";
              "Deep breathing exercises can help you relax." ]), s')
    /\ by_id Patient.id "pat-1" (patients (stored s')) = Some patient'
    /\ Patient.anxiety_level patient' = ANX_MODERATE.
Proof.
  edestruct (proj2 (proj2 (assess_anxiety_spec "pat-1"
              (<["nervous" := Py.VStr " 3 "]>
                 (<["worrying" := Py.VInt 2]>
                    (<["relaxation_difficulty" := Py.VBool true]>
                       (<["previous_ct_experience" := Py.VStr "negative"]> ∅))))
              Sample.session) Sample.patient eq_refl) 3 2 1)
    as (level & recommendations & s' & patient' & Hrun & _ & _ & Hmod & _ & _
        & Hfind & Hlevel & _);
    [vm_compute; reflexivity | vm_compute; reflexivity
     | vm_compute; reflexivity |].
  destruct Hmod as (Hl & Hv & Hr); [vm_compute; split; [reflexivity | discriminate]|].
  exists s', patient'. split.
  - rewrite Hrun, Hv, Hr. reflexivity.
  - split; [exact Hfind | now rewrite Hlevel].
Defined.

(** Answers are not summed as they stand: 2.5 and 0.5 count 2 and 0, so
    the score is 2 and the level "none" where their sum, 3, would be
    "mild"; and an answer given in words makes the assessment raise. *)
Lemma answers_are_read_as_integers :
  (exists s',
     PatientAgent.assess_anxiety "pat-1"
       (<["nervous" := Py.VFloat (Py.FFinite false 5 (-1))]>
          (<["worrying" := Py.VFloat (Py.FFinite false 1 (-1))]> ∅))
       Sample.session
     = (Return
          (PatientAgent.mkAssessment "pat-1" "none" 2
             [ "Your CT scan is routine. Our staff will guide you through the process." ]),
        s'))
  /\ PatientAgent.assess_anxiety "pat-1" (<["nervous" := Py.VStr "often"]> ∅)
       Sample.session
     = (Raise BuiltinError, Sample.session).
Proof.
  split; [eexists|]; vm_compute; reflexivity.
Qed.

(** ** Pieces, trimming and case *)






















(** ** Patient agent: answering from the FAQ *)

Lemma collect_relevant_filter (question_lower : string) (faqs : list FAQ.t) :
  forall found,
    PatientAgent.collect_relevant question_lower faqs found
    = found ++ List.filter (PatientAgent.is_relevant question_lower) faqs.
Proof.
  induction faqs as [|faq rest IH]; intros found;
    cbn [PatientAgent.collect_relevant List.filter].
  - now rewrite app_nil_r.
  - destruct (PatientAgent.is_relevant question_lower faq).
    + rewrite IH, <- app_assoc. reflexivity.
    + apply IH.
Qed.




Lemma answer_faq_run (question : string) (patient_id : option string)
    (s : Session) :
  PatientAgent.answer_faq question patient_id s
  = match List.filter (PatientAgent.is_relevant (Py.lower question))
            (List.filter FAQ.is_active (faqs (live s))) with
    | [] =>
        (Return
           (PatientAgent.mkAnswer (PatientAgent._generate_faq_answer question)
              (Some "general") None "low"), s)
    | best :: rest =>
        let t := live s in
        let t' :=
          mkTables (ct_scans t) (scanners t) (patients t)
            (update_id FAQ.id (FAQ.id best)
               (fun r => FAQ.set_view_count (FAQ.view_count r + 1) r)
               (faqs t)) in
        (Return
           (PatientAgent.mkAnswer (FAQ.answer best) (FAQ.category best)
              (Some (FAQ.id best))
              (if Nat.eqb (length (best :: rest)) 1 then "high" else "medium")),
         mkSession t' t')
    end.
Proof.
  unfold PatientAgent.answer_faq, PatientAgent.select_active_faqs, bind.
  cbv beta iota zeta. rewrite collect_relevant_filter. cbn [app].
  destruct (List.filter (PatientAgent.is_relevant (Py.lower question)) _);
    reflexivity.
Qed.




(** Keywords are cut at commas, trimmed and compared without regard to
    case; words are compared without regard to case. *)
Example answer_faq_examples :
  (exists s',
     PatientAgent.answer_faq "HOW long?" None Sample.session
     = (Return
          (PatientAgent.mkAnswer "Remove metal objects." (Some "preparation")
             (Some "faq-1") "medium"), s'))
  /\ fst (PatientAgent.answer_faq "Is it safe" None Sample.session)
     = Return
         (PatientAgent.mkAnswer
            (PatientAgent._generate_faq_answer "Is it safe") (Some "general")
            None "low").
Proof. split; [eexists|]; vm_compute; reflexivity. Qed.

(** ** Token utilities *)









(** Decoding a token that was issued with the same settings comes down
    to the validation of its claims. *)
Lemma decode_created_token (settings : Settings) (now now' : datetime)
    (data : gmap string Py.value) (expires_delta : option Z) :
  let lifetime :=
    match expires_delta with
    | Some d => if d =? 0 then minutes (JWT_EXPIRATION_MINUTES settings) else d
    | None => minutes (JWT_EXPIRATION_MINUTES settings)
    end in
  let exp := Jose.timestamp (now + lifetime) in
  Auth.decode_access_token settings now'
    (Auth.create_access_token settings now data expires_delta)
  = match Jose.validate_claims now' (<["exp" := Py.VInt exp]> data) with
    | Jose.Pass => Return (Some (<["exp" := Py.VInt exp]> data))
    | Jose.Refused => Return None
    | Jose.Crashed => Raise BuiltinError
    end.
Proof.
  cbv zeta.
  unfold Auth.decode_access_token, Auth.create_access_token, Jose.encode,
    Jose.decode.
  rewrite !String.eqb_refl. cbn [andb].
  destruct expires_delta as [d|]; [destruct (d =? 0)|];
    destruct (Jose.validate_claims _ _); reflexivity.
Qed.





(** ** Scan routes: the status patch *)

(** C7. For an authenticated caller and an existing scan, the status patch
    stores the new status and the update time, sets [started_time] for
    "in_progress", [completed_time] for "completed" and [reported_time]
    for "reported" and leaves each of the three otherwise as it was (so
    absent if it was absent), changes no other field, and commits. *)
Theorem status_patch_frame (settings : Settings) (now stamp updated : datetime)
    (scan_id : string) (new_status : ScanStatus)
    (credentials : option Jose.token) (s : Session) (scan : CTScan.t)
    (user_id : Py.value) :
  AuthMiddleware.get_current_user_id settings now credentials = Return user_id ->
  by_id CTScan.id scan_id (ct_scans (live s)) = Some scan ->
  exists s' scan',
    ScansRoutes.update_scan_status settings now stamp updated scan_id
      new_status credentials s
    = (ScansRoutes.scan_to_response scan', s')
    /\ stored s' = live s'
    /\ by_id CTScan.id scan_id (ct_scans (stored s')) = Some scan'
    /\ CTScan.status scan' = new_status
    /\ CTScan.updated_at scan' = Some updated
    /\ (new_status = IN_PROGRESS -> CTScan.started_time scan' = Some stamp)
    /\ (new_status <> IN_PROGRESS ->
        CTScan.started_time scan' = CTScan.started_time scan)
    /\ (new_status = COMPLETED -> CTScan.completed_time scan' = Some stamp)
    /\ (new_status <> COMPLETED ->
        CTScan.completed_time scan' = CTScan.completed_time scan)
    /\ (new_status = REPORTED -> CTScan.reported_time scan' = Some stamp)
    /\ (new_status <> REPORTED ->
        CTScan.reported_time scan' = CTScan.reported_time scan)
    /\ CTScan.id scan' = CTScan.id scan
    /\ CTScan.scan_number scan' = CTScan.scan_number scan
    /\ CTScan.patient_id scan' = CTScan.patient_id scan
    /\ CTScan.ordering_physician_id scan' = CTScan.ordering_physician_id scan
    /\ CTScan.radiology_technician_id scan' = CTScan.radiology_technician_id scan
    /\ CTScan.radiologist_id scan' = CTScan.radiologist_id scan
    /\ CTScan.scanner_id scan' = CTScan.scanner_id scan
    /\ CTScan.ct_indication scan' = CTScan.ct_indication scan
    /\ CTScan.clinical_history scan' = CTScan.clinical_history scan
    /\ CTScan.symptoms scan' = CTScan.symptoms scan
    /\ CTScan.onset_time scan' = CTScan.onset_time scan
    /\ CTScan.gcs_score scan' = CTScan.gcs_score scan
    /\ CTScan.neurological_findings scan' = CTScan.neurological_findings scan
    /\ CTScan.urgency_level scan' = CTScan.urgency_level scan
    /\ CTScan.appropriateness_score scan' = CTScan.appropriateness_score scan
    /\ CTScan.appropriateness_reason scan' = CTScan.appropriateness_reason scan
    /\ CTScan.contrast scan' = CTScan.contrast scan
    /\ CTScan.ai_preliminary_findings scan' = CTScan.ai_preliminary_findings scan
    /\ CTScan.ai_motion_artifact scan' = CTScan.ai_motion_artifact scan
    /\ CTScan.ai_quality_score scan' = CTScan.ai_quality_score scan
    /\ CTScan.scheduled_time scan' = CTScan.scheduled_time scan
    /\ CTScan.preliminary_report scan' = CTScan.preliminary_report scan
    /\ CTScan.final_report scan' = CTScan.final_report scan
    /\ CTScan.critical_findings scan' = CTScan.critical_findings scan
    /\ CTScan.critical_findings_notification scan' = CTScan.critical_findings_notification scan
    /\ CTScan.transport_requested scan' = CTScan.transport_requested scan
    /\ CTScan.transport_eta scan' = CTScan.transport_eta scan
    /\ CTScan.transport_team scan' = CTScan.transport_team scan
    /\ CTScan.ordered_at scan' = CTScan.ordered_at scan
    /\ CTScan.created_at scan' = CTScan.created_at scan.
Proof.
  intros Hauth Hscan.
  unfold ScansRoutes.update_scan_status, ScansRoutes.lift, bind, select_scan.
  rewrite Hauth, Hscan.
  unfold assign_scan, commit, refresh, ret, bind.
  destruct new_status; cbn [live stored ct_scans];
    rewrite !by_id_update_id by reflexivity; rewrite Hscan;
    cbn [fmap option_fmap option_map default];
    (eexists _, _; split; [reflexivity|]; split; [reflexivity|];
     cbn [stored ct_scans];
     rewrite !by_id_update_id by reflexivity; rewrite Hscan;
     split; [reflexivity|];
     repeat split; intros; (reflexivity || discriminate || congruence)).
Qed.

(** The sample scan patched to "in_progress" by a caller holding a token
    issued for user "user-1". *)
Lemma status_patch_witness :
  exists s' scan',
    ScansRoutes.update_scan_status default_settings 0 5 6 "scan-1" IN_PROGRESS
      (Some (Auth.create_access_token default_settings 0
               (Auth.create_token_payload "user-1" "a@b.com" "nurse") None))
      Sample.session
    = (ScansRoutes.scan_to_response scan', s')
    /\ by_id CTScan.id "scan-1" (ct_scans (stored s')) = Some scan'
    /\ CTScan.status scan' = IN_PROGRESS
    /\ CTScan.started_time scan' = Some 5
    /\ CTScan.completed_time scan' = None
    /\ CTScan.reported_time scan' = None
    /\ CTScan.updated_at scan' = Some 6.
Proof.
  edestruct (status_patch_frame default_settings 0 5 6 "scan-1" IN_PROGRESS
               (Some (Auth.create_access_token default_settings 0
                        (Auth.create_token_payload "user-1" "a@b.com" "nurse")
                        None))
               Sample.session Sample.scan (Py.VStr "user-1"))
    as (s' & scan' & Hrun & _ & Hfind & Hstatus & Hupdated & Hstarted & _ & _
        & Hcompleted & _ & Hreported & _).
  - vm_compute. reflexivity.
  - reflexivity.
  - exists s', scan'. split; [exact Hrun|]. split; [exact Hfind|].
    split; [exact Hstatus|]. split; [apply Hstarted; reflexivity|].
    split; [rewrite Hcompleted by discriminate; reflexivity|].
    split; [rewrite Hreported by discriminate; reflexivity|].
    exact Hupdated.
Defined.

(** Patching to a status without a timestamp leaves the three times
    absent. *)
Example status_patch_cancelled :
  exists response s',
    ScansRoutes.update_scan_status default_settings 0 5 6 "scan-1" CANCELLED
      (Some (Auth.create_access_token default_settings 0
               (Auth.create_token_payload "user-1" "a@b.com" "nurse") None))
      Sample.session
    = (Return response, s')
    /\ ScansRoutes.status response = "cancelled"
    /\ ScansRoutes.started_time response = None
    /\ ScansRoutes.completed_time response = None
    /\ (CTScan.reported_time <$> by_id CTScan.id "scan-1" (ct_scans (stored s')))
       = Some None.
Proof.
  eexists _, _. split; [vm_compute; reflexivity|].
  repeat split; vm_compute; reflexivity.
Qed.

(** The analysis of the sample order applied to the sample scan: the
    fields are committed and the call ends in NameError. *)
Example update_scan_with_analysis_example :
  exists s',
    ClinicalAgent.update_scan_with_analysis "scan-1"
      (ClinicalAgent.analyze_ct_indication
         "acute stroke symptoms, sudden weakness" None None)
      Sample.session
    = (Raise (NameError "db"), s')
    /\ (CTScan.status <$> by_id CTScan.id "scan-1" (ct_scans (stored s')))
       = Some VALIDATED
    /\ (CTScan.urgency_level <$>
          by_id CTScan.id "scan-1" (ct_scans (stored s')))
       = Some (Some IMMEDIATE)
    /\ (CTScan.appropriateness_score <$>
          by_id CTScan.id "scan-1" (ct_scans (stored s')))
       = Some (Some VERY_HIGH).
Proof.
  eexists. split; [vm_compute; reflexivity|].
  repeat split; vm_compute; reflexivity.
Qed.

(* ===================================================================== *)
(** * Part III: further properties of the modelled code *)
(* ===================================================================== *)

(** ** Strings, continued *)

Lemma occurs_inside (kw a b c : string) :
  occurs kw b -> occurs kw (a +:+ b +:+ c).
Proof.
  intros (p & q & ->). exists (a +:+ p), (q +:+ c).
  now rewrite !append_assoc.
Qed.

Lemma any_in_inside (indicators : list string) (a b c : string) :
  ClinicalAgent.any_in indicators b = true ->
  ClinicalAgent.any_in indicators (a +:+ b +:+ c) = true.
Proof.
  rewrite !any_in_occurs. intros (kw & Hin & Hocc).
  exists kw. split; [exact Hin | now apply occurs_inside].
Qed.

Lemma in_existsb_eqb (x : string) (l : list string) :
  In x l <-> existsb (String.eqb x) l = true.
Proof.
  rewrite existsb_exists. split.
  - intros H. exists x. split; [exact H | apply String.eqb_refl].
  - intros (y & Hy & Heq). apply String.eqb_eq in Heq. now subst.
Qed.

(** ** Clinical agent: urgency and context *)

Lemma urgency_inside (a b c : string) :
  (ClinicalAgent._determine_urgency b = IMMEDIATE ->
   ClinicalAgent._determine_urgency (a +:+ b +:+ c) = IMMEDIATE)
  /\ (ClinicalAgent._determine_urgency b = URGENT ->
      ClinicalAgent._determine_urgency (a +:+ b +:+ c) <> ROUTINE).
Proof.
  unfold ClinicalAgent._determine_urgency.
  destruct (ClinicalAgent.any_in ClinicalAgent.immediate_indicators b) eqn:Hi.
  - rewrite (any_in_inside _ a b c Hi).
    split; [reflexivity | intros H; discriminate H].
  - destruct (ClinicalAgent.any_in ClinicalAgent.urgent_indicators b) eqn:Hu.
    + split; [intros H; discriminate H|]. intros _.
      rewrite (any_in_inside _ a b c Hu).
      destruct (ClinicalAgent.any_in ClinicalAgent.immediate_indicators
                  (a +:+ b +:+ c));
        intros Hc; discriminate Hc.
    + split; intros H; discriminate H.
Qed.

Lemma urgency_value_routine (u : UrgencyLevel) :
  UrgencyLevel_value u = "routine" -> u = ROUTINE.
Proof. destruct u; intros H; first [reflexivity | discriminate H]. Qed.

(** X1. The urgency reported for an order is never below the urgency that
    its indication, its history or its symptoms would get alone: if one of
    the three (lower-cased) is immediate on its own the order is
    "immediate", and if one is urgent on its own the order is not
    "routine". *)
Theorem each_text_bounds_urgency (ct_indication : string)
    (clinical_history symptoms : option string) :
  let urgency :=
    ClinicalAgent.urgency_level
      (ClinicalAgent.analyze_ct_indication ct_indication clinical_history
         symptoms) in
  forall part,
    In part [ Py.lower ct_indication;
              ClinicalAgent.lower_or_empty clinical_history;
              ClinicalAgent.lower_or_empty symptoms ] ->
    (ClinicalAgent._determine_urgency part = IMMEDIATE ->
     urgency = "immediate")
    /\ (ClinicalAgent._determine_urgency part = URGENT ->
        urgency <> "routine").
Proof.
  intros urgency part Hin. subst urgency. rewrite analyze_urgency_level.
  unfold ClinicalAgent.combined_text.
  set (i := Py.lower ct_indication).
  set (h := ClinicalAgent.lower_or_empty clinical_history).
  set (s := ClinicalAgent.lower_or_empty symptoms).
  assert (Hcase :
    (ClinicalAgent._determine_urgency part = IMMEDIATE ->
     ClinicalAgent._determine_urgency (i +:+ " " +:+ h +:+ " " +:+ s)
     = IMMEDIATE)
    /\ (ClinicalAgent._determine_urgency part = URGENT ->
        ClinicalAgent._determine_urgency (i +:+ " " +:+ h +:+ " " +:+ s)
        <> ROUTINE)).
  { cbn [In] in Hin. destruct Hin as [<-|[<-|[<-|[]]]].
    - exact (urgency_inside "" i (" " +:+ h +:+ " " +:+ s)).
    - replace (i +:+ " " +:+ h +:+ " " +:+ s)
        with ((i +:+ " ") +:+ h +:+ (" " +:+ s))
        by now rewrite !append_assoc.
      apply urgency_inside.
    - replace (i +:+ " " +:+ h +:+ " " +:+ s)
        with ((i +:+ " " +:+ h +:+ " ") +:+ s +:+ "")
        by now rewrite append_empty_r, !append_assoc.
      apply urgency_inside. }
  destruct Hcase as [Himm Hurg]. split.
  - intros H. now rewrite (Himm H).
  - intros H Heq. apply (Hurg H). now apply urgency_value_routine.
Qed.

(** A history mentioning a seizure makes a routine-looking order
    immediate. *)
Lemma each_text_bounds_urgency_witness :
  ClinicalAgent.urgency_level
    (ClinicalAgent.analyze_ct_indication "Follow-up" (Some "Seizure last week")
       None)
  = "immediate".
Proof.
  apply (each_text_bounds_urgency "Follow-up" (Some "Seizure last week") None
           (Py.lower "Seizure last week")).
  - right. left. reflexivity.
  - vm_compute. reflexivity.
Defined.

(** ** Clinical agent: recommendations *)

Lemma stroke_is_immediate (text : string) :
  Py.contains "stroke" text = true ->
  ClinicalAgent._determine_urgency text = IMMEDIATE.
Proof.
  intros H. unfold ClinicalAgent._determine_urgency.
  replace (ClinicalAgent.any_in ClinicalAgent.immediate_indicators text)
    with true; [reflexivity|].
  symmetry. apply any_in_occurs. exists "stroke".
  split; [now left | now apply contains_occurs].
Qed.

Lemma seizure_is_immediate (text : string) :
  Py.contains "seizure" text = true ->
  ClinicalAgent._determine_urgency text = IMMEDIATE.
Proof.
  intros H. unfold ClinicalAgent._determine_urgency.
  replace (ClinicalAgent.any_in ClinicalAgent.immediate_indicators text)
    with true; [reflexivity|].
  symmetry. apply any_in_occurs. exists "seizure".
  split; [cbn; tauto | now apply contains_occurs].
Qed.

Lemma trauma_is_not_routine (text : string) :
  Py.contains "trauma" text = true ->
  ClinicalAgent._determine_urgency text <> ROUTINE.
Proof.
  intros H. unfold ClinicalAgent._determine_urgency.
  destruct (ClinicalAgent.any_in ClinicalAgent.immediate_indicators text);
    [intros Hc; discriminate Hc|].
  replace (ClinicalAgent.any_in ClinicalAgent.urgent_indicators text)
    with true; [intros Hc; discriminate Hc|].
  symmetry. apply any_in_occurs. exists "trauma".
  split; [now left | now apply contains_occurs].
Qed.


(** Closes a goal made of implications and equivalences between closed
    equalities, as left once the urgency, the appropriateness and the
    keyword tests of a recommendation list are fixed. *)
Ltac decide_closed :=
  vm_compute;
  repeat split; intros;
  first
    [ reflexivity
    | match goal with H : _ = _ |- _ => discriminate H end
    | match goal with H : _ \/ _ |- _ => destruct H as [H|H]; discriminate H end
    | left; reflexivity
    | right; reflexivity ].

(** X2. In the result of an analysis the specific recommendations agree
    with the urgency: the stroke and the seizure recommendations only come
    with urgency "immediate", the trauma recommendations never come with
    urgency "routine", and the STAT order is recommended exactly when the
    urgency is "immediate", which is also when a radiologist review is
    required. *)
Theorem specific_recommendations_match_urgency (ct_indication : string)
    (clinical_history symptoms : option string) :
  let r :=
    ClinicalAgent.analyze_ct_indication ct_indication clinical_history
      symptoms in
  (In "NIH Stroke Scale assessment required" (ClinicalAgent.recommendations r)
   -> ClinicalAgent.urgency_level r = "immediate")
  /\ (In "Check anticonvulsant levels if applicable"
         (ClinicalAgent.recommendations r)
      -> ClinicalAgent.urgency_level r = "immediate")
  /\ (In "Assess for other injuries" (ClinicalAgent.recommendations r)
      -> ClinicalAgent.urgency_level r <> "routine")
  /\ (In "Order scan as STAT - immediate priority"
         (ClinicalAgent.recommendations r)
      <-> ClinicalAgent.urgency_level r = "immediate")
  /\ (ClinicalAgent.requires_radiologist_review r = true
      <-> ClinicalAgent.urgency_level r = "immediate").
Proof.
  cbv zeta. unfold ClinicalAgent.analyze_ct_indication.
  set (text := ClinicalAgent.combined_text ct_indication clinical_history
                 symptoms).
  destruct (ClinicalAgent._calculate_appropriateness text) as [a reason].
  cbn [ClinicalAgent.recommendations ClinicalAgent.urgency_level
       ClinicalAgent.requires_radiologist_review].
  assert (Hs := stroke_is_immediate text).
  assert (Hz := seizure_is_immediate text).
  assert (Ht := trauma_is_not_routine text).
  rewrite !in_existsb_eqb.
  unfold ClinicalAgent._generate_recommendations.
  destruct (Py.contains "stroke" text);
    destruct (Py.contains "trauma" text);
    destruct (Py.contains "seizure" text);
    try specialize (Hs eq_refl); try specialize (Hz eq_refl);
    try specialize (Ht eq_refl);
    destruct (ClinicalAgent._determine_urgency text);
    try discriminate; try (exfalso; apply Ht; reflexivity);
    clear; destruct a; decide_closed.
Qed.

(** X3. The caveat about limited diagnostic value (consult first,
    consider MRI) is part of the recommendations exactly when the reported
    appropriateness is "low" or "very_low". *)
Theorem low_appropriateness_caveat (ct_indication : string)
    (clinical_history symptoms : option string) :
  let r :=
    ClinicalAgent.analyze_ct_indication ct_indication clinical_history
      symptoms in
  (In "Consider clinical consultation before proceeding"
      (ClinicalAgent.recommendations r)
   <-> ClinicalAgent.appropriateness_score r = "low"
       \/ ClinicalAgent.appropriateness_score r = "very_low")
  /\ (In "Alternative imaging (MRI) may be more appropriate"
         (ClinicalAgent.recommendations r)
      <-> ClinicalAgent.appropriateness_score r = "low"
          \/ ClinicalAgent.appropriateness_score r = "very_low").
Proof.
  cbv zeta. unfold ClinicalAgent.analyze_ct_indication.
  set (text := ClinicalAgent.combined_text ct_indication clinical_history
                 symptoms).
  destruct (ClinicalAgent._calculate_appropriateness text) as [a reason].
  cbn [ClinicalAgent.recommendations ClinicalAgent.appropriateness_score].
  rewrite !in_existsb_eqb.
  unfold ClinicalAgent._generate_recommendations.
  destruct (Py.contains "stroke" text);
    destruct (Py.contains "trauma" text);
    destruct (Py.contains "seizure" text);
    destruct (ClinicalAgent._determine_urgency text);
    clear; destruct a; decide_closed.
Qed.

(** ** Clinical agent: appropriateness, continued *)

Lemma criteria_scores_range (c : string) (n : Z) :
  In (c, n) ClinicalAgent.APPROPRIATENESS_CRITERIA -> 2 <= n <= 9.
Proof.
  unfold ClinicalAgent.APPROPRIATENESS_CRITERIA. cbn [In].
  intros H. repeat (destruct H as [H|H]; [injection H as <- <-; lia|]).
  destruct H.
Qed.

Lemma matched_reason_differs (c : string) (n : Z) :
  In (c, n) ClinicalAgent.APPROPRIATENESS_CRITERIA ->
  "Score: " +:+ Py.str_of_int n +:+ "/9 - " +:+ ("Matched criteria: " +:+ c)
  <> "Score: 0/9 - No specific criteria matched".
Proof.
  unfold ClinicalAgent.APPROPRIATENESS_CRITERIA. cbn [In].
  intros H.
  repeat (destruct H as [H|H];
          [injection H as <- <-; vm_compute; intros Hc; discriminate Hc|]).
  destruct H.
Qed.

(** X4. The appropriateness is "very_low" exactly when no criterion
    matches the text, which is also exactly when the reason is the
    no-match message; and the reason always reports a score between 0
    and 9. *)
Theorem very_low_iff_unmatched (text : string) :
  let unmatched :=
    forall c n,
      In (c, n) ClinicalAgent.APPROPRIATENESS_CRITERIA ->
      ClinicalAgent.criteria_matches c text = false in
  let result := ClinicalAgent._calculate_appropriateness text in
  (fst result = VERY_LOW <-> unmatched)
  /\ (snd result = "Score: 0/9 - No specific criteria matched" <-> unmatched)
  /\ exists n reason,
       0 <= n <= 9
       /\ snd result = "Score: " +:+ Py.str_of_int n +:+ "/9 - " +:+ reason.
Proof.
  intros unmatched result. subst result.
  unfold ClinicalAgent._calculate_appropriateness.
  destruct (best_match_fold text ClinicalAgent.APPROPRIATENESS_CRITERIA
              0 "No specific criteria matched")
    as [[Hres Hall] | (c & n & Hin & Hc & Hn & Hres & Hall)];
    cbn zeta in Hres; rewrite Hres; cbn [fst snd].
  - assert (Hun : unmatched).
    { intros c n Hin.
      destruct (ClinicalAgent.criteria_matches c text) eqn:Hm; [|reflexivity].
      specialize (Hall c n Hin Hm). apply criteria_scores_range in Hin. lia. }
    split; [split; [intros _; exact Hun | reflexivity]|].
    split; [split; [intros _; exact Hun | reflexivity]|].
    exists 0, "No specific criteria matched". split; [lia | reflexivity].
  - assert (Hrange := criteria_scores_range c n Hin).
    assert (Hnot : ~ unmatched).
    { intros Hun. rewrite (Hun c n Hin) in Hc. discriminate Hc. }
    split.
    { split; [|intros Hun; contradiction].
      unfold ClinicalAgent.score_category.
      destruct (Z.leb_spec 7 n); [intros Hc'; discriminate Hc'|].
      destruct (Z.leb_spec 6 n); [intros Hc'; discriminate Hc'|].
      destruct (Z.leb_spec 4 n); [intros Hc'; discriminate Hc'|].
      destruct (Z.leb_spec 2 n); [intros Hc'; discriminate Hc' | lia]. }
    split.
    { split; [|intros Hun; contradiction].
      intros Heq. exfalso. exact (matched_reason_differs c n Hin Heq). }
    exists n, ("Matched criteria: " +:+ c). split; [lia | reflexivity].
Qed.

Lemma criteria_matches_same_words (c t1 t2 : string) :
  Py.set_of (Py.split t1) = Py.set_of (Py.split t2) ->
  ClinicalAgent.criteria_matches c t1 = ClinicalAgent.criteria_matches c t2.
Proof. intros H. unfold ClinicalAgent.criteria_matches. now rewrite H. Qed.

(** X5. The appropriateness result depends only on the set of words of
    the text: two texts with the same words, in whatever order, number
    and spacing, get the same category and the same reason. *)
Theorem appropriateness_depends_on_words (t1 t2 : string) :
  Py.set_of (Py.split t1) = Py.set_of (Py.split t2) ->
  ClinicalAgent._calculate_appropriateness t1
  = ClinicalAgent._calculate_appropriateness t2.
Proof.
  intros H. unfold ClinicalAgent._calculate_appropriateness.
  assert (Hfold : forall table start,
            fold_left (ClinicalAgent.criteria_step t1) table start
            = fold_left (ClinicalAgent.criteria_step t2) table start).
  { induction table as [|[c n] table IH]; intros [b r]; [reflexivity|].
    cbn [fold_left]. rewrite !criteria_step_eq.
    rewrite (criteria_matches_same_words c t1 t2 H). apply IH. }
  now rewrite Hfold.
Qed.

(** The same words in another order, with a repetition and more
    spaces. *)
Lemma appropriateness_depends_on_words_witness :
  ClinicalAgent._calculate_appropriateness "acute stroke symptoms"
  = ClinicalAgent._calculate_appropriateness
      "symptoms  acute stroke   acute".
Proof.
  apply appropriateness_depends_on_words. vm_compute. reflexivity.
Defined.

(** ** Clinical agent: Glasgow Coma Scale, continued *)

(** X6. For all integer responses the severity and the interpretation
    agree: "mild" goes with normal consciousness or a minor injury,
    "moderate" with a moderate injury, "severe" with a severe injury or
    the critical message. *)
Theorem gcs_severity_agrees (eye_response verbal_response motor_response : Z) :
  let g :=
    ClinicalAgent.calculate_gcs_score eye_response verbal_response
      motor_response in
  (ClinicalAgent.severity g = "mild"
   <-> ClinicalAgent.interpretation g = "Normal consciousness"
       \/ ClinicalAgent.interpretation g = "Minor brain injury")
  /\ (ClinicalAgent.severity g = "moderate"
      <-> ClinicalAgent.interpretation g = "Moderate brain injury")
  /\ (ClinicalAgent.severity g = "severe"
      <-> ClinicalAgent.interpretation g = "Severe brain injury (coma)"
          \/ ClinicalAgent.interpretation g
             = "Critical - immediate intervention required").
Proof.
  cbv zeta. unfold ClinicalAgent.calculate_gcs_score.
  set (total := eye_response + verbal_response + motor_response).
  cbn [ClinicalAgent.severity ClinicalAgent.interpretation].
  unfold ClinicalAgent._interpret_gcs. rewrite sorted_interpretation_keys.
  cbn [ClinicalAgent.first_reached].
  destruct (Z.leb_spec 15 total); destruct (Z.leb_spec 13 total);
    destruct (Z.leb_spec 9 total); destruct (Z.leb_spec 8 total);
    try lia; clear; decide_closed.
Qed.

(** X7. For responses in the clinical ranges (eye 1 to 4, verbal 1 to 5,
    motor 1 to 6) the total lies between 3 and 15, the interpretation is
    "Normal consciousness" exactly when the three responses are maximal,
    and it is the critical message exactly when the total is at most 7. *)
Theorem gcs_clinical_range (eye_response verbal_response motor_response : Z) :
  1 <= eye_response <= 4 ->
  1 <= verbal_response <= 5 ->
  1 <= motor_response <= 6 ->
  let g :=
    ClinicalAgent.calculate_gcs_score eye_response verbal_response
      motor_response in
  3 <= ClinicalAgent.total_score g <= 15
  /\ (ClinicalAgent.interpretation g = "Normal consciousness"
      <-> eye_response = 4 /\ verbal_response = 5 /\ motor_response = 6)
  /\ (ClinicalAgent.interpretation g
      = "Critical - immediate intervention required"
      <-> ClinicalAgent.total_score g <= 7).
Proof.
  intros He Hv Hm. cbv zeta. unfold ClinicalAgent.calculate_gcs_score.
  cbn [ClinicalAgent.total_score ClinicalAgent.interpretation].
  split; [lia|].
  unfold ClinicalAgent._interpret_gcs. rewrite sorted_interpretation_keys.
  cbn [ClinicalAgent.first_reached].
  set (total := eye_response + verbal_response + motor_response) in *.
  assert (Htotal : total = eye_response + verbal_response + motor_response)
    by reflexivity.
  clearbody total.
  destruct (Z.leb_spec 15 total); [|destruct (Z.leb_spec 13 total);
    [|destruct (Z.leb_spec 9 total); [|destruct (Z.leb_spec 8 total)]]];
    cbn [ClinicalAgent.table_get ClinicalAgent.interpretations List.find
         fst snd Z.eqb Pos.eqb fmap option_fmap option_map default];
    (split; split; intros Hx;
     first [ lia | reflexivity | discriminate Hx ]).
Qed.

(** The fully alert patient. *)
Lemma gcs_clinical_range_witness :
  ClinicalAgent.interpretation (ClinicalAgent.calculate_gcs_score 4 5 6)
  = "Normal consciousness".
Proof.
  apply (gcs_clinical_range 4 5 6); [lia | lia | lia |].
  repeat split; reflexivity.
Defined.

(** ** Clinical agent: suggestions *)

(** X8. The suggested additional information always starts with the time
    of onset, holds between 1 and 14 questions, and holds the stroke, the
    trauma, the headache and the seizure questions exactly when that word
    occurs in the lower-cased indication. *)
Theorem suggestions_follow_keywords (ct_indication : string) :
  let r := ClinicalAgent.suggest_additional_clinical_info ct_indication in
  hd_error r = Some "Time of symptom onset or last known well"
  /\ (1 <= length r <= 14)%nat
  /\ (In "NIH Stroke Scale score" r
      <-> occurs "stroke" (Py.lower ct_indication))
  /\ (In "Mechanism of injury" r
      <-> occurs "trauma" (Py.lower ct_indication))
  /\ (In "History of similar headaches" r
      <-> occurs "headache" (Py.lower ct_indication))
  /\ (In "Type of seizure" r
      <-> occurs "seizure" (Py.lower ct_indication)).
Proof.
  cbv zeta. rewrite <- !contains_occurs, !in_existsb_eqb.
  unfold ClinicalAgent.suggest_additional_clinical_info.
  destruct (Py.contains "stroke" (Py.lower ct_indication));
    destruct (Py.contains "trauma" (Py.lower ct_indication));
    destruct (Py.contains "headache" (Py.lower ct_indication));
    destruct (Py.contains "seizure" (Py.lower ct_indication));
    (split; [reflexivity|]); (split; [cbn; lia|]); clear; decide_closed.
Qed.

(** ** Tables, continued *)



Lemma by_id_in {R} (key : R -> string) (i : string) (rows : list R) (r : R) :
  by_id key i rows = Some r -> In r rows.
Proof. unfold by_id. intros H. now apply find_some in H as [H _]. Qed.

(** ** Resource agent: finding a scanner *)

Lemma first_fitting_some (clock : nat -> datetime) (duration : Z)
    (rows : list Scanner.t) :
  forall (k : nat) (d : ResourceAgent.ScannerDict),
    ResourceAgent.first_fitting clock k duration rows = Return (Some d) ->
    exists scanner j,
      In scanner rows
      /\ d = ResourceAgent._scanner_to_dict scanner
      /\ Scanner.today_scans_scheduled scanner < Scanner.daily_capacity scanner
      /\ ResourceAgent._is_within_operational_hours (clock j) scanner duration
         = Return true.
Proof.
  induction rows as [|r rows IH]; intros k d; cbn [ResourceAgent.first_fitting].
  - discriminate.
  - destruct (Z.ltb_spec (Scanner.today_scans_scheduled r)
                (Scanner.daily_capacity r)) as [Hlt|Hge].
    + destruct (ResourceAgent._is_within_operational_hours (clock k) r duration)
        as [[|]|e] eqn:Hfit.
      * intros H. injection H as <-. exists r, k.
        split; [now left|]. split; [reflexivity|]. split; assumption.
      * intros H. destruct (IH _ _ H) as (x & j & Hin & Hrest).
        exists x, j. split; [now right | exact Hrest].
      * discriminate.
    + intros H. destruct (IH _ _ H) as (x & j & Hin & Hrest).
      exists x, j. split; [now right | exact Hrest].
Qed.

Lemma first_fitting_none (clock : nat -> datetime) (duration : Z)
    (rows : list Scanner.t) :
  forall (k : nat),
    ResourceAgent.first_fitting clock k duration rows = Return None ->
    forall scanner,
      In scanner rows ->
      Scanner.daily_capacity scanner <= Scanner.today_scans_scheduled scanner
      \/ exists j,
           ResourceAgent._is_within_operational_hours (clock j) scanner duration
           = Return false.
Proof.
  induction rows as [|r rows IH]; intros k; cbn [ResourceAgent.first_fitting].
  - intros _ scanner [].
  - destruct (Z.ltb_spec (Scanner.today_scans_scheduled r)
                (Scanner.daily_capacity r)) as [Hlt|Hge].
    + destruct (ResourceAgent._is_within_operational_hours (clock k) r duration)
        as [[|]|e] eqn:Hfit; try discriminate.
      intros H scanner [<-|Hin]; [right; now exists k | exact (IH _ H _ Hin)].
    + intros H scanner [<-|Hin]; [now left | exact (IH _ H _ Hin)].
Qed.

Lemma in_available_scanners (preferred_type : option ScannerType)
    (rows : list Scanner.t) (scanner : Scanner.t) :
  In scanner (ResourceAgent.available_scanners preferred_type rows)
  <-> In scanner rows
      /\ Scanner.status scanner = AVAILABLE
      /\ Scanner.is_active scanner = true
      /\ forall ty, preferred_type = Some ty -> Scanner.scanner_type scanner = ty.
Proof.
  unfold ResourceAgent.available_scanners.
  assert (Hst : forall a, ScannerStatus_eqb a AVAILABLE = true <-> a = AVAILABLE)
    by (intros a; destruct a; cbn; split; intros H;
        first [reflexivity | discriminate H]).
  assert (Hty : forall a b, ScannerType_eqb a b = true <-> a = b)
    by (intros a b; destruct a, b; cbn; split; intros H;
        first [reflexivity | discriminate H]).
  destruct preferred_type as [ty|].
  - rewrite !List.filter_In, andb_true_iff, Hst, Hty. split.
    + intros [[Hin [Hs Ha]] Ht]. repeat split; trivial.
      intros ty' Heq. injection Heq as <-. exact Ht.
    + intros (Hin & Hs & Ha & Ht). repeat split; trivial. now apply Ht.
  - rewrite List.filter_In, andb_true_iff, Hst. split.
    + intros [Hin [Hs Ha]]. repeat split; trivial. intros ty Heq. discriminate Heq.
    + intros (Hin & Hs & Ha & _). repeat split; trivial.
Qed.

(** X9. Finding a scanner changes nothing in the session.  A scanner it
    returns is a stored scanner that is available, active, of the
    preferred type when one is given, below its daily capacity, and whose
    operational window holds the scan at the time it was examined.  When it
    returns nothing, every stored scanner that is available, active and of
    the preferred type is either at capacity or could not hold the scan
    at the time it was examined. *)
Theorem find_available_scanner_sound (clock : nat -> datetime)
    (duration : Z) (preferred_type : option ScannerType) (s : Session) :
  let run :=
    ResourceAgent.find_available_scanner clock duration preferred_type s in
  snd run = s
  /\ (forall d,
        fst run = Return (Some d) ->
        exists scanner j,
          In scanner (scanners (live s))
          /\ d = ResourceAgent._scanner_to_dict scanner
          /\ Scanner.status scanner = AVAILABLE
          /\ Scanner.is_active scanner = true
          /\ (forall ty, preferred_type = Some ty ->
                Scanner.scanner_type scanner = ty)
          /\ Scanner.today_scans_scheduled scanner
             < Scanner.daily_capacity scanner
          /\ ResourceAgent._is_within_operational_hours (clock j) scanner
               duration = Return true)
  /\ (fst run = Return None ->
      forall scanner,
        In scanner (scanners (live s)) ->
        Scanner.status scanner = AVAILABLE ->
        Scanner.is_active scanner = true ->
        (forall ty, preferred_type = Some ty ->
           Scanner.scanner_type scanner = ty) ->
        Scanner.daily_capacity scanner <= Scanner.today_scans_scheduled scanner
        \/ exists j,
             ResourceAgent._is_within_operational_hours (clock j) scanner
               duration = Return false).
Proof.
  cbv zeta. unfold ResourceAgent.find_available_scanner. cbn [fst snd].
  split; [reflexivity|]. split.
  - intros d Hd.
    apply first_fitting_some in Hd as (scanner & j & Hin & Hd & Hcap & Hfit).
    apply in_available_scanners in Hin as (Hin & Hs & Ha & Ht).
    exists scanner, j. repeat split; assumption.
  - intros Hnone scanner Hin Hs Ha Ht.
    apply (first_fitting_none _ _ _ _ Hnone).
    apply in_available_scanners. repeat split; assumption.
Qed.

(** ** Resource agent: scheduling, continued *)






(** ** Resource agent: operational hours *)

(** X12. At a time that a [datetime] can hold, when the operational
    window holds a scan of some duration, it holds every shorter scan (of
    a duration that is not negative) too, the current time is not before
    the start of the window, and the scan ends on the same day: no scan
    is placed across midnight. *)
Theorem operational_hours_fit (now : datetime) (scanner : Scanner.t)
    (duration shorter : Z) :
  datetime_min <= now <= datetime_max ->
  ResourceAgent._is_within_operational_hours now scanner duration
  = Return true ->
  0 <= shorter <= duration ->
  ResourceAgent._is_within_operational_hours now scanner shorter = Return true
  /\ now mod us_per_day + minutes duration < us_per_day
  /\ exists start_hour start_min,
       ResourceAgent.parse_hour_minute (Scanner.operational_hours_start scanner)
       = Some (start_hour, start_min)
       /\ start_hour * 60 * us_per_minute + start_min * us_per_minute
          <= now mod us_per_day - now mod us_per_second.
Proof.
  intros Hnow.
  unfold ResourceAgent._is_within_operational_hours.
  destruct (ResourceAgent.parse_hour_minute
              (Scanner.operational_hours_start scanner)) as [[sh sm]|];
    [|intros H; discriminate H].
  destruct (ResourceAgent.parse_hour_minute
              (Scanner.operational_hours_end scanner)) as [[eh em]|];
    [|intros H; discriminate H].
  unfold replace_hms.
  destruct ((0 <=? sh) && (sh <=? 23) && (0 <=? sm) && (sm <=? 59)) eqn:Hs;
    [|intros H; discriminate H].
  destruct ((0 <=? eh) && (eh <=? 23) && (0 <=? em) && (em <=? 59)) eqn:He;
    [|intros H; discriminate H].
  unfold timedelta_minutes, datetime_add. cbv zeta.
  destruct ((- 999999999 * us_per_day <=? duration * us_per_minute)
            && (duration * us_per_minute <? 1000000000 * us_per_day)) eqn:Hd;
    [|intros H; discriminate H].
  destruct ((datetime_min <=? now + duration * us_per_minute)
            && (now + duration * us_per_minute <=? datetime_max)) eqn:Ha;
    [|intros H; discriminate H].
  intros H Hle. injection H as H.
  apply andb_true_iff in H as [Hstart Hend].
  apply Z.leb_le in Hstart. apply Z.leb_le in Hend.
  rewrite !andb_true_iff, !Z.leb_le in He.
  apply andb_true_iff in Hd as [Hd1 Hd2].
  apply Z.leb_le in Hd1. apply Z.ltb_lt in Hd2.
  apply andb_true_iff in Ha as [Ha1 Ha2].
  apply Z.leb_le in Ha1. apply Z.leb_le in Ha2.
  assert (Hm : 0 <= now mod us_per_second < us_per_second)
    by (apply Z.mod_pos_bound; reflexivity).
  unfold datetime_min, datetime_max, minutes, us_per_day, us_per_minute,
    us_per_second in *.
  assert (Hd' : (- 999999999 * (24 * 60 * (60 * 1000000))
                 <=? shorter * (60 * 1000000))
                && (shorter * (60 * 1000000)
                    <? 1000000000 * (24 * 60 * (60 * 1000000))) = true).
  { apply andb_true_iff. split; [apply Z.leb_le | apply Z.ltb_lt]; lia. }
  assert (Ha' : (- 62135596800 * 1000000 <=? now + shorter * (60 * 1000000))
                && (now + shorter * (60 * 1000000)
                    <=? 253402300800 * 1000000 - 1) = true).
  { apply andb_true_iff. split; apply Z.leb_le; lia. }
  rewrite Hd', Ha'.
  split.
  - f_equal. apply andb_true_iff. split; apply Z.leb_le; lia.
  - split; [lia|]. exists sh, sm. split; [reflexivity | lia].
Qed.

(** At ten o'clock the sample scanner (08:00 to 22:00) holds a scan of 30
    minutes, hence one of 15. *)
Lemma operational_hours_fit_witness :
  ResourceAgent._is_within_operational_hours Sample.ten_am Sample.scanner 15
  = Return true.
Proof.
  apply (operational_hours_fit Sample.ten_am Sample.scanner 30 15).
  - vm_compute. split; discriminate.
  - vm_compute. reflexivity.
  - lia.
Defined.

(** A duration that no [timedelta] can hold makes the check raise. *)
Example operational_hours_overflow :
  ResourceAgent._is_within_operational_hours Sample.ten_am Sample.scanner
    (- 10000000000000000)
  = Raise BuiltinError.
Proof. vm_compute. reflexivity. Qed.

(** ** Resource agent: scanner status *)




(** ** Resource agent: the next slot *)



(** The second sample scan is scheduled today at eleven on the free
    scanner (30 minutes on average): its next slot is not before half past
    eleven. *)
Example next_slot_example :
  fst (ResourceAgent._calculate_next_slot Sample.ten_am Sample.free_scanner
         Sample.session2)
  = Return (11 * 60 * us_per_minute + minutes 30)
  /\ fst (ResourceAgent._calculate_next_slot Sample.ten_am Sample.scanner
            Sample.session2)
     = Return (Sample.ten_am + minutes 15).
Proof. split; vm_compute; reflexivity. Qed.

(** ** Patient agent: keywords, continued *)

Lemma contains_empty (hay : string) : Py.contains EmptyString hay = true.
Proof. destruct hay; reflexivity. Qed.

Lemma split_on_go_trailing (sep : ascii) (text : string) :
  forall cur,
    In EmptyString
      (Py.split_on_go sep cur (text +:+ String sep EmptyString)).
Proof.
  induction text as [|c text IH]; intros cur; simpl.
  - rewrite Ascii.eqb_refl. right. now left.
  - destruct (Ascii.eqb c sep); [right|]; apply IH.
Qed.

(** A keyword list that ends with a comma has an empty keyword. *)
Lemma trailing_comma_keyword (text : string) :
  In EmptyString (PatientAgent.keywords_of (text +:+ ",")).
Proof.
  unfold PatientAgent.keywords_of, Py.split_on.
  apply in_map_iff. exists EmptyString. split; [reflexivity|].
  apply split_on_go_trailing.
Qed.

(** X15. An empty keyword matches everything.  When the keyword text of an
    active FAQ is not empty and one of its comma-separated pieces is blank
    (as after a trailing comma), the FAQ is relevant to every question:
    [answer_faq] then always answers from an FAQ, never with the fixed
    low-confidence answer. *)
Theorem empty_keyword_matches_every_question (faq : FAQ.t) (text : string)
    (question : string) (patient_id : option string) (s : Session) :
  FAQ.keywords faq = Some text ->
  text <> EmptyString ->
  In EmptyString (PatientAgent.keywords_of text) ->
  In faq (faqs (live s)) ->
  FAQ.is_active faq = true ->
  PatientAgent.is_relevant (Py.lower question) faq = true
  /\ exists a s',
       PatientAgent.answer_faq question patient_id s = (Return a, s')
       /\ PatientAgent.faq_id a <> None
       /\ PatientAgent.confidence a <> "low".
Proof.
  intros Hkw Hne Hin Hfaq Hact.
  assert (Hrel : PatientAgent.is_relevant (Py.lower question) faq = true).
  { unfold PatientAgent.is_relevant. rewrite Hkw.
    destruct (String.eqb_spec text "") as [->|_]; [now contradiction Hne|].
    assert (Hex : existsb (fun k => Py.contains k (Py.lower question))
                    (PatientAgent.keywords_of text) = true).
    { apply existsb_exists. exists EmptyString.
      split; [exact Hin | apply contains_empty]. }
    now rewrite Hex. }
  split; [exact Hrel|].
  rewrite answer_faq_run.
  assert (Hmem : In faq (List.filter
                           (PatientAgent.is_relevant (Py.lower question))
                           (List.filter FAQ.is_active (faqs (live s))))).
  { apply List.filter_In. split; [|exact Hrel].
    apply List.filter_In. now split. }
  destruct (List.filter (PatientAgent.is_relevant (Py.lower question)) _)
    as [|best rest]; [destruct Hmem|].
  cbv zeta. eexists _, _. split; [reflexivity|].
  cbn [PatientAgent.faq_id PatientAgent.confidence].
  split; [intros H; discriminate H|].
  destruct (Nat.eqb (length (best :: rest)) 1); intros H; discriminate H.
Qed.

(** The sample FAQ with the keywords "contrast," answers a question that
    shares no word with any FAQ. *)
Lemma empty_keyword_witness :
  PatientAgent.is_relevant (Py.lower "Is it safe?") Sample.faq_comma = true
  /\ exists a s',
       PatientAgent.answer_faq "Is it safe?" None Sample.session3
       = (Return a, s')
       /\ PatientAgent.faq_id a <> None
       /\ PatientAgent.confidence a <> "low".
Proof.
  apply (empty_keyword_matches_every_question Sample.faq_comma "contrast,").
  - reflexivity.
  - intros H. discriminate H.
  - apply (trailing_comma_keyword "contrast").
  - right. now left.
  - reflexivity.
Defined.

(** ** Patient agent: the same question again *)





(** ** Patient agent: the previous experience *)

Lemma assess_anxiety_run (patient_id : string)
    (responses : gmap string Py.value) (s : Session) (patient : Patient.t) :
  let number key :=
    match responses !! key with Some (Py.VInt n) => n | _ => 0 end in
  let numeric key :=
    match responses !! key with
    | None | Some (Py.VInt _) => True
    | _ => False
    end in
  by_id Patient.id patient_id (patients (live s)) = Some patient ->
  numeric "nervous" -> numeric "worrying" -> numeric "relaxation_difficulty" ->
  PatientAgent.assess_anxiety patient_id responses s
  = let score :=
      PatientAgent.add_previous_experience responses
        (0 + number "nervous" + number "worrying"
         + number "relaxation_difficulty") in
    let level := PatientAgent.anxiety_level_of score in
    let t := live s in
    let t' :=
      mkTables (ct_scans t) (scanners t)
        (update_id Patient.id patient_id (Patient.set_anxiety_level level)
           (patients t)) (faqs t) in
    (Return
       (PatientAgent.mkAssessment patient_id (AnxietyLevel_value level) score
          (PatientAgent._get_anxiety_recommendations level)),
     mkSession t' t').
Proof.
  intros number numeric Hsome Hn Hw Hr.
  unfold PatientAgent.assess_anxiety, bind at 1, select_patient.
  rewrite Hsome. unfold bind.
  rewrite (add_response_numeric responses "nervous" 0 s Hn).
  rewrite (add_response_numeric responses "worrying" _ s Hw).
  rewrite (add_response_numeric responses "relaxation_difficulty" _ s Hr).
  reflexivity.
Qed.

(** X17. A negative previous experience weighs less than one level.  For
    an existing patient and integer (or absent) answers, the assessment
    with "previous_ct_experience" set to "negative" scores exactly 2 more
    than the assessment without that entry, and its level is the same
    level or the next one: never lower, never two levels higher. *)
Theorem negative_experience_one_step (patient_id : string)
    (responses : gmap string Py.value) (s : Session) :
  let numeric key :=
    match responses !! key with
    | None | Some (Py.VInt _) => True
    | _ => False
    end in
  let plain := delete "previous_ct_experience" responses in
  let negative :=
    <["previous_ct_experience" := Py.VStr "negative"]> responses in
  by_id Patient.id patient_id (patients (live s)) <> None ->
  numeric "nervous" -> numeric "worrying" -> numeric "relaxation_difficulty" ->
  exists a0 a1 s0 s1,
    PatientAgent.assess_anxiety patient_id plain s = (Return a0, s0)
    /\ PatientAgent.assess_anxiety patient_id negative s = (Return a1, s1)
    /\ PatientAgent.a_score a1 = PatientAgent.a_score a0 + 2
    /\ In (PatientAgent.a_anxiety_level a0, PatientAgent.a_anxiety_level a1)
         [ ("none", "none"); ("none", "mild"); ("mild", "mild");
           ("mild", "moderate"); ("moderate", "moderate");
           ("moderate", "severe"); ("severe", "severe") ].
Proof.
  intros numeric plain negative Hpatient Hn Hw Hr.
  destruct (by_id Patient.id patient_id (patients (live s))) as [patient|]
    eqn:Hsome; [clear Hpatient | contradiction].
  assert (Hp : forall key, key <> "previous_ct_experience" ->
                 plain !! key = responses !! key)
    by (intros key Hk; apply lookup_delete_ne; congruence).
  assert (Hg : forall key, key <> "previous_ct_experience" ->
                 negative !! key = responses !! key)
    by (intros key Hk; apply lookup_insert_ne; congruence).
  assert (K1 : "nervous" <> "previous_ct_experience") by discriminate.
  assert (K2 : "worrying" <> "previous_ct_experience") by discriminate.
  assert (K3 : "relaxation_difficulty" <> "previous_ct_experience")
    by discriminate.
  subst numeric. cbv beta in Hn, Hw, Hr.
  rewrite (assess_anxiety_run patient_id plain s patient Hsome)
    by (cbv beta; rewrite Hp by assumption; assumption).
  rewrite (assess_anxiety_run patient_id negative s patient Hsome)
    by (cbv beta; rewrite Hg by assumption; assumption).
  cbv zeta.
  rewrite !Hp, !Hg by assumption.
  set (base := 0 + _ + _ + _).
  assert (E0 : PatientAgent.add_previous_experience plain base = base).
  { unfold PatientAgent.add_previous_experience, plain.
    now rewrite lookup_delete_eq. }
  assert (E1 : PatientAgent.add_previous_experience negative base = base + 2).
  { unfold PatientAgent.add_previous_experience, negative.
    now rewrite lookup_insert_eq. }
  rewrite E0, E1.
  eexists _, _, _, _. split; [reflexivity|]. split; [reflexivity|].
  cbn [PatientAgent.a_score PatientAgent.a_anxiety_level].
  split; [reflexivity|].
  unfold PatientAgent.anxiety_level_of.
  destruct (Z.leb_spec base 2), (Z.leb_spec base 5), (Z.leb_spec base 8),
    (Z.leb_spec (base + 2) 2), (Z.leb_spec (base + 2) 5),
    (Z.leb_spec (base + 2) 8); try lia; cbn; tauto.
Qed.

(** Nervous 3 and worrying 2 for the sample patient: "mild" without the
    entry, "moderate" with it. *)
Lemma negative_experience_witness :
  exists a0 a1 s0 s1,
    PatientAgent.assess_anxiety "pat-1"
      (delete "previous_ct_experience"
         (<["nervous" := Py.VInt 3]> (<["worrying" := Py.VInt 2]> ∅)))
      Sample.session = (Return a0, s0)
    /\ PatientAgent.assess_anxiety "pat-1"
         (<["previous_ct_experience" := Py.VStr "negative"]>
            (<["nervous" := Py.VInt 3]> (<["worrying" := Py.VInt 2]> ∅)))
         Sample.session = (Return a1, s1)
    /\ PatientAgent.a_score a1 = PatientAgent.a_score a0 + 2
    /\ In (PatientAgent.a_anxiety_level a0, PatientAgent.a_anxiety_level a1)
         [ ("none", "none"); ("none", "mild"); ("mild", "mild");
           ("mild", "moderate"); ("moderate", "moderate");
           ("moderate", "severe"); ("severe", "severe") ].
Proof.
  apply (negative_experience_one_step "pat-1"
           (<["nervous" := Py.VInt 3]> (<["worrying" := Py.VInt 2]> ∅))
           Sample.session).
  - vm_compute. intros H. discriminate H.
  - vm_compute. exact I.
  - vm_compute. exact I.
  - vm_compute. exact I.
Defined.

(** ** Patient agent: VR content *)

(** X18. Every anxiety level has VR content: the result of
    [get_vr_content] is never empty, holds exactly the library items whose
    "suitable_for" lists the value of the level, and holds no item
    twice. *)
Theorem vr_content_suits_level (anxiety_level : AnxietyLevel) :
  PatientAgent.get_vr_content anxiety_level <> []
  /\ (forall c,
        In c (PatientAgent.get_vr_content anxiety_level)
        <-> In c PatientAgent.vr_content
            /\ In (AnxietyLevel_value anxiety_level)
                 (PatientAgent.vr_suitable_for c))
  /\ NoDup (map PatientAgent.vr_id (PatientAgent.get_vr_content anxiety_level)).
Proof.
  split; [destruct anxiety_level; intros H; discriminate H|].
  split.
  - intros c. unfold PatientAgent.get_vr_content. cbv zeta.
    rewrite List.filter_In, existsb_exists. split.
    + intros [Hin [x [Hx Heq]]]. apply String.eqb_eq in Heq. subst x.
      now split.
    + intros [Hin Hs]. split; [exact Hin|].
      exists (AnxietyLevel_value anxiety_level). split; [exact Hs|].
      apply String.eqb_refl.
  - destruct anxiety_level; apply (bool_decide_unpack _); vm_compute; exact I.
Qed.

(** ** Patient agent: digital consent *)

Lemma process_digital_consent_run
    (new_id : string) (signed_now consent_now created_now updated_now : datetime)
    (patient_id : string) (consent_type : Consent.ConsentType)
    (consent_given : bool) (signature_data : option string)
    (consents : list Consent.t) (s : Session) (patient : Patient.t) :
  by_id Patient.id patient_id (patients (live s)) = Some patient ->
  PatientAgent.process_digital_consent new_id signed_now consent_now
    created_now updated_now patient_id consent_type consent_given
    signature_data consents s
  = let consent :=
      Consent.mk new_id patient_id consent_type
        (if consent_given then Consent.SIGNED else Consent.DECLINED)
        (PatientAgent._get_consent_text consent_type) false signature_data
        (if consent_given then Some signed_now else None)
        None None None None None "1.0" "en" created_now updated_now in
    let sets :=
      consent_given && Consent.ConsentType_eqb consent_type Consent.CT_SCAN in
    let t := live s in
    let t' :=
      if sets
      then mkTables (ct_scans t) (scanners t)
             (update_id Patient.id patient_id
                (Patient.set_consent_timestamp (Some consent_now))
                (update_id Patient.id patient_id
                   (Patient.set_consent_given true) (patients t)))
             (faqs t)
      else t in
    (Return
       (PatientAgent.mkConsentResult new_id
          (if consent_given then "signed" else "declined")
          (if consent_given then Some signed_now else None),
        consents ++ [consent]),
     mkSession t' t').
Proof.
  intros Hsome.
  unfold PatientAgent.process_digital_consent, bind at 1, select_patient.
  rewrite Hsome. cbv zeta.
  destruct consent_given, consent_type; reflexivity.
Qed.

(** X19. Processing a consent for an absent patient raises "Patient not
    found" and changes nothing.  For a stored patient one row is appended
    to the consents, with the generated key, the patient, the type and the
    signature; it is "signed" with its signing time when consent is given
    and "declined" without one otherwise, and a sedation or research
    consent is recorded with the text "Consent form text not available.".
    The patient's consent flag and timestamp are set exactly when a CT
    scan consent is given; in every other case (a decline, or another
    type) they stay as they were.  No other patient changes. *)
Theorem consent_is_recorded
    (new_id : string) (signed_now consent_now created_now updated_now : datetime)
    (patient_id : string) (consent_type : Consent.ConsentType)
    (consent_given : bool) (signature_data : option string)
    (consents : list Consent.t) (s : Session) :
  let run :=
    PatientAgent.process_digital_consent new_id signed_now consent_now
      created_now updated_now patient_id consent_type consent_given
      signature_data consents s in
  (by_id Patient.id patient_id (patients (live s)) = None ->
   run = (Raise (ValueError "Patient not found"), s))
  /\ (forall patient,
        by_id Patient.id patient_id (patients (live s)) = Some patient ->
        exists result consent s' patient',
          run = (Return (result, consents ++ [consent]), s')
          /\ Consent.id consent = new_id
          /\ PatientAgent.c_consent_id result = new_id
          /\ Consent.patient_id consent = patient_id
          /\ Consent.consent_type consent = consent_type
          /\ Consent.signature_data consent = signature_data
          /\ (consent_given = true ->
              Consent.status consent = Consent.SIGNED
              /\ PatientAgent.c_status result = "signed"
              /\ Consent.signed_at consent = Some signed_now)
          /\ (consent_given = false ->
              Consent.status consent = Consent.DECLINED
              /\ PatientAgent.c_status result = "declined"
              /\ Consent.signed_at consent = None)
          /\ (consent_type = Consent.SEDATION \/ consent_type = Consent.RESEARCH ->
              Consent.consent_text consent = "Consent form text not available.")
          /\ stored s' = live s'
          /\ by_id Patient.id patient_id (patients (live s')) = Some patient'
          /\ (consent_given = true /\ consent_type = Consent.CT_SCAN ->
              Patient.consent_given patient' = true
              /\ Patient.consent_timestamp patient' = Some consent_now)
          /\ (consent_given = false \/ consent_type <> Consent.CT_SCAN ->
              Patient.consent_given patient' = Patient.consent_given patient
              /\ Patient.consent_timestamp patient'
                 = Patient.consent_timestamp patient)
          /\ (forall other, other <> patient_id ->
                by_id Patient.id other (patients (live s'))
                = by_id Patient.id other (patients (live s)))).
Proof.
  cbv zeta. split.
  - intros Hnone.
    unfold PatientAgent.process_digital_consent, bind, select_patient, raise.
    now rewrite Hnone.
  - intros patient Hsome.
    rewrite (process_digital_consent_run _ _ _ _ _ _ _ _ _ _ _ patient Hsome).
    cbv zeta.
    destruct (consent_given
              && Consent.ConsentType_eqb consent_type Consent.CT_SCAN) eqn:Hsets.
    + apply andb_true_iff in Hsets as [Hg Hty].
      destruct consent_given; [clear Hg | discriminate Hg].
      destruct consent_type; try discriminate Hty. clear Hty.
      eexists _, _, _.
      exists (Patient.set_consent_timestamp (Some consent_now)
                (Patient.set_consent_given true patient)).
      split; [reflexivity|]. do 5 (split; [reflexivity|]).
      split; [intros _; repeat split|].
      split; [intros H; discriminate H|].
      split; [intros [H|H]; discriminate H|].
      split; [reflexivity|].
      split.
      { cbn [live patients]. rewrite !by_id_update_id by reflexivity.
        now rewrite Hsome. }
      split; [intros _; split; reflexivity|].
      split; [intros [H|H]; [discriminate H | now contradiction H]|].
      intros other Hne. cbn [live patients].
      rewrite !by_id_update_id_ne; [reflexivity| | | |];
        first [reflexivity | congruence].
    + destruct consent_given; eexists _, _, _; exists patient.
      all: split; [reflexivity|]; do 5 (split; [reflexivity|]).
      all: split; [intros H; first [discriminate H | repeat split]|].
      all: split; [intros H; first [discriminate H | repeat split]|].
      all: split; [intros [H|H]; rewrite H; reflexivity|].
      all: split; [reflexivity|].
      all: split; [exact Hsome|].
      all: split;
        [intros [Hg Ht]; first [discriminate Hg
                               | rewrite Ht in Hsets; discriminate Hsets]|].
      all: split; [intros _; split; reflexivity|].
      all: intros other _; reflexivity.
Qed.

(** X20. The consent flag is never cleared.  Any run of consent calls for
    a stored patient succeeds call by call and records one row per call,
    signed or declined as requested; afterwards the patient's flag is set
    when it was set before or some call gave the CT scan consent, whatever
    was declined later. *)
Theorem consent_flag_is_never_cleared (patient_id : string)
    (requests : list PatientAgent.ConsentRequest) :
  forall (consents : list Consent.t) (s : Session) (patient : Patient.t),
    by_id Patient.id patient_id (patients (live s)) = Some patient ->
    exists results rows s' patient',
      PatientAgent.consent_each patient_id requests consents s
      = (Return (results, consents ++ rows), s')
      /\ map PatientAgent.c_status results
         = map (fun q => if PatientAgent.q_consent_given q
                         then "signed" else "declined") requests
      /\ map Consent.status rows
         = map (fun q => if PatientAgent.q_consent_given q
                         then Consent.SIGNED else Consent.DECLINED) requests
      /\ map Consent.consent_type rows
         = map PatientAgent.q_consent_type requests
      /\ by_id Patient.id patient_id (patients (live s')) = Some patient'
      /\ Patient.consent_given patient'
         = Patient.consent_given patient
           || existsb
                (fun q =>
                   PatientAgent.q_consent_given q
                   && Consent.ConsentType_eqb (PatientAgent.q_consent_type q)
                        Consent.CT_SCAN) requests.
Proof.
  induction requests as [|q rest IH]; intros consents s patient Hsome.
  - exists [], [], s, patient. cbn [PatientAgent.consent_each map existsb].
    rewrite app_nil_r, orb_false_r. repeat split; trivial.
  - pose proof (process_digital_consent_run (PatientAgent.q_new_id q)
                  (PatientAgent.q_signed_now q) (PatientAgent.q_consent_now q)
                  (PatientAgent.q_created_now q) (PatientAgent.q_updated_now q)
                  patient_id (PatientAgent.q_consent_type q)
                  (PatientAgent.q_consent_given q)
                  (PatientAgent.q_signature_data q) consents s patient Hsome)
      as Hrun.
    cbv zeta in Hrun.
    match type of Hrun with
    | _ = (Return (?r, _ ++ [?c]), ?st) =>
        set (result := r) in *; set (row := c) in *; set (s1 := st) in *
    end.
    set (sets := PatientAgent.q_consent_given q
                 && Consent.ConsentType_eqb (PatientAgent.q_consent_type q)
                      Consent.CT_SCAN) in *.
    assert (Hsome1 : exists patient1,
              by_id Patient.id patient_id (patients (live s1)) = Some patient1
              /\ Patient.consent_given patient1
                 = Patient.consent_given patient || sets).
    { subst s1. destruct sets.
      - eexists. cbn [live patients].
        rewrite !by_id_update_id by reflexivity. rewrite Hsome.
        split; [reflexivity|]. cbn. now rewrite orb_true_r.
      - exists patient. split; [exact Hsome | now rewrite orb_false_r]. }
    destruct Hsome1 as (patient1 & Hsome1 & Hgiven1).
    destruct (IH (consents ++ [row]) s1 patient1 Hsome1)
      as (results & rows & s' & patient' & Hrest & Hst & Hrows & Hty & Hfind
          & Hgiven).
    exists (result :: results), (row :: rows), s', patient'.
    split.
    { cbn [PatientAgent.consent_each]. unfold bind at 1. rewrite Hrun.
      cbn [snd fst]. unfold bind at 1. rewrite Hrest. cbn [fst snd].
      unfold ret. now rewrite <- app_assoc. }
    split; [cbn [map]; rewrite Hst; reflexivity|].
    split; [cbn [map]; rewrite Hrows; reflexivity|].
    split; [cbn [map]; rewrite Hty; reflexivity|].
    split; [exact Hfind|].
    rewrite Hgiven, Hgiven1. cbn [existsb]. fold sets.
    now rewrite orb_assoc.
Qed.

(** The CT consent signed and then declined: the second row is declined
    and the flag of the sample patient is set. *)
Lemma consent_flag_witness :
  exists results rows s' patient',
    PatientAgent.consent_each "pat-1" Sample.consent_requests [] Sample.session
    = (Return (results, [] ++ rows), s')
    /\ map PatientAgent.c_status results = ["signed"; "declined"; "signed"]
    /\ map Consent.status rows
       = [Consent.SIGNED; Consent.DECLINED; Consent.SIGNED]
    /\ by_id Patient.id "pat-1" (patients (live s')) = Some patient'
    /\ Patient.consent_given patient' = true.
Proof.
  destruct (consent_flag_is_never_cleared "pat-1" Sample.consent_requests []
              Sample.session Sample.patient eq_refl)
    as (results & rows & s' & patient' & Hrun & Hst & Hrows & _ & Hfind
        & Hgiven).
  exists results, rows, s', patient'.
  split; [exact Hrun|]. split; [exact Hst|]. split; [exact Hrows|].
  split; [exact Hfind | exact Hgiven].
Defined.

(** ** Middleware: the token of a login *)

Lemma size_insert_nonzero (k : string) (v : Py.value)
    (m : gmap string Py.value) :
  Nat.eqb (size (<[k := v]> m)) 0 = false.
Proof.
  apply Nat.eqb_neq. intros Hsize. apply map_size_empty_inv in Hsize.
  apply (f_equal (fun m => m !! k)) in Hsize.
  rewrite lookup_insert_eq, lookup_empty in Hsize. discriminate Hsize.
Qed.

Lemma existsb_eq_str (role : string) (values : list string) :
  existsb (fun v => Py.eq_str (Py.VStr role) v) values = true <-> In role values.
Proof.
  rewrite existsb_exists. cbn [Py.eq_str]. split.
  - intros [v [Hin Heq]]. apply String.eqb_eq in Heq. now subst v.
  - intros Hin. exists role. split; [exact Hin | apply String.eqb_refl].
Qed.

(** The claims of a login pass the validation until the expiry second
    has passed. *)
Lemma validate_login_claims (now' : datetime) (user_id email role : string)
    (expiry : Z) :
  Jose.validate_claims now'
    (<["exp" := Py.VInt expiry]> (Auth.create_token_payload user_id email role))
  = if expiry <? Jose.timestamp now' then Jose.Refused else Jose.Pass.
Proof.
  unfold Jose.validate_claims, Jose.validate_time, Jose.validate_absent,
    Jose.validate_string, Auth.create_token_payload.
  repeat (rewrite lookup_insert_eq || rewrite lookup_insert_ne by discriminate
          || rewrite lookup_empty).
  cbn [Py.int_of Jose.first_failure].
  destruct (Z.leb_spec (Jose.timestamp now') expiry);
    destruct (Z.ltb_spec expiry (Jose.timestamp now')); (reflexivity || lia).
Qed.

(** X21. The token of a login carries the user and the role.  For the
    token issued for [user_id], [email] and [role]: once the expiry second
    has passed, the three checks raise 401 "Invalid or expired token".
    Until then [get_current_user_id] returns the user id and
    [get_current_user_role] the role (an empty one is refused with 401
    "Invalid token payload"), and [require_role] returns the role exactly
    when it is the value of an allowed role and raises 403 "Insufficient
    permissions" otherwise. *)
Theorem login_token_authorises (settings : Settings) (now now' : datetime)
    (user_id email role : string) (expires_delta : option Z)
    (allowed_roles : list UserRole) :
  let token :=
    Auth.create_access_token settings now
      (Auth.create_token_payload user_id email role) expires_delta in
  let lifetime :=
    match expires_delta with
    | Some d => if d =? 0 then minutes (JWT_EXPIRATION_MINUTES settings) else d
    | None => minutes (JWT_EXPIRATION_MINUTES settings)
    end in
  let expiry := Jose.timestamp (now + lifetime) in
  let id := AuthMiddleware.get_current_user_id settings now' (Some token) in
  let held := AuthMiddleware.get_current_user_role settings now' (Some token) in
  let checked :=
    AuthMiddleware.require_role allowed_roles settings now' (Some token) in
  let expired :=
    Raise (HTTPException 401 "Invalid or expired token") : outcome Py.value in
  let invalid :=
    Raise (HTTPException 401 "Invalid token payload") : outcome Py.value in
  (expiry < Jose.timestamp now' ->
   id = expired /\ held = expired /\ checked = expired)
  /\ (Jose.timestamp now' <= expiry ->
      (user_id <> EmptyString -> id = Return (Py.VStr user_id))
      /\ (user_id = EmptyString -> id = invalid)
      /\ (role = EmptyString -> held = invalid /\ checked = invalid)
      /\ (role <> EmptyString ->
          held = Return (Py.VStr role)
          /\ (In role (map UserRole_value allowed_roles) ->
              checked = Return (Py.VStr role))
          /\ (~ In role (map UserRole_value allowed_roles) ->
              checked
              = Raise (HTTPException 403 "Insufficient permissions")))).
Proof.
  cbv zeta.
  unfold AuthMiddleware.require_role, AuthMiddleware.get_current_user_role,
    AuthMiddleware.get_current_user_id.
  pose proof (decode_created_token settings now now'
                (Auth.create_token_payload user_id email role) expires_delta)
    as Hdec.
  cbv zeta in Hdec. rewrite Hdec. clear Hdec.
  rewrite validate_login_claims.
  set (expiry := Jose.timestamp (now + _)).
  split.
  - intros Hexp. apply Z.ltb_lt in Hexp. rewrite Hexp. repeat split.
  - intros Hlive. apply Z.ltb_ge in Hlive. rewrite Hlive.
    cbv beta iota.
    rewrite size_insert_nonzero.
    unfold Auth.create_token_payload.
    rewrite (lookup_insert_ne _ "exp" "sub") by discriminate.
    rewrite lookup_insert_eq.
    rewrite (lookup_insert_ne _ "exp" "role") by discriminate.
    rewrite (lookup_insert_ne _ "sub" "role") by discriminate.
    rewrite (lookup_insert_ne _ "email" "role") by discriminate.
    rewrite lookup_insert_eq.
    cbn [Py.truthy].
    split.
    { intros Hne. destruct (String.eqb_spec user_id "") as [->|_];
        [now contradiction Hne | reflexivity]. }
    split.
    { intros Heq. rewrite Heq. reflexivity. }
    split.
    { intros Heq. rewrite Heq. split; reflexivity. }
    intros Hne. destruct (String.eqb_spec role "") as [->|_];
      [now contradiction Hne|]. cbn [negb].
    split; [reflexivity|]. split.
    + intros Hin. apply existsb_eq_str in Hin. now rewrite Hin.
    + intros Hnot.
      destruct (existsb _ (map UserRole_value allowed_roles)) eqn:Hex;
        [|reflexivity].
      apply existsb_eq_str in Hex. contradiction.
Qed.

(** A nurse's token read within its lifetime, against two lists of
    allowed roles. *)
Example nurse_token_roles :
  let token :=
    Auth.create_access_token default_settings 0
      (Auth.create_token_payload "user-1" "a@b.com" "nurse") None in
  AuthMiddleware.require_role [NURSE; ED_PHYSICIAN] default_settings 5
    (Some token) = Return (Py.VStr "nurse")
  /\ AuthMiddleware.require_role [RADIOLOGIST; ADMIN] default_settings 5
       (Some token)
     = Raise (HTTPException 403 "Insufficient permissions")
  /\ AuthMiddleware.require_role [NURSE] default_settings
       (1441 * us_per_minute) (Some token)
     = Raise (HTTPException 401 "Invalid or expired token").
Proof. cbv zeta. repeat split; vm_compute; reflexivity. Qed.

(** ** Middleware: what the checks let through *)


(** A token signed under the configured key whose "exp" is null: the
    reading of the time raises, and the error is not a 401. *)
Example null_expiry_escapes :
  AuthMiddleware.get_current_user_id default_settings 0
    (Some (Jose.Signed (JWT_ALGORITHM default_settings)
             (JWT_SECRET default_settings)
             (<["sub" := Py.VStr "user-1"]> (<["exp" := Py.VNone]> ∅))))
  = Raise BuiltinError.
Proof. vm_compute. reflexivity. Qed.

(** ** Scan routes: reading and deleting *)

(** X23. Authentication comes first.  When the credentials are refused,
    reading, patching the status of and deleting a scan raise that same
    error and leave the session untouched, whether the scan exists or
    not. *)
Theorem unauthenticated_requests_change_nothing (settings : Settings)
    (now stamp updated : datetime) (scan_id : string) (new_status : ScanStatus)
    (credentials : option Jose.token) (s : Session) (e : exn) :
  AuthMiddleware.get_current_user_id settings now credentials = Raise e ->
  ScansRoutes.get_scan settings now scan_id credentials s = (Raise e, s)
  /\ ScansRoutes.update_scan_status settings now stamp updated scan_id
       new_status credentials s = (Raise e, s)
  /\ ScansRoutes.delete_scan settings now scan_id credentials s = (Raise e, s).
Proof.
  intros Hauth.
  unfold ScansRoutes.get_scan, ScansRoutes.update_scan_status,
    ScansRoutes.delete_scan, ScansRoutes.lift, bind.
  rewrite Hauth. repeat split.
Qed.

Lemma surjective_pairing_fst {A B} (p : A * B) (a : A) :
  fst p = a -> p = (a, snd p).
Proof. intros <-. now destruct p. Qed.

(** Refused: a request whose token is not a signed token. *)
Lemma unauthenticated_witness :
  ScansRoutes.get_scan default_settings 0 "scan-1"
    (Some (Jose.Malformed "abc")) Sample.session
  = (Raise (HTTPException 401 "Invalid or expired token"), Sample.session)
  /\ ScansRoutes.update_scan_status default_settings 0 5 6 "scan-1" COMPLETED
       (Some (Jose.Malformed "abc")) Sample.session
     = (Raise (HTTPException 401 "Invalid or expired token"), Sample.session)
  /\ ScansRoutes.delete_scan default_settings 0 "scan-1"
       (Some (Jose.Malformed "abc")) Sample.session
     = (Raise (HTTPException 401 "Invalid or expired token"), Sample.session).
Proof.
  apply (unauthenticated_requests_change_nothing default_settings 0 5 6
           "scan-1" COMPLETED (Some (Jose.Malformed "abc")) Sample.session).
  reflexivity.
Defined.

Lemma by_id_filter_out {R} (key : R -> string) (i j : string) (rows : list R) :
  by_id key j (List.filter (fun r => negb (String.eqb (key r) i)) rows)
  = if String.eqb i j then None else by_id key j rows.
Proof.
  unfold by_id. induction rows as [|r rows IH].
  - cbn. now destruct (String.eqb i j).
  - cbn [List.filter List.find].
    destruct (String.eqb_spec (key r) i) as [Hi|Hi]; cbn [negb].
    + rewrite IH. destruct (String.eqb_spec i j) as [Hj|Hj]; [reflexivity|].
      destruct (String.eqb_spec (key r) j) as [Hk|_]; [|reflexivity].
      congruence.
    + cbn [List.find]. rewrite IH.
      destruct (String.eqb_spec i j) as [Hj|Hj]; [|reflexivity].
      destruct (String.eqb_spec (key r) j) as [Hk|_]; [|reflexivity].
      congruence.
Qed.

Lemma delete_scan_run (settings : Settings) (now : datetime) (scan_id : string)
    (credentials : option Jose.token) (s : Session) (user_id : Py.value) :
  AuthMiddleware.get_current_user_id settings now credentials = Return user_id ->
  ScansRoutes.delete_scan settings now scan_id credentials s
  = match by_id CTScan.id scan_id (ct_scans (live s)) with
    | None => (Raise (HTTPException 404 "CT scan not found"), s)
    | Some _ =>
        let t := live s in
        let t' :=
          mkTables
            (List.filter (fun r => negb (String.eqb (CTScan.id r) scan_id))
               (ct_scans t))
            (scanners t) (patients t) (faqs t) in
        (Return tt, mkSession t' t')
    end.
Proof.
  intros Hauth.
  unfold ScansRoutes.delete_scan, ScansRoutes.lift, bind, select_scan.
  rewrite Hauth.
  destruct (by_id CTScan.id scan_id (ct_scans (live s))) as [scan|] eqn:Hscan;
    [|reflexivity].
  apply by_id_key in Hscan. rewrite Hscan. reflexivity.
Qed.

(** X24. A deleted scan is gone.  For an authenticated caller, deleting an
    absent scan raises 404 and changes nothing.  Deleting a stored scan
    returns, commits, removes the rows with that id and no other, and
    leaves the scanners (so also their scheduled counts) and the patients
    as they were; afterwards reading, patching and deleting that id raise
    404 and change nothing. *)
Theorem deleted_scan_is_gone (settings : Settings) (now now' stamp updated : datetime)
    (scan_id : string) (new_status : ScanStatus)
    (credentials credentials' : option Jose.token) (s : Session)
    (user_id user_id' : Py.value) :
  AuthMiddleware.get_current_user_id settings now credentials = Return user_id ->
  AuthMiddleware.get_current_user_id settings now' credentials'
  = Return user_id' ->
  let run := ScansRoutes.delete_scan settings now scan_id credentials s in
  let not_found := HTTPException 404 "CT scan not found" in
  (by_id CTScan.id scan_id (ct_scans (live s)) = None ->
   run = (Raise not_found, s))
  /\ (by_id CTScan.id scan_id (ct_scans (live s)) <> None ->
      fst run = Return tt
      /\ stored (snd run) = live (snd run)
      /\ (forall scan, In scan (ct_scans (live (snd run)))
            <-> In scan (ct_scans (live s)) /\ CTScan.id scan <> scan_id)
      /\ (forall other, other <> scan_id ->
            by_id CTScan.id other (ct_scans (live (snd run)))
            = by_id CTScan.id other (ct_scans (live s)))
      /\ scanners (live (snd run)) = scanners (live s)
      /\ patients (live (snd run)) = patients (live s)
      /\ ScansRoutes.get_scan settings now' scan_id credentials' (snd run)
         = (Raise not_found, snd run)
      /\ ScansRoutes.update_scan_status settings now' stamp updated scan_id
            new_status credentials' (snd run)
         = (Raise not_found, snd run)
      /\ ScansRoutes.delete_scan settings now' scan_id credentials' (snd run)
         = (Raise not_found, snd run)).
Proof.
  intros Hauth Hauth'. cbv zeta.
  rewrite (delete_scan_run settings now scan_id credentials s user_id Hauth).
  split.
  - intros Hnone. now rewrite Hnone.
  - intros Hsome.
    destruct (by_id CTScan.id scan_id (ct_scans (live s))) as [scan|] eqn:Hscan;
      [clear Hsome | contradiction].
    cbv zeta. cbn [fst snd].
    set (t' := mkTables _ (scanners (live s)) (patients (live s))
                 (faqs (live s))).
    assert (Hgone : by_id CTScan.id scan_id (ct_scans (live (mkSession t' t')))
                    = None).
    { cbn [live ct_scans t']. rewrite by_id_filter_out.
      now rewrite String.eqb_refl. }
    split; [reflexivity|]. split; [reflexivity|].
    split.
    { intros r. cbn [live t' ct_scans]. rewrite List.filter_In, negb_true_iff.
      now rewrite String.eqb_neq. }
    split.
    { intros other Hne. cbn [live t' ct_scans]. rewrite by_id_filter_out.
      apply String.eqb_neq in Hne. rewrite String.eqb_sym in Hne.
      now rewrite Hne. }
    split; [reflexivity|]. split; [reflexivity|].
    rewrite (delete_scan_run settings now' scan_id credentials' _ user_id' Hauth').
    rewrite Hgone.
    unfold ScansRoutes.get_scan, ScansRoutes.update_scan_status,
      ScansRoutes.lift, bind, select_scan, raise.
    rewrite Hauth', Hgone. repeat split.
Qed.

(** The sample scan deleted by a caller holding a token, then read. *)
Lemma deleted_scan_witness :
  exists after,
    ScansRoutes.delete_scan default_settings 0 "scan-1"
      (Some (Auth.create_access_token default_settings 0
               (Auth.create_token_payload "user-1" "a@b.com" "nurse") None))
      Sample.session
    = (Return tt, after)
    /\ ScansRoutes.get_scan default_settings 0 "scan-1"
         (Some (Auth.create_access_token default_settings 0
                  (Auth.create_token_payload "user-1" "a@b.com" "nurse") None))
         after
       = (Raise (HTTPException 404 "CT scan not found"), after)
    /\ scanners (live after) = scanners (live Sample.session).
Proof.
  cbv zeta.
  assert (Hauth :
    AuthMiddleware.get_current_user_id default_settings 0
      (Some (Auth.create_access_token default_settings 0
               (Auth.create_token_payload "user-1" "a@b.com" "nurse") None))
    = Return (Py.VStr "user-1")) by (vm_compute; reflexivity).
  destruct (deleted_scan_is_gone default_settings 0 0 5 6 "scan-1" COMPLETED
              _ _ Sample.session _ _ Hauth Hauth) as [_ Hgone].
  destruct Hgone as (Hret & _ & _ & _ & Hscanners & _ & Hget & _).
  - vm_compute. intros H. discriminate H.
  - eexists. split; [apply surjective_pairing_fst; exact Hret|].
    split; [exact Hget | exact Hscanners].
Defined.

(** ** Scan routes: the patch, then a read *)

Lemma scan_to_response_fields (scan : CTScan.t)
    (response : ScansRoutes.CTScanResponse) :
  ScansRoutes.scan_to_response scan = Return response ->
  ScansRoutes.id response = CTScan.id scan
  /\ ScansRoutes.status response = ScanStatus_value (CTScan.status scan)
  /\ ScansRoutes.started_time response = CTScan.started_time scan
  /\ ScansRoutes.completed_time response = CTScan.completed_time scan.
Proof.
  unfold ScansRoutes.scan_to_response.
  destruct (CTScan.urgency_level scan), (CTScan.contrast scan),
    (CTScan.critical_findings scan), (CTScan.ordered_at scan),
    (CTScan.created_at scan); intros H; try discriminate H.
  injection H as <-. repeat split.
Qed.

Lemma update_scan_status_run (settings : Settings) (now stamp updated : datetime)
    (scan_id : string) (new_status : ScanStatus)
    (credentials : option Jose.token) (s : Session) (scan : CTScan.t)
    (user_id : Py.value) :
  AuthMiddleware.get_current_user_id settings now credentials = Return user_id ->
  by_id CTScan.id scan_id (ct_scans (live s)) = Some scan ->
  exists s' scan',
    ScansRoutes.update_scan_status settings now stamp updated scan_id
      new_status credentials s
    = (ScansRoutes.scan_to_response scan', s')
    /\ stored s' = live s'
    /\ by_id CTScan.id scan_id (ct_scans (live s')) = Some scan'
    /\ CTScan.status scan' = new_status.
Proof.
  intros Hauth Hscan.
  unfold ScansRoutes.update_scan_status, ScansRoutes.lift, bind, select_scan.
  rewrite Hauth, Hscan.
  unfold assign_scan, commit, refresh, ret, bind.
  destruct new_status; cbn [live stored ct_scans];
    rewrite !by_id_update_id by reflexivity; rewrite Hscan;
    cbn [fmap option_fmap option_map default];
    (eexists _, _; split; [reflexivity|]; split; [reflexivity|];
     cbn [live ct_scans];
     rewrite !by_id_update_id by reflexivity; rewrite Hscan;
     split; reflexivity).
Qed.

(** X25. A read after the patch returns what the patch returned.  When the
    status patch returns a response, the response carries the scan id and
    the new status, the change is committed, and an authenticated read of
    the scan returns that same response and changes nothing. *)
Theorem status_patch_then_get (settings : Settings)
    (now now' stamp updated : datetime) (scan_id : string)
    (new_status : ScanStatus) (credentials credentials' : option Jose.token)
    (s s' : Session) (response : ScansRoutes.CTScanResponse)
    (user_id' : Py.value) :
  ScansRoutes.update_scan_status settings now stamp updated scan_id new_status
    credentials s = (Return response, s') ->
  AuthMiddleware.get_current_user_id settings now' credentials'
  = Return user_id' ->
  ScansRoutes.get_scan settings now' scan_id credentials' s'
  = (Return response, s')
  /\ ScansRoutes.status response = ScanStatus_value new_status
  /\ ScansRoutes.id response = scan_id
  /\ stored s' = live s'.
Proof.
  intros Hrun Hauth'.
  destruct (AuthMiddleware.get_current_user_id settings now credentials)
    as [user_id|e] eqn:Hauth.
  2: { unfold ScansRoutes.update_scan_status, ScansRoutes.lift, bind at 1
         in Hrun.
       rewrite Hauth in Hrun. discriminate Hrun. }
  destruct (by_id CTScan.id scan_id (ct_scans (live s))) as [scan|] eqn:Hscan.
  2: { unfold ScansRoutes.update_scan_status, ScansRoutes.lift, bind,
         select_scan in Hrun.
       rewrite Hauth, Hscan in Hrun. discriminate Hrun. }
  destruct (update_scan_status_run settings now stamp updated scan_id
              new_status credentials s scan user_id Hauth Hscan)
    as (s1 & scan' & Hrun1 & Hcommit & Hfind & Hstatus).
  rewrite Hrun1 in Hrun. injection Hrun as Hresp Hs. subst s1.
  destruct (scan_to_response_fields scan' response Hresp)
    as (Hid & Hst & _).
  split.
  - unfold ScansRoutes.get_scan, ScansRoutes.lift, bind, select_scan.
    rewrite Hauth', Hfind, Hresp. reflexivity.
  - rewrite Hst, Hstatus, Hid. split; [reflexivity|].
    split; [exact (by_id_key _ _ _ _ Hfind) | exact Hcommit].
Qed.

(** The sample scan patched to "in_progress", then read. *)
Lemma status_patch_then_get_witness :
  exists response s',
    ScansRoutes.update_scan_status default_settings 0 5 6 "scan-1" IN_PROGRESS
      (Some (Auth.create_access_token default_settings 0
               (Auth.create_token_payload "user-1" "a@b.com" "nurse") None))
      Sample.session
    = (Return response, s')
    /\ ScansRoutes.get_scan default_settings 7 "scan-1"
         (Some (Auth.create_access_token default_settings 0
                  (Auth.create_token_payload "user-2" "c@d.com" "radiologist")
                  None)) s'
       = (Return response, s')
    /\ ScansRoutes.status response = "in_progress".
Proof.
  destruct (ScansRoutes.update_scan_status default_settings 0 5 6 "scan-1"
              IN_PROGRESS
              (Some (Auth.create_access_token default_settings 0
                       (Auth.create_token_payload "user-1" "a@b.com" "nurse")
                       None))
              Sample.session) as [[response|e] s'] eqn:Hrun.
  - exists response, s'. split; [reflexivity|].
    destruct (status_patch_then_get default_settings 0 7 5 6 "scan-1"
                IN_PROGRESS _
                (Some (Auth.create_access_token default_settings 0
                         (Auth.create_token_payload "user-2" "c@d.com"
                            "radiologist") None))
                Sample.session s' response (Py.VStr "user-2") Hrun)
      as (Hget & Hstatus & _).
    + vm_compute. reflexivity.
    + split; [exact Hget | exact Hstatus].
  - exfalso. vm_compute in Hrun. discriminate Hrun.
Defined.

(** ** Socket manager: one connection *)

Lemma mem_iff (websocket : SocketManager.WebSocket)
    (connections : list SocketManager.WebSocket) :
  SocketManager.mem websocket connections = true <-> In websocket connections.
Proof.
  unfold SocketManager.mem. rewrite existsb_exists. split.
  - intros [x [Hin Heq]]. apply Nat.eqb_eq in Heq. now subst x.
  - intros Hin. exists websocket. split; [exact Hin | apply Nat.eqb_refl].
Qed.

Lemma remove_first_app_new (websocket : SocketManager.WebSocket)
    (connections : list SocketManager.WebSocket) :
  ~ In websocket connections ->
  SocketManager.remove_first websocket (connections ++ [websocket])
  = connections.
Proof.
  induction connections as [|c rest IH]; intros Hnot;
    cbn [app SocketManager.remove_first].
  - now rewrite Nat.eqb_refl.
  - destruct (Nat.eqb_spec websocket c) as [->|_].
    + exfalso. apply Hnot. now left.
    + rewrite IH; [reflexivity|]. intros Hin. apply Hnot. now right.
Qed.

Lemma remove_first_keeps_second (websocket : SocketManager.WebSocket)
    (connections : list SocketManager.WebSocket) :
  In websocket connections ->
  In websocket
    (SocketManager.remove_first websocket (connections ++ [websocket])).
Proof.
  induction connections as [|c rest IH]; intros Hin; [destruct Hin|].
  cbn [app SocketManager.remove_first].
  destruct (Nat.eqb_spec websocket c) as [->|Hne].
  - apply in_or_app. right. now left.
  - right. apply IH. destruct Hin as [Heq|Hin]; [congruence | exact Hin].
Qed.

Lemma remove_first_length (websocket : SocketManager.WebSocket)
    (connections : list SocketManager.WebSocket) :
  SocketManager.mem websocket connections = true ->
  length connections
  = S (length (SocketManager.remove_first websocket connections)).
Proof.
  induction connections as [|c rest IH]; intros Hmem; [discriminate Hmem|].
  cbn [SocketManager.remove_first].
  destruct (Nat.eqb_spec websocket c) as [_|Hne]; [reflexivity|].
  cbn [length]. f_equal. apply IH.
  unfold SocketManager.mem in Hmem |- *. cbn [existsb] in Hmem.
  apply Nat.eqb_neq in Hne. now rewrite Hne in Hmem.
Qed.

(** X26. One connection, one registration.  An accepted connection is
    appended to its room.  When the socket was not in the room (and the
    room was not registered with an empty list), connecting and then
    disconnecting it restores the registry exactly.  When the socket was
    already in the room, it is registered twice and one disconnect removes
    one registration only: the socket stays in the room, which is as long
    as before.  No other room is touched. *)
Theorem connect_then_disconnect (websocket : SocketManager.WebSocket)
    (room : string) (m : SocketManager.t) :
  let before := default [] (SocketManager.active_connections m !! room) in
  let joined := SocketManager.connect true websocket room m in
  let left := SocketManager.disconnect websocket room joined in
  SocketManager.active_connections joined !! room
  = Some (before ++ [websocket])
  /\ (~ In websocket before ->
      SocketManager.active_connections m !! room <> Some [] ->
      left = m)
  /\ (In websocket before ->
      exists remaining,
        SocketManager.active_connections left !! room = Some remaining
        /\ In websocket remaining
        /\ length remaining = length before)
  /\ (forall other, other <> room ->
        SocketManager.active_connections left !! other
        = SocketManager.active_connections m !! other).
Proof.
  cbv zeta. unfold SocketManager.connect.
  set (rooms := match SocketManager.active_connections m !! room with
                | Some _ => SocketManager.active_connections m
                | None => <[room := []]> (SocketManager.active_connections m)
                end).
  assert (Hrooms : default [] (rooms !! room)
                   = default [] (SocketManager.active_connections m !! room)).
  { subst rooms.
    destruct (SocketManager.active_connections m !! room) eqn:E.
    - now rewrite E.
    - now rewrite lookup_insert_eq. }
  rewrite Hrooms.
  set (before := default [] (SocketManager.active_connections m !! room)).
  split; [cbn [SocketManager.active_connections]; apply lookup_insert_eq|].
  unfold SocketManager.disconnect. cbn [SocketManager.active_connections
    SocketManager.user_connections].
  rewrite lookup_insert_eq.
  assert (Hmem : SocketManager.mem websocket (before ++ [websocket]) = true).
  { apply mem_iff. apply in_or_app. right. now left. }
  rewrite Hmem.
  split; [|split].
  - intros Hnot Hnonempty. rewrite (remove_first_app_new _ _ Hnot).
    destruct m as [active users].
    cbn [SocketManager.active_connections SocketManager.user_connections] in *.
    subst rooms before.
    destruct (active !! room) as [l|] eqn:E; cbn [default].
    + destruct l as [|c l]; [now contradiction Hnonempty|].
      rewrite insert_insert_eq. now rewrite (insert_id _ _ _ E).
    + rewrite delete_insert_eq. now rewrite (delete_insert_id _ _ _ E).
  - intros Hin.
    pose proof (remove_first_keeps_second websocket before Hin) as Hkeep.
    pose proof (remove_first_length websocket _ Hmem) as Hlen.
    rewrite length_app in Hlen. cbn [length] in Hlen.
    destruct (SocketManager.remove_first websocket (before ++ [websocket]))
      as [|c rest]; [destruct Hkeep|].
    exists (c :: rest). cbn [SocketManager.active_connections].
    rewrite lookup_insert_eq. split; [reflexivity|].
    split; [exact Hkeep | lia].
  - intros other Hne.
    assert (Hother : rooms !! other
                     = SocketManager.active_connections m !! other).
    { subst rooms. destruct (SocketManager.active_connections m !! room);
        [reflexivity|]. apply lookup_insert_ne. congruence. }
    destruct (SocketManager.remove_first websocket (before ++ [websocket]));
      cbn [SocketManager.active_connections].
    + rewrite lookup_delete_ne by congruence.
      rewrite lookup_insert_ne by congruence. exact Hother.
    + rewrite !lookup_insert_ne by congruence. exact Hother.
Qed.

(** ** Socket manager: the cleanup of a broadcast *)

Lemma remove_first_filter (websocket : SocketManager.WebSocket)
    (connections : list SocketManager.WebSocket) :
  NoDup connections ->
  (if SocketManager.mem websocket connections
   then SocketManager.remove_first websocket connections else connections)
  = List.filter (fun c => negb (Nat.eqb c websocket)) connections.
Proof.
  assert (Hout : forall l, ~ In websocket l ->
            List.filter (fun c => negb (Nat.eqb c websocket)) l = l).
  { induction l as [|c l IH]; intros Hnot; [reflexivity|].
    cbn [List.filter]. destruct (Nat.eqb_spec c websocket) as [->|_].
    - exfalso. apply Hnot. now left.
    - cbn [negb]. rewrite IH; [reflexivity|]. intros H. apply Hnot. now right. }
  intros Hnd.
  destruct (SocketManager.mem websocket connections) eqn:Hmem.
  - clear Hmem. induction connections as [|c rest IH]; [reflexivity|].
    apply NoDup_cons in Hnd as [Hc Hnd].
    cbn [SocketManager.remove_first List.filter].
    rewrite (Nat.eqb_sym c websocket).
    destruct (Nat.eqb_spec websocket c) as [->|Hne]; cbn [negb].
    + symmetry. apply Hout. intros Hin. apply Hc. now apply list_elem_of_In.
    + f_equal. now apply IH.
  - symmetry. apply Hout. intros Hin. apply mem_iff in Hin.
    rewrite Hin in Hmem. discriminate Hmem.
Qed.

Lemma NoDup_filter_list {A} (p : A -> bool) (l : list A) :
  NoDup l -> NoDup (List.filter p l).
Proof.
  induction l as [|x l IH]; intros Hnd; [exact Hnd|].
  apply NoDup_cons in Hnd as [Hx Hnd]. cbn [List.filter].
  destruct (p x); [|now apply IH].
  apply NoDup_cons. split; [|now apply IH].
  intros Hin. apply Hx. apply list_elem_of_In. apply list_elem_of_In in Hin.
  now apply List.filter_In in Hin as [Hin _].
Qed.

Lemma sublist_filter_list {A} (p : A -> bool) (l : list A) :
  sublist (List.filter p l) l.
Proof.
  induction l as [|x l IH]; [constructor|]. cbn [List.filter].
  destruct (p x); [now apply sublist_skip | now apply sublist_cons].
Qed.

Lemma disconnect_room (websocket : SocketManager.WebSocket) (room : string)
    (m : SocketManager.t) (connections : list SocketManager.WebSocket) :
  SocketManager.active_connections m !! room = Some connections ->
  NoDup connections ->
  SocketManager.active_connections (SocketManager.disconnect websocket room m)
    !! room
  = SocketManager.room_entry (List.filter (fun c => negb (Nat.eqb c websocket)) connections).
Proof.
  intros Hroom Hnd. unfold SocketManager.disconnect. rewrite Hroom.
  rewrite (remove_first_filter websocket connections Hnd).
  destruct (List.filter (fun c => negb (Nat.eqb c websocket)) connections);
    cbn [SocketManager.active_connections SocketManager.room_entry].
  - apply lookup_delete_eq.
  - apply lookup_insert_eq.
Qed.

Lemma disconnect_other_room (websocket : SocketManager.WebSocket)
    (room other : string) (m : SocketManager.t) :
  other <> room ->
  SocketManager.active_connections (SocketManager.disconnect websocket room m)
    !! other
  = SocketManager.active_connections m !! other.
Proof.
  intros Hne. unfold SocketManager.disconnect.
  destruct (SocketManager.active_connections m !! room) as [l|]; [|reflexivity].
  destruct (if SocketManager.mem websocket l
            then SocketManager.remove_first websocket l else l);
    cbn [SocketManager.active_connections].
  - apply lookup_delete_ne. congruence.
  - apply lookup_insert_ne. congruence.
Qed.

Lemma disconnect_all_room (room : string)
    (disconnected : list SocketManager.WebSocket) :
  forall (m : SocketManager.t) (connections : list SocketManager.WebSocket),
    NoDup connections ->
    SocketManager.active_connections m !! room = SocketManager.room_entry connections ->
    SocketManager.active_connections
      (fold_left (fun m connection => SocketManager.disconnect connection room m)
         disconnected m) !! room
    = SocketManager.room_entry
        (List.filter (fun c => negb (SocketManager.mem c disconnected))
           connections).
Proof.
  induction disconnected as [|d rest IH]; intros m connections Hnd Hroom;
    cbn [fold_left].
  - rewrite Hroom. f_equal. symmetry. clear.
    induction connections as [|c l IHl]; [reflexivity|].
    cbn [List.filter SocketManager.mem existsb negb]. f_equal. exact IHl.
  - assert (Hstep :
      SocketManager.active_connections (SocketManager.disconnect d room m)
        !! room
      = SocketManager.room_entry (List.filter (fun c => negb (Nat.eqb c d)) connections)).
    { destruct connections as [|c l].
      - cbn [SocketManager.room_entry] in Hroom. unfold SocketManager.disconnect.
        now rewrite Hroom.
      - now apply disconnect_room. }
    rewrite (IH _ _ (NoDup_filter_list _ _ Hnd) Hstep). f_equal.
    clear. induction connections as [|c l IHl]; [reflexivity|].
    cbn [List.filter]. unfold SocketManager.mem at 2. cbn [existsb].
    destruct (Nat.eqb c d); cbn [negb orb].
    + exact IHl.
    + cbn [List.filter]. fold (SocketManager.mem c rest).
      destruct (SocketManager.mem c rest); cbn [negb]; now rewrite IHl.
Qed.

Lemma disconnect_all_other_room (room other : string)
    (disconnected : list SocketManager.WebSocket) :
  other <> room ->
  forall m,
    SocketManager.active_connections
      (fold_left (fun m connection => SocketManager.disconnect connection room m)
         disconnected m) !! other
    = SocketManager.active_connections m !! other.
Proof.
  intros Hne. induction disconnected as [|d rest IH]; intros m; cbn [fold_left].
  - reflexivity.
  - rewrite IH. now apply disconnect_other_room.
Qed.

Lemma in_failed_sends (fails : nat -> bool)
    (connections : list SocketManager.WebSocket) :
  forall (k : nat) (w : SocketManager.WebSocket),
    In w (SocketManager.failed_sends fails k connections)
    <-> exists i, connections !! i = Some w /\ fails (k + i)%nat = true.
Proof.
  induction connections as [|c l IH]; intros k w;
    cbn [SocketManager.failed_sends].
  - split; [intros [] | intros [i [H _]]; discriminate H].
  - assert (Hrest : In w (SocketManager.failed_sends fails (S k) l)
                    <-> exists i, l !! i = Some w
                                  /\ fails (k + S i)%nat = true).
    { rewrite IH. split; intros [i [Hi Hf]]; exists i; split; trivial;
        [replace (k + S i)%nat with (S k + i)%nat by lia
        |replace (S k + i)%nat with (k + S i)%nat by lia]; exact Hf. }
    destruct (fails k) eqn:Hk.
    + cbn [In]. rewrite Hrest. split.
      * intros [<-|[i [Hi Hf]]].
        -- exists 0%nat. split; [reflexivity|]. now rewrite Nat.add_0_r.
        -- exists (S i). now split.
      * intros [[|i] [Hi Hf]].
        -- left. cbn in Hi. now injection Hi.
        -- right. exists i. now split.
    + rewrite Hrest. split.
      * intros [i [Hi Hf]]. exists (S i). now split.
      * intros [[|i] [Hi Hf]].
        -- rewrite Nat.add_0_r in Hf. rewrite Hf in Hk. discriminate Hk.
        -- exists i. now split.
Qed.

(** X27. What a broadcast cleans up.  In a room whose connections are
    pairwise distinct, the connections left after a broadcast are exactly
    those whose send did not fail, in their earlier order; the room is
    never left registered with an empty list; no other room changes; and
    when no send fails the registry is unchanged. *)
Theorem broadcast_drops_failed_connections (fails : nat -> bool)
    (room : string) (m : SocketManager.t)
    (connections : list SocketManager.WebSocket) :
  SocketManager.active_connections m !! room = Some connections ->
  NoDup connections ->
  let after := SocketManager.broadcast fails room m in
  let remaining :=
    default [] (SocketManager.active_connections after !! room) in
  (forall w, In w remaining
     <-> exists k, connections !! k = Some w /\ fails k = false)
  /\ sublist remaining connections
  /\ (connections <> [] ->
      SocketManager.active_connections after !! room <> Some [])
  /\ (forall other, other <> room ->
        SocketManager.active_connections after !! other
        = SocketManager.active_connections m !! other)
  /\ ((forall k, (k < length connections)%nat -> fails k = false) ->
      after = m).
Proof.
  intros Hroom Hnd. cbv zeta. unfold SocketManager.broadcast. rewrite Hroom.
  set (failed := SocketManager.failed_sends fails 0 connections).
  set (kept := List.filter (fun c => negb (SocketManager.mem c failed))
                 connections).
  assert (Hafter :
    connections <> [] ->
    SocketManager.active_connections
      (fold_left (fun m connection => SocketManager.disconnect connection room m)
         failed m) !! room = SocketManager.room_entry kept).
  { intros Hne. apply disconnect_all_room; [exact Hnd|].
    rewrite Hroom. destruct connections; [now contradiction Hne | reflexivity]. }
  assert (Hdefault :
    default [] (SocketManager.active_connections
                  (fold_left
                     (fun m connection =>
                        SocketManager.disconnect connection room m)
                     failed m) !! room) = kept).
  { destruct connections as [|c l] eqn:Hc.
    - subst failed kept. cbn [SocketManager.failed_sends fold_left].
      now rewrite Hroom.
    - rewrite Hafter by discriminate. now destruct kept. }
  rewrite Hdefault.
  split.
  { intros w. subst kept. rewrite List.filter_In, negb_true_iff. split.
    - intros [Hin Hmem]. apply list_elem_of_In in Hin.
      apply list_elem_of_lookup in Hin as [k Hk].
      exists k. split; [exact Hk|].
      destruct (fails k) eqn:Hf; [|reflexivity].
      assert (Hw : SocketManager.mem w failed = true).
      { apply mem_iff. apply in_failed_sends. exists k. now split. }
      rewrite Hw in Hmem. discriminate Hmem.
    - intros [k [Hk Hf]]. split.
      + apply list_elem_of_In. apply list_elem_of_lookup. now exists k.
      + destruct (SocketManager.mem w failed) eqn:Hw; [|reflexivity].
        apply mem_iff in Hw. apply in_failed_sends in Hw as [i [Hi Hfi]].
        cbn in Hfi.
        assert (i = k) by (eapply NoDup_lookup; eauto). subst i.
        rewrite Hfi in Hf. discriminate Hf. }
  split; [apply sublist_filter_list|].
  split.
  { intros Hne. rewrite (Hafter Hne). destruct kept; discriminate. }
  split; [intros other Hother; now apply disconnect_all_other_room|].
  intros Hall.
  assert (Hnone : failed = []).
  { destruct failed as [|w l] eqn:Hfailed; [reflexivity|]. exfalso.
    assert (Hin : In w (SocketManager.failed_sends fails 0 connections))
      by (fold failed; rewrite Hfailed; now left).
    apply in_failed_sends in Hin as [i [Hi Hf]]. cbn in Hf.
    rewrite Hall in Hf; [discriminate Hf|].
    now apply lookup_lt_Some in Hi. }
  now rewrite Hnone.
Qed.

(** Three clients in a room, the send to the second one fails. *)
Lemma broadcast_cleanup_witness :
  sublist
    (default []
       (SocketManager.active_connections
          (SocketManager.broadcast (fun k => Nat.eqb k 1) "scans"
             (SocketManager.run
                [SocketManager.Connect true 1%nat "scans";
                 SocketManager.Connect true 2%nat "scans";
                 SocketManager.Connect true 3%nat "scans"])) !! "scans"))
    [1%nat; 2%nat; 3%nat]
  /\ SocketManager.active_connections
       (SocketManager.broadcast (fun k => Nat.eqb k 1) "scans"
          (SocketManager.run
             [SocketManager.Connect true 1%nat "scans";
              SocketManager.Connect true 2%nat "scans";
              SocketManager.Connect true 3%nat "scans"])) !! "scans"
     <> Some [].
Proof.
  destruct (broadcast_drops_failed_connections (fun k => Nat.eqb k 1) "scans"
              (SocketManager.run
                 [SocketManager.Connect true 1%nat "scans";
                  SocketManager.Connect true 2%nat "scans";
                  SocketManager.Connect true 3%nat "scans"])
              [1%nat; 2%nat; 3%nat])
    as (_ & Hsub & Hentry & _).
  - vm_compute. reflexivity.
  - apply (bool_decide_unpack _). vm_compute. exact I.
  - split; [exact Hsub|]. apply Hentry. intros H. discriminate H.
Defined.

(** ** Socket manager: notifications *)

Lemma disconnect_user_connections (websocket : SocketManager.WebSocket)
    (room : string) (m : SocketManager.t) :
  SocketManager.user_connections (SocketManager.disconnect websocket room m)
  = SocketManager.user_connections m.
Proof.
  unfold SocketManager.disconnect.
  destruct (SocketManager.active_connections m !! room) as [l|]; [|reflexivity].
  destruct (if SocketManager.mem websocket l
            then SocketManager.remove_first websocket l else l); reflexivity.
Qed.

Lemma step_user_connections (m : SocketManager.t) (o : SocketManager.op) :
  SocketManager.user_connections (SocketManager.step m o)
  = SocketManager.user_connections m.
Proof.
  destruct o as [accepted websocket room | websocket room | fails room];
    cbn [SocketManager.step].
  - unfold SocketManager.connect. now destruct accepted.
  - apply disconnect_user_connections.
  - unfold SocketManager.broadcast.
    destruct (SocketManager.active_connections m !! room) as [l|];
      [|reflexivity].
    generalize (SocketManager.failed_sends fails 0 l) as failed.
    intros failed. revert m. induction failed as [|d rest IH]; intros m;
      cbn [fold_left]; [reflexivity|].
    rewrite IH. apply disconnect_user_connections.
Qed.

(** X28. Notifications go to the dashboard.  No operation of the manager
    registers a user connection, so after any run of connects, disconnects
    and broadcasts the user table is empty, and [broadcast_notification]
    broadcasts to the room "dashboard" whatever user it is given. *)
Theorem notifications_go_to_the_dashboard (ops : list SocketManager.op)
    (fails : nat -> bool) (user_id : option string) :
  SocketManager.user_connections (SocketManager.run ops) = ∅
  /\ SocketManager.broadcast_notification fails user_id (SocketManager.run ops)
     = SocketManager.broadcast fails "dashboard" (SocketManager.run ops)
  /\ SocketManager.user_connections
       (SocketManager.broadcast_notification fails user_id
          (SocketManager.run ops)) = ∅.
Proof.
  assert (Hempty : SocketManager.user_connections (SocketManager.run ops) = ∅).
  { unfold SocketManager.run.
    assert (Hfold : forall m,
              SocketManager.user_connections
                (fold_left SocketManager.step ops m)
              = SocketManager.user_connections m).
    { induction ops as [|o rest IH]; intros m; cbn [fold_left]; [reflexivity|].
      rewrite IH. apply step_user_connections. }
    rewrite Hfold. reflexivity. }
  assert (Hsame :
    SocketManager.broadcast_notification fails user_id (SocketManager.run ops)
    = SocketManager.broadcast fails "dashboard" (SocketManager.run ops)).
  { unfold SocketManager.broadcast_notification.
    destruct user_id as [u|]; [|reflexivity].
    destruct (negb (String.eqb u "")); [|reflexivity].
    rewrite Hempty, lookup_empty. reflexivity. }
  split; [exact Hempty|]. split; [exact Hsame|].
  rewrite Hsame.
  change (SocketManager.broadcast fails "dashboard" (SocketManager.run ops))
    with (SocketManager.step (SocketManager.run ops)
            (SocketManager.Broadcast fails "dashboard")).
  rewrite step_user_connections. exact Hempty.
Qed.

(** ** Orchestration agent: pending actions *)

Lemma append_entries_outcome (action_needed : string) (due : CTScan.t -> bool)
    (scans : list CTScan.t) :
  forall pending_scans,
    OrchestrationAgent.append_entries action_needed due scans pending_scans
    = if forallb
           (fun scan =>
              negb (due scan)
              || match CTScan.urgency_level scan with
                 | Some _ => true
                 | None => false
                 end) scans
      then
        Return
          (pending_scans
           ++ map
                (fun scan =>
                   OrchestrationAgent.mkPendingAction (CTScan.id scan)
                     (CTScan.scan_number scan)
                     (match CTScan.urgency_level scan with
                      | Some urgency => UrgencyLevel_value urgency
                      | None => EmptyString
                      end) action_needed)
                (List.filter due scans))
      else Raise BuiltinError.
Proof.
  induction scans as [|scan rest IH]; intros pending_scans;
    cbn [OrchestrationAgent.append_entries forallb List.filter].
  - cbn [map]. now rewrite app_nil_r.
  - destruct (due scan); cbn [negb orb andb].
    + unfold OrchestrationAgent.pending_entry.
      destruct (CTScan.urgency_level scan) as [urgency|] eqn:Hurgency;
        [|reflexivity].
      rewrite IH. cbn [andb map].
      destruct (forallb _ rest); [|reflexivity].
      now rewrite <- app_assoc, Hurgency.
    + apply IH.
Qed.

Lemma filter_length_disjoint {A} (p q : A -> bool) (l : list A) :
  (forall x, p x = true -> q x = false) ->
  (length (List.filter p l) + length (List.filter q l))%nat
  = length (List.filter (fun x => p x || q x) l).
Proof.
  intros Hpq. induction l as [|x l IH]; [reflexivity|].
  cbn [List.filter]. destruct (p x) eqn:Hp.
  - rewrite (Hpq x Hp). cbn [orb length]. now rewrite <- IH.
  - cbn [orb]. destruct (q x); cbn [length]; rewrite <- IH; lia.
Qed.

Lemma filter_filter_and {A} (p q : A -> bool) (l : list A) :
  List.filter q (List.filter p l) = List.filter (fun x => p x && q x) l.
Proof.
  induction l as [|x l IH]; [reflexivity|]. cbn [List.filter].
  destruct (p x); cbn [andb List.filter]; [destruct (q x)|]; now rewrite IH.
Qed.

Lemma filter_ext_list {A} (p q : A -> bool) (l : list A) :
  (forall x, p x = q x) -> List.filter p l = List.filter q l.
Proof.
  intros H. induction l as [|x l IH]; [reflexivity|].
  cbn [List.filter]. rewrite H, IH. reflexivity.
Qed.

Lemma forallb_false_exists {A} (p : A -> bool) (l : list A) :
  forallb p l = false -> exists x, In x l /\ p x = false.
Proof.
  induction l as [|x l IH]; [discriminate|]. cbn [forallb].
  destruct (p x) eqn:Hp; cbn [andb].
  - intros H. destruct (IH H) as (y & Hin & Hy). exists y. split; [now right|].
    exact Hy.
  - intros _. exists x. split; [now left | exact Hp].
Qed.

Lemma filter_true_list {A} (l : list A) : List.filter (fun _ => true) l = l.
Proof. induction l as [|x l IH]; [reflexivity|]. cbn. now rewrite IH. Qed.

Lemma filter_map_length {A B} (q : B -> bool) (f : A -> B) (l : list A) :
  length (List.filter q (map f l))
  = length (List.filter (fun x => q (f x)) l).
Proof.
  induction l as [|x l IH]; [reflexivity|]. cbn [map List.filter].
  destruct (q (f x)); cbn [length]; now rewrite IH.
Qed.

Lemma ScanStatus_eqb_eq (a b : ScanStatus) :
  OrchestrationAgent.ScanStatus_eqb a b = true <-> a = b.
Proof.
  destruct a, b; cbn; split; intros H;
    first [reflexivity | discriminate H].
Qed.

(** The three loops together count each due scan once. *)
Lemma pending_count {B} (now : datetime) (f1 f2 f3 : CTScan.t -> B)
    (q : B -> bool) (g : CTScan.t -> bool) (rows : list CTScan.t) :
  (forall scan, q (f1 scan) = g scan) ->
  (forall scan, q (f2 scan) = g scan) ->
  (forall scan, q (f3 scan) = g scan) ->
  length
    (List.filter q
       (map f1 (OrchestrationAgent.scans_with_status VALIDATED rows)
        ++ map f2
             (List.filter
                (fun scan =>
                   match CTScan.scheduled_time scan with
                   | Some t => t <=? now
                   | None => false
                   end) (OrchestrationAgent.scans_with_status SCHEDULED rows))
        ++ map f3 (OrchestrationAgent.scans_with_status COMPLETED rows)))
  = length
      (List.filter
         (fun scan =>
            match CTScan.status scan with
            | VALIDATED | COMPLETED => true
            | SCHEDULED =>
                match CTScan.scheduled_time scan with
                | Some t => t <=? now
                | None => false
                end
            | _ => false
            end && g scan) rows).
Proof.
  intros H1 H2 H3. unfold OrchestrationAgent.scans_with_status.
  rewrite !List.filter_app, !length_app, !filter_map_length.
  rewrite (filter_ext_list _ _ _ H1), (filter_ext_list _ _ _ H2),
    (filter_ext_list _ _ _ H3).
  rewrite !filter_filter_and.
  rewrite filter_length_disjoint.
  - rewrite filter_length_disjoint.
    + f_equal. apply filter_ext_list. intros scan.
      destruct (CTScan.status scan); cbn;
        destruct (CTScan.scheduled_time scan); cbn;
        destruct (g scan); cbn; try reflexivity;
        now rewrite ?andb_true_r, ?andb_false_r, ?orb_false_r.
    + intros scan. destruct (CTScan.status scan); cbn; intros H;
        first [reflexivity | discriminate H].
  - intros scan. destruct (CTScan.status scan); cbn; intros H;
      first [reflexivity | discriminate H
            | now rewrite ?andb_false_r, ?orb_false_r in * ].
Qed.

(** X29. [get_pending_actions] changes nothing.  A scan is due when it
    is validated, when it is completed, or when it is scheduled for a time
    that is not after the current time.  When a due scan has no urgency
    the call raises.  Otherwise it returns one entry for each due scan,
    with its id, its number, the value of its urgency and the action of
    its status ("Schedule scan", "Start scan", "Generate report");
    [total_pending] is the number of entries, which is the number of due
    scans, and [urgent_count] is the number of due scans whose urgency is
    immediate. *)
Theorem pending_actions_listed (now : datetime) (user_role : option string)
    (s : Session) :
  let run := OrchestrationAgent.get_pending_actions now user_role s in
  let due (scan : CTScan.t) :=
    match CTScan.status scan with
    | VALIDATED | COMPLETED => true
    | SCHEDULED =>
        match CTScan.scheduled_time scan with
        | Some t => t <=? now
        | None => false
        end
    | _ => false
    end in
  let action_of (status : ScanStatus) :=
    match status with
    | VALIDATED => "Schedule scan"
    | SCHEDULED => "Start scan"
    | _ => "Generate report"
    end in
  snd run = s
  /\ ((exists scan,
         In scan (ct_scans (live s)) /\ due scan = true
         /\ CTScan.urgency_level scan = None) ->
      fst run = Raise BuiltinError)
  /\ ((forall scan,
         In scan (ct_scans (live s)) -> due scan = true ->
         CTScan.urgency_level scan <> None) ->
      exists result,
        fst run = Return result
        /\ (forall entry,
              In entry (OrchestrationAgent.pending_actions result)
              <-> exists scan urgency,
                    In scan (ct_scans (live s)) /\ due scan = true
                    /\ CTScan.urgency_level scan = Some urgency
                    /\ entry
                       = OrchestrationAgent.mkPendingAction (CTScan.id scan)
                           (CTScan.scan_number scan)
                           (UrgencyLevel_value urgency)
                           (action_of (CTScan.status scan)))
        /\ OrchestrationAgent.total_pending result
           = Z.of_nat (length (OrchestrationAgent.pending_actions result))
        /\ OrchestrationAgent.total_pending result
           = Z.of_nat (length (List.filter due (ct_scans (live s))))
        /\ 0 <= OrchestrationAgent.urgent_count result
           <= OrchestrationAgent.total_pending result
        /\ OrchestrationAgent.urgent_count result
           = Z.of_nat
               (length
                  (List.filter
                     (fun scan =>
                        due scan
                        && match CTScan.urgency_level scan with
                           | Some IMMEDIATE => true
                           | _ => false
                           end) (ct_scans (live s))))).
Proof.
  intros run due action_of. subst run.
  unfold OrchestrationAgent.get_pending_actions. cbv zeta. cbn [fst snd].
  split; [reflexivity|].
  set (rows := ct_scans (live s)).
  set (late := fun scan : CTScan.t =>
                 match CTScan.scheduled_time scan with
                 | Some t => t <=? now
                 | None => false
                 end).
  assert (Hall : forall (status : ScanStatus) (d : CTScan.t -> bool),
            forallb
              (fun scan =>
                 negb (d scan)
                 || match CTScan.urgency_level scan with
                    | Some _ => true
                    | None => false
                    end)
              (OrchestrationAgent.scans_with_status status rows) = false ->
            exists scan,
              In scan rows /\ CTScan.status scan = status /\ d scan = true
              /\ CTScan.urgency_level scan = None).
  { intros status d Hf.
    destruct (forallb_false_exists _ _ Hf) as (scan & Hin & Hbad).
    unfold OrchestrationAgent.scans_with_status in Hin.
    apply List.filter_In in Hin as [Hin Hst].
    apply ScanStatus_eqb_eq in Hst.
    exists scan. split; [exact Hin|]. split; [exact Hst|].
    destruct (d scan); [|discriminate Hbad].
    destruct (CTScan.urgency_level scan); [discriminate Hbad | now split]. }
  assert (Hok : forall (status : ScanStatus) (d : CTScan.t -> bool),
            forallb
              (fun scan =>
                 negb (d scan)
                 || match CTScan.urgency_level scan with
                    | Some _ => true
                    | None => false
                    end)
              (OrchestrationAgent.scans_with_status status rows) = true ->
            forall scan,
              In scan rows -> CTScan.status scan = status -> d scan = true ->
              CTScan.urgency_level scan <> None).
  { intros status d Hf scan Hin Hst Hd.
    rewrite forallb_forall in Hf.
    assert (Hmem : In scan (OrchestrationAgent.scans_with_status status rows)).
    { apply List.filter_In. split; [exact Hin|]. now apply ScanStatus_eqb_eq. }
    specialize (Hf scan Hmem). rewrite Hd in Hf. cbn [negb orb] in Hf.
    destruct (CTScan.urgency_level scan); [discriminate | discriminate Hf]. }
  rewrite append_entries_outcome.
  destruct (forallb _ (OrchestrationAgent.scans_with_status VALIDATED rows))
    eqn:F1.
  2: { split; [reflexivity|]. intros Hgood. exfalso.
       destruct (Hall _ _ F1) as (scan & Hin & Hst & _ & Hnone).
       apply (Hgood scan Hin); [|exact Hnone].
       unfold due. now rewrite Hst. }
  rewrite append_entries_outcome.
  destruct (forallb _ (OrchestrationAgent.scans_with_status SCHEDULED rows))
    eqn:F2.
  2: { split; [reflexivity|]. intros Hgood. exfalso.
       destruct (Hall _ _ F2) as (scan & Hin & Hst & Hd & Hnone).
       apply (Hgood scan Hin); [|exact Hnone].
       unfold due. rewrite Hst. exact Hd. }
  rewrite append_entries_outcome.
  destruct (forallb _ (OrchestrationAgent.scans_with_status COMPLETED rows))
    eqn:F3.
  2: { split; [reflexivity|]. intros Hgood. exfalso.
       destruct (Hall _ _ F3) as (scan & Hin & Hst & _ & Hnone).
       apply (Hgood scan Hin); [|exact Hnone].
       unfold due. now rewrite Hst. }
  assert (Hset : forall scan,
            In scan rows -> due scan = true ->
            CTScan.urgency_level scan <> None).
  { intros scan Hin Hdue. unfold due in Hdue.
    destruct (CTScan.status scan) eqn:Hst; try discriminate Hdue.
    - exact (Hok _ _ F1 scan Hin Hst eq_refl).
    - exact (Hok _ _ F2 scan Hin Hst Hdue).
    - exact (Hok _ _ F3 scan Hin Hst eq_refl). }
  split.
  { intros (scan & Hin & Hdue & Hnone). exfalso.
    exact (Hset scan Hin Hdue Hnone). }
  intros _. eexists. split; [reflexivity|].
  cbn [OrchestrationAgent.pending_actions OrchestrationAgent.total_pending
       OrchestrationAgent.urgent_count].
  rewrite !filter_true_list. cbn [app]. rewrite <- !app_assoc.
  fold late.
  split.
  { intros entry. rewrite !in_app_iff, !in_map_iff.
    unfold OrchestrationAgent.scans_with_status.
    split.
    - intros [(scan & <- & Hin) | [(scan & <- & Hin) | (scan & <- & Hin)]].
      + apply List.filter_In in Hin as [Hin Hst].
        apply ScanStatus_eqb_eq in Hst.
        assert (Hdue : due scan = true) by (unfold due; now rewrite Hst).
        destruct (CTScan.urgency_level scan) as [urgency|] eqn:Hu;
          [|now destruct (Hset scan Hin Hdue)].
        exists scan, urgency. cbn [OrchestrationAgent.p_action_needed].
        rewrite Hst. repeat split; trivial.
      + apply List.filter_In in Hin as [Hin Hlate].
        apply List.filter_In in Hin as [Hin Hst].
        apply ScanStatus_eqb_eq in Hst.
        assert (Hdue : due scan = true) by (unfold due; now rewrite Hst).
        destruct (CTScan.urgency_level scan) as [urgency|] eqn:Hu;
          [|now destruct (Hset scan Hin Hdue)].
        exists scan, urgency. cbn [OrchestrationAgent.p_action_needed].
        rewrite Hst. repeat split; trivial.
      + apply List.filter_In in Hin as [Hin Hst].
        apply ScanStatus_eqb_eq in Hst.
        assert (Hdue : due scan = true) by (unfold due; now rewrite Hst).
        destruct (CTScan.urgency_level scan) as [urgency|] eqn:Hu;
          [|now destruct (Hset scan Hin Hdue)].
        exists scan, urgency. cbn [OrchestrationAgent.p_action_needed].
        rewrite Hst. repeat split; trivial.
    - intros (scan & urgency & Hin & Hdue & Hu & ->).
      unfold due in Hdue.
      destruct (CTScan.status scan) eqn:Hst; try discriminate Hdue;
        cbn [action_of].
      + left. exists scan. rewrite Hu. split; [reflexivity|].
        apply List.filter_In. split; [exact Hin|]. now apply ScanStatus_eqb_eq.
      + right. left. exists scan. rewrite Hu. split; [reflexivity|].
        apply List.filter_In. split; [|exact Hdue].
        apply List.filter_In. split; [exact Hin|]. now apply ScanStatus_eqb_eq.
      + right. right. exists scan. rewrite Hu. split; [reflexivity|].
        apply List.filter_In. split; [exact Hin|]. now apply ScanStatus_eqb_eq. }
  split; [reflexivity|].
  match goal with
  | |- context [length ?l] =>
      match l with
      | map _ _ ++ _ => set (entries := l)
      end
  end.
  assert (Htotal : length entries = length (List.filter due rows)).
  { rewrite <- (filter_true_list entries). subst entries.
    rewrite (pending_count now _ _ _ (fun _ => true) (fun _ => true) rows)
      by reflexivity.
    f_equal. apply filter_ext_list. intros scan. fold (due scan).
    apply andb_true_r. }
  split; [now rewrite Htotal|].
  assert (Hle : (length (List.filter
                           (fun entry =>
                              (OrchestrationAgent.p_urgency entry
                               =? "immediate")%string) entries)
                 <= length entries)%nat).
  { generalize entries. intros l. induction l as [|x l IH]; [reflexivity|].
    cbn [List.filter]. destruct (_ =? _)%string; cbn [length]; lia. }
  split; [lia|].
  f_equal. subst entries.
  apply (pending_count now _ _ _ _
           (fun scan => match CTScan.urgency_level scan with
                        | Some IMMEDIATE => true
                        | _ => false
                        end) rows);
    intros scan; cbn [OrchestrationAgent.p_urgency];
    destruct (CTScan.urgency_level scan) as [[| |]|]; reflexivity.
Qed.

(** ** Orchestration agent: the workflow timeline *)

(** X30. [get_workflow_status] changes nothing, raises "CT scan not
    found" for an absent scan and raises for a scan without urgency.
    Otherwise the timeline has the seven steps in their order, and the
    completed steps are a prefix of it: one step for an ordered or a
    cancelled scan, two for a validated one, and so on up to seven for a
    reported one.  The turnaround time is present exactly when the scan
    has a completion time and an order time that differ. *)
Theorem workflow_timeline_is_a_prefix (round_minutes : Z -> float64)
    (scan_id : string) (s : Session) :
  let run := OrchestrationAgent.get_workflow_status round_minutes scan_id s in
  let reached (status : ScanStatus) : nat :=
    match status with
    | ORDERED | CANCELLED => 1
    | VALIDATED => 2
    | SCHEDULED => 3
    | IN_PREP => 4
    | IN_PROGRESS => 5
    | COMPLETED => 6
    | REPORTED => 7
    end%nat in
  snd run = s
  /\ (by_id CTScan.id scan_id (ct_scans (live s)) = None ->
      fst run = Raise (ValueError "CT scan not found"))
  /\ (forall scan,
        by_id CTScan.id scan_id (ct_scans (live s)) = Some scan ->
        (CTScan.urgency_level scan = None -> fst run = Raise BuiltinError)
        /\ (CTScan.urgency_level scan <> None ->
            exists result,
              fst run = Return result
              /\ OrchestrationAgent.w_scan_id result = scan_id
              /\ OrchestrationAgent.w_current_status result
                 = ScanStatus_value (CTScan.status scan)
              /\ OrchestrationAgent.w_patient_name result
                 = Patient.name
                     <$> by_id Patient.id (CTScan.patient_id scan)
                           (patients (live s))
              /\ map OrchestrationAgent.step
                   (OrchestrationAgent.w_timeline result)
                 = [ "Order Placed"; "Clinical Validation"; "Scheduled";
                     "In Preparation"; "Scanning"; "Completed"; "Reported" ]
              /\ map OrchestrationAgent.completed
                   (OrchestrationAgent.w_timeline result)
                 = repeat true (reached (CTScan.status scan))
                   ++ repeat false (7 - reached (CTScan.status scan))
              /\ (OrchestrationAgent.w_turnaround_time_minutes result <> None
                  <-> exists completed_time ordered_at,
                        CTScan.completed_time scan = Some completed_time
                        /\ CTScan.ordered_at scan = Some ordered_at
                        /\ completed_time <> ordered_at))).
Proof.
  intros run reached. subst run.
  unfold OrchestrationAgent.get_workflow_status, bind, select_scan,
    select_patient, raise, ret.
  destruct (by_id CTScan.id scan_id (ct_scans (live s))) as [scan|] eqn:Hscan.
  2: { split; [reflexivity|]. split; [reflexivity|].
       intros scan H. discriminate H. }
  apply by_id_key in Hscan as Hkey.
  destruct (CTScan.urgency_level scan) as [urgency|] eqn:Hu; cbn [fst snd].
  2: { split; [reflexivity|]. split; [intros H; discriminate H|].
       intros scan' H. injection H as <-. rewrite Hu.
       split; [reflexivity|]. intros H. now contradiction H. }
  split; [reflexivity|]. split; [intros H; discriminate H|].
  intros scan' H. injection H as <-. rewrite Hu.
  split; [intros H; discriminate H|]. intros _.
  eexists. split; [reflexivity|].
  cbn [OrchestrationAgent.w_scan_id OrchestrationAgent.w_current_status
       OrchestrationAgent.w_patient_name OrchestrationAgent.w_timeline
       OrchestrationAgent.w_turnaround_time_minutes].
  split; [exact Hkey|]. split; [reflexivity|]. split; [reflexivity|].
  split; [reflexivity|].
  split; [unfold OrchestrationAgent.timeline_of; cbn [map OrchestrationAgent.completed];
          destruct (CTScan.status scan); reflexivity|].
  destruct (CTScan.completed_time scan) as [c|], (CTScan.ordered_at scan) as [o|].
  - destruct (Z.eqb_spec (c - o) 0) as [Hz|Hz]; split.
    + intros H. now contradiction H.
    + intros (c' & o' & Hc & Ho & Hne). injection Hc as <-. injection Ho as <-.
      exfalso. apply Hne. lia.
    + intros _. exists c, o. repeat split. intros ->. apply Hz. lia.
    + intros _ H. discriminate H.
  - split; [intros H; now contradiction H|].
    intros (c' & o' & _ & Ho & _). discriminate Ho.
  - split; [intros H; now contradiction H|].
    intros (c' & o' & Hc & _). discriminate Hc.
  - split; [intros H; now contradiction H|].
    intros (c' & o' & Hc & _). discriminate Hc.
Qed.
